(** * Verification of the WhatsApp chatbot webhook (app.py)

    A shallow embedding of [app.py]: the Flask views [whatsapp_webhook] and
    [register_student] and the helpers [get_department] and [get_next_class],
    over a model of the three external collaborators (the Firebase Realtime
    Database, the WhatsApp send endpoint and the chat-completion API).

    Conventions of the model.
    - A Python string is the [string] of the bytes of its UTF-8 encoding.
      Equality, concatenation, [startswith] and the substring test of two
      strings are those of their encodings.  [strip] and [split] remove and
      split at the white space of Unicode.
    - The tables of Unicode that are too large to write out are fields of the
      environment: [lower] is [str.lower], and [decimal] reads a decimal digit
      of any script, as the pattern [\d] of [strptime] does.  Every theorem
      holds for every such table; the sample environments have small tables
      (the letters and the digits of ASCII, and in one case the fullwidth
      digits), which agree with those of Unicode on the strings of the
      samples.  A code point that UTF-8 does
      not encode (a lone surrogate, which JSON can carry) stands as the three
      bytes that the scheme of UTF-8 gives it.
    - Decoded JSON is the type [value]; JSON numbers are integers (the program
      never computes with them, it only tests their truth value).
    - A Python dict is an association list in insertion order; lookup takes the
      first binding of a key.
    - Every call of an external collaborator may raise.  The schedule of the
      failures is the field [fault] of the environment: the call made when the
      clock of the world is [n] raises exactly when [fault n] holds.  The
      schedule stands for every cause of failure (network, permissions, a path
      that the client library refuses, such as one with a '.' in it).
      Sending a message is two calls: the POST, and the decoding of the
      response, which can raise after the message has gone out.
    - [print] and [traceback.print_exc] are not modelled. *)

From Stdlib Require Import List String Ascii ZArith Bool Lia Arith.
Import ListNotations.
Local Open Scope string_scope.
Local Open Scope Z_scope.

Set Warnings "-register-all".

(** ** Decoded JSON values *)

Inductive value : Type :=
| VNull
| VBool (b : bool)
| VNum (n : Z)
| VStr (s : string)
| VList (l : list value)
| VDict (kvs : list (string * value)).

Definition dict := list (string * value).

(** Python's truth value of a decoded JSON value. *)
Definition truthy (v : value) : bool :=
  match v with
  | VNull => false
  | VBool b => b
  | VNum n => negb (n =? 0)
  | VStr s => negb (s =? "")%string
  | VList l => match l with [] => false | _ => true end
  | VDict kvs => match kvs with [] => false | _ => true end
  end.

(** ** Python dicts as association lists *)

Module Dict.

Fixpoint get (k : string) (d : dict) : option value :=
  match d with
  | [] => None
  | (k', v) :: d' => if (k' =? k)%string then Some v else get k d'
  end.

(** [d[k] = v]: an existing key keeps its position, a new key goes last. *)
Fixpoint set (k : string) (v : value) (d : dict) : dict :=
  match d with
  | [] => [(k, v)]
  | (k', v') :: d' =>
      if (k' =? k)%string then (k, v) :: d' else (k', v') :: set k v d'
  end.

Definition mem (k : string) (d : dict) : bool :=
  match get k d with Some _ => true | None => false end.

Definition keys (d : dict) : list string := map fst d.

(** [d.get(k, default)] *)
Definition get_default (k : string) (default : value) (d : dict) : value :=
  match get k d with Some v => v | None => default end.

End Dict.

(** ** Python string methods *)

Module Str.

(** The number of bytes of the white-space character at the front of [s],
    and 0 when [s] does not begin with one.  The white space of
    [str.isspace], which [strip] and [split] use, is U+0009 to U+000D,
    U+001C to U+0020, U+0085, U+00A0, U+1680, U+2000 to U+200A, U+2028,
    U+2029, U+202F, U+205F and U+3000; in UTF-8 the first five rows are one
    byte, U+0085 and U+00A0 are C2 85 and C2 A0, U+1680 is E1 9A 80, the
    characters from U+2000 to U+202F are E2 80 followed by 80 to 8A, A8, A9
    or AF, U+205F is E2 81 9F and U+3000 is E3 80 80. *)
Definition space_len (s : string) : nat :=
  match s with
  | EmptyString => 0
  | String a r =>
      let x := nat_of_ascii a in
      if ((9 <=? x) && (x <=? 13) || (28 <=? x) && (x <=? 32))%nat then 1
      else
        match r with
        | EmptyString => 0
        | String b r' =>
            let y := nat_of_ascii b in
            if ((x =? 194) && ((y =? 133) || (y =? 160)))%nat then 2
            else
              match r' with
              | EmptyString => 0
              | String c _ =>
                  let z := nat_of_ascii c in
                  if ((x =? 225) && (y =? 154) && (z =? 128))%nat then 3
                  else if ((x =? 226) && (y =? 128)
                           && ((128 <=? z) && (z <=? 138)
                               || (z =? 168) || (z =? 169) || (z =? 175)))%nat
                  then 3
                  else if ((x =? 226) && (y =? 129) && (z =? 159))%nat then 3
                  else if ((x =? 227) && (y =? 128) && (z =? 128))%nat then 3
                  else 0
              end
        end
  end.

(** [s.lstrip()]; [skip] counts the bytes that are left of a white-space
    character whose first byte has been read. *)
Fixpoint lstrip_from (skip : nat) (s : string) : string :=
  match s with
  | EmptyString => EmptyString
  | String _ r =>
      match skip with
      | S k => lstrip_from k r
      | O =>
          match space_len s with
          | O => s
          | S k => lstrip_from k r
          end
      end
  end.

Definition lstrip (s : string) : string := lstrip_from 0 s.

(** [s] is white space from its first character to its last. *)
Fixpoint blank_from (skip : nat) (s : string) : bool :=
  match s with
  | EmptyString => true
  | String _ r =>
      match skip with
      | S k => blank_from k r
      | O =>
          match space_len s with
          | O => false
          | S k => blank_from k r
          end
      end
  end.

(** [s.rstrip()]: [s] without its longest suffix of white space.  A suffix
    that begins inside a character begins with a continuation byte, and so
    is not white space. *)
Fixpoint rstrip (s : string) : string :=
  match s with
  | EmptyString => EmptyString
  | String c r => if blank_from 0 s then EmptyString else String c (rstrip r)
  end.

Definition strip (s : string) : string := rstrip (lstrip s).

Definition startswith (p s : string) : bool := String.prefix p s.

(** The run [cur] (in reverse) put before the runs [rest], when it is not
    empty. *)
Definition flush (cur : list ascii) (rest : list string) : list string :=
  match cur with
  | [] => rest
  | _ => string_of_list_ascii (rev cur) :: rest
  end.

(** [s.split()]: the maximal runs of characters that are not white space.
    [cur] is the run being read, in reverse; [skip] is as in [lstrip_from]. *)
Fixpoint split_from (skip : nat) (cur : list ascii) (s : string) : list string :=
  match s with
  | EmptyString => flush cur []
  | String c r =>
      match skip with
      | S k => split_from k cur r
      | O =>
          match space_len s with
          | O => split_from 0 (c :: cur) r
          | S k => flush cur (split_from k [] r)
          end
      end
  end.

Definition split (s : string) : list string := split_from 0 [] s.

(** [sep.join(l)] *)
Definition join (sep : string) (l : list string) : string :=
  String.concat sep l.

(** [x in l] for a list of strings *)
Definition mem (x : string) (l : list string) : bool :=
  existsb (String.eqb x) l.

(** [x in s] for two strings: the substring test.  No character of UTF-8
    begins with a continuation byte, so an occurrence of the bytes of [x] is
    an occurrence of its characters. *)
Fixpoint contains (x s : string) : bool :=
  String.prefix x s ||
  match s with
  | EmptyString => false
  | String _ r => contains x r
  end.

(** The number of bytes of the character whose first byte is [c]. *)
Definition char_len (c : ascii) : nat :=
  let n := nat_of_ascii c in
  if (n <? 192)%nat then 1
  else if (n <? 224)%nat then 2
  else if (n <? 240)%nat then 3
  else 4.

(** [s[0]] for a string that is not empty: its first character. *)
Definition first_char (s : string) : string :=
  match s with
  | EmptyString => EmptyString
  | String c _ => substring 0 (char_len c) s
  end.

(** Characters by their code, for the inputs written out below. *)
Definition bytes (l : list nat) : string :=
  string_of_list_ascii (map ascii_of_nat l).

(** U+00A0, the no-break space, and U+2003, the em space. *)
Definition nbsp : string := bytes [194; 160]%nat.
Definition emsp : string := bytes [226; 128; 131]%nat.

End Str.

(** ** Calendar dates and [datetime.strptime(_, '%Y-%m-%d')] *)

Module Date.

Record date : Type := mk { year : Z; month : Z; day : Z }.

(** [datetime.date] compares (year, month, day) lexicographically. *)
Definition compare (a b : date) : comparison :=
  match year a ?= year b with
  | Eq => match month a ?= month b with
          | Eq => day a ?= day b
          | c => c
          end
  | c => c
  end.

Definition ltb (a b : date) : bool :=
  match compare a b with Lt => true | _ => false end.

Definition geb (a b : date) : bool :=
  match compare a b with Lt => false | _ => true end.

Definition is_leap (y : Z) : bool :=
  (y mod 4 =? 0) && (negb (y mod 100 =? 0) || (y mod 400 =? 0)).

Definition days_in_month (y m : Z) : Z :=
  if m =? 2 then (if is_leap y then 29 else 28)
  else if (m =? 4) || (m =? 6) || (m =? 9) || (m =? 11) then 30
  else 31.

(** The checks of the [datetime] constructor. *)
Definition valid (y m d : Z) : bool :=
  (1 <=? y) && (y <=? 9999) && (1 <=? m) && (m <=? 12) &&
  (1 <=? d) && (d <=? days_in_month y m).

(** A digit of ASCII: what the classes [[0-2]], [[1-9]] and the like of the
    patterns take. *)
Definition digit (c : ascii) : option Z :=
  let n := nat_of_ascii c in
  if ((48 <=? n) && (n <=? 57))%nat then Some (Z.of_nat n - 48) else None.

Definition digit_in (lo hi : Z) (c : ascii) : option Z :=
  match digit c with
  | Some n => if (lo <=? n) && (n <=? hi) then Some n else None
  | None => None
  end.

Definition orelse {A} (x y : option A) : option A :=
  match x with Some _ => x | None => y end.

Definition is_char (n : nat) (c : ascii) : bool := (nat_of_ascii c =? n)%nat.

(** The first alternative of a pattern that is a character and a class,
    when the first two characters match it. *)
Definition two (first : ascii -> bool) (lo hi : Z) (cs : list ascii)
  : option (Z * list ascii) :=
  match cs with
  | a :: b :: rest =>
      if first a then
        match digit a, digit_in lo hi b with
        | Some x, Some y => Some (10 * x + y, rest)
        | _, _ => None
        end
      else None
  | _ => None
  end.

Definition one (cs : list ascii) : option (Z * list ascii) :=
  match cs with
  | a :: rest =>
      match digit_in 1 9 a with Some x => Some (x, rest) | None => None end
  | [] => None
  end.

Definition expect_dash (cs : list ascii) : option (list ascii) :=
  match cs with
  | c :: rest => if is_char 45 c then Some rest else None
  | [] => None
  end.

Section Strptime.

(** The table of the decimal digits of Unicode: [decimal cs] is the value of
    the decimal digit whose bytes are at the front of [cs], with the bytes
    after it.  The pattern [\d] of a pattern for [str] takes the decimal digits
    of every script, and [int] gives their values. *)
Variable decimal : list ascii -> option (Z * list ascii).

(** [\d] *)
Definition any_digit (cs : list ascii) : option (Z * list ascii) :=
  match cs with
  | [] => None
  | _ => decimal cs
  end.

(** [%Y] is the pattern [\d\d\d\d]. *)
Definition parse_Y (cs : list ascii) : option (Z * list ascii) :=
  match any_digit cs with
  | Some (a, r1) =>
      match any_digit r1 with
      | Some (b, r2) =>
          match any_digit r2 with
          | Some (c, r3) =>
              match any_digit r3 with
              | Some (d, r4) => Some (1000 * a + 100 * b + 10 * c + d, r4)
              | None => None
              end
          | None => None
          end
      | None => None
      end
  | None => None
  end.

(** The alternative [[12]\d]. *)
Definition two_any (first : ascii -> bool) (cs : list ascii)
  : option (Z * list ascii) :=
  match cs with
  | a :: rest =>
      if first a then
        match digit a, any_digit rest with
        | Some x, Some (y, rest') => Some (10 * x + y, rest')
        | _, _ => None
        end
      else None
  | [] => None
  end.

(** [%m] is the pattern [1[0-2]|0[1-9]|[1-9]]. *)
Definition parse_m (cs : list ascii) : option (Z * list ascii) :=
  orelse (two (is_char 49) 0 2 cs) (orelse (two (is_char 48) 1 9 cs) (one cs)).

(** [%d] is the pattern [3[01]|[12]\d|0[1-9]|[1-9]| [1-9]]. *)
Definition parse_d (cs : list ascii) : option (Z * list ascii) :=
  orelse (two (is_char 51) 0 1 cs)
 (orelse (two_any (fun c => is_char 49 c || is_char 50 c) cs)
 (orelse (two (is_char 48) 1 9 cs)
 (orelse (one cs)
         (match cs with
          | sp :: rest => if is_char 32 sp then one rest else None
          | [] => None
          end)))).

(** [datetime.strptime(s, '%Y-%m-%d').date()]; [None] is the [ValueError]
    of a string that does not match the format, of unconverted data after
    the match, or of a day that is not in the calendar. *)
Definition strptime (s : string) : option date :=
  match parse_Y (list_ascii_of_string s) with
  | Some (y, r1) =>
      match expect_dash r1 with
      | Some r2 =>
          match parse_m r2 with
          | Some (m, r3) =>
              match expect_dash r3 with
              | Some r4 =>
                  match parse_d r4 with
                  | Some (d, []) => if valid y m d then Some (mk y m d) else None
                  | _ => None
                  end
              | None => None
              end
          | None => None
          end
      | None => None
      end
  | None => None
  end.

End Strptime.

(** The decimal digits of ASCII alone. *)
Definition ascii_decimal (cs : list ascii) : option (Z * list ascii) :=
  match cs with
  | c :: rest => match digit c with Some n => Some (n, rest) | None => None end
  | [] => None
  end.

(** The decimal digits of ASCII and the fullwidth digits, U+FF10 to U+FF19,
    which are EF BC 90 to EF BC 99. *)
Definition wide_decimal (cs : list ascii) : option (Z * list ascii) :=
  match cs with
  | a :: b :: c :: rest =>
      let n := nat_of_ascii c in
      if is_char 239 a && is_char 188 b && ((144 <=? n) && (n <=? 153))%nat
      then Some (Z.of_nat n - 144, rest)
      else ascii_decimal cs
  | _ => ascii_decimal cs
  end.

(** The form YYYY-MM-DD read by the letter: four digits, a hyphen, two
    digits, a hyphen and two digits, all of ASCII. *)
Definition is_YYYY_MM_DD (s : string) : bool :=
  match list_ascii_of_string s with
  | [y1; y2; y3; y4; h1; m1; m2; h2; d1; d2] =>
      forallb (fun c => match digit c with Some _ => true | None => false end)
              [y1; y2; y3; y4; m1; m2; d1; d2]
      && is_char 45 h1 && is_char 45 h2
  | _ => false
  end.

End Date.

(** ** The external collaborators *)

(** What a handler does to the outside, in the order it does it. *)
Inductive effect : Type :=
| Got (path : string)                    (* db.reference(path).get() *)
| Wrote (path : string) (v : value)      (* db.reference(path).set(v) *)
| Sent (to : value) (message : string)   (* send_whatsapp_message(to, message) *)
| Asked (text : string).                 (* client.chat.completions.create(...) *)

(** The state of the outside: the document tree of the database, the effects
    so far, and the number of external calls made so far. *)
Record world : Type := World { db : value; log : list effect; clock : nat }.

(** What a request cannot control. [render] is Python's [str()] on the decoded
    JSON values that are not strings; [assistant] is the reply of the
    chat-completion API ([None]: the call raises); [lower] is [str.lower];
    [decimal] is the table of the decimal digits (see [Date.any_digit]). *)
Record env : Type := Env {
  today : Date.date;
  fault : nat -> bool;
  assistant : string -> option string;
  render : value -> string;
  lower : string -> string;
  decimal : list ascii -> option (Z * list ascii)
}.

Module Store.

(** The segments of a path: [path.split('/')] without the empty ones. *)
Fixpoint split_slash (cur : list ascii) (s : string) : list string :=
  match s with
  | EmptyString => [string_of_list_ascii (rev cur)]
  | String c r =>
      if (nat_of_ascii c =? 47)%nat
      then string_of_list_ascii (rev cur) :: split_slash [] r
      else split_slash (c :: cur) r
  end.

Definition segments (path : string) : list string :=
  filter (fun seg => negb (seg =? "")%string) (split_slash [] path).

Definition child (k : string) (v : value) : value :=
  match v with
  | VDict kvs => Dict.get_default k VNull kvs
  | _ => VNull
  end.

(** The document at a path; [VNull] where there is none. *)
Fixpoint lookup (p : list string) (v : value) : value :=
  match p with
  | [] => v
  | k :: p' => lookup p' (child k v)
  end.

(** The tree with the document at a path replaced. *)
Fixpoint update (p : list string) (new : value) (v : value) : value :=
  match p with
  | [] => new
  | k :: p' =>
      VDict (Dict.set k (update p' new (child k v))
               (match v with VDict kvs => kvs | _ => [] end))
  end.

End Store.

(** ** Statements that may return or raise *)

Inductive exn : Type :=
| KeyError | IndexError | TypeError | AttributeError | ValueError
| ExternalError
| HTTPException (code : Z).

(** How a block of statements of a function that returns an [R] ends. *)
Inductive completion (R A : Type) : Type :=
| Normal (a : A)
| Returned (r : R)
| Raised (e : exn).

Arguments Normal {R A} a.
Arguments Returned {R A} r.
Arguments Raised {R A} e.

Definition M (R A : Type) : Type := world -> completion R A * world.

Definition ret {R A} (a : A) : M R A := fun w => (Normal a, w).

Definition bind {R A B} (m : M R A) (k : A -> M R B) : M R B :=
  fun w =>
    match m w with
    | (Normal a, w') => k a w'
    | (Returned r, w') => (Returned r, w')
    | (Raised e, w') => (Raised e, w')
    end.

Definition raise {R A} (e : exn) : M R A := fun w => (Raised e, w).

(** [return r] *)
Definition do_return {R A} (r : R) : M R A := fun w => (Returned r, w).

(** [try: m except Exception: h] *)
Definition try_except {R A} (m : M R A) (h : exn -> M R A) : M R A :=
  fun w =>
    match m w with
    | (Raised e, w') => h e w'
    | cw => cw
    end.

(** A call of a function whose body is [m]: the value it returns, [none]
    when the body ends without [return]. *)
Definition call {R R'} (none : R) (m : M R unit) : M R' R :=
  fun w =>
    match m w with
    | (Normal _, w') => (Normal none, w')
    | (Returned r, w') => (Normal r, w')
    | (Raised e, w') => (Raised e, w')
    end.

Declare Scope py_scope.
Delimit Scope py_scope with py.
Notation "x <- m ;; k" := (bind m (fun x => k))
  (at level 61, m at next level, right associativity) : py_scope.
Notation "m ;; k" := (bind m (fun _ => k))
  (at level 61, right associativity) : py_scope.
Local Open Scope py_scope.

(** ** Operations on decoded JSON that may raise *)

Section Subscripts.
Context {R : Type}.

(** [v[k]] for a string [k] *)
Definition getitem (v : value) (k : string) : M R value :=
  match v with
  | VDict d =>
      match Dict.get k d with Some x => ret x | None => raise KeyError end
  | _ => raise TypeError
  end.

(** [v[0]] *)
Definition getitem0 (v : value) : M R value :=
  match v with
  | VList (x :: _) => ret x
  | VList [] => raise IndexError
  | VStr EmptyString => raise IndexError
  | VStr s => ret (VStr (Str.first_char s))
  | VDict _ => raise KeyError
  | _ => raise TypeError
  end.

(** [v.get(k)] and [v.get(k, default)] *)
Definition method_get (v : value) (k : string) (default : value) : M R value :=
  match v with
  | VDict d => ret (Dict.get_default k default d)
  | _ => raise AttributeError
  end.

(** [v.strip()] *)
Definition method_strip (v : value) : M R string :=
  match v with
  | VStr s => ret (Str.strip s)
  | _ => raise AttributeError
  end.

(** [v.items()] *)
Definition method_items (v : value) : M R dict :=
  match v with
  | VDict d => ret d
  | _ => raise AttributeError
  end.

(** [list(v.keys())] *)
Definition method_keys (v : value) : M R (list string) :=
  match v with
  | VDict d => ret (Dict.keys d)
  | _ => raise AttributeError
  end.

(** [datetime.strptime(v, '%Y-%m-%d').date()] *)
Definition strptime (E : env) (v : value) : M R Date.date :=
  match v with
  | VStr s =>
      match Date.strptime (decimal E) s with
      | Some d => ret d
      | None => raise ValueError
      end
  | _ => raise TypeError
  end.

End Subscripts.

(** ** The program *)

Record response : Type := Response { body : value; status : Z }.

Inductive http_method : Type := GET | POST.

(** A request as Flask presents it: [is_json] tells whether the Content-Type
    is a JSON one, [json] is the decoded body ([None] when the body does not
    parse), [args] are the query parameters. *)
Record request : Type := Request {
  method : http_method;
  args : list (string * string);
  is_json : bool;
  json : option value
}.

Definition ok200 : response := Response (VStr "OK") 200.

Definition intro_message : string :=
  "Hello! My name is Zibot, your helpful assistant for Software Engineering students at SDU. Ask me about your schedule, classes, or any SE topic!".

Section Program.
Variable E : env.

(** The text an f-string puts for [{v}]. *)
Definition fmt (v : value) : string :=
  match v with
  | VStr s => s
  | _ => render E v
  end.

Definition tick (w : world) : world :=
  World (db w) (log w) (S (clock w)).

Definition record (e : effect) (w : world) : world :=
  World (db w) (log w ++ [e]) (S (clock w)).

(** An external call: it raises when the schedule says so, and then has no
    effect. *)
Definition external {R A} (act : world -> A * world) : M R A :=
  fun w =>
    if fault E (clock w) then (Raised ExternalError, tick w)
    else let (a, w') := act w in (Normal a, w').

(** [db.reference(path).get()] *)
Definition db_get {R} (path : string) : M R value :=
  external (fun w =>
    (Store.lookup (Store.segments path) (db w), record (Got path) w)).

(** [db.reference(path).set(v)] *)
Definition db_set {R} (path : string) (v : value) : M R unit :=
  external (fun w =>
    (tt, record (Wrote path v)
           (World (Store.update (Store.segments path) v (db w))
                  (log w) (clock w)))).

(** [send_whatsapp_message(to, message)]: [requests.post], after which the
    message is out, and then [response.json()], which raises when the
    response is not JSON.  What it returns is never used. *)
Definition send_whatsapp_message {R} (to : value) (message : string) : M R unit :=
  external (fun w => (tt, record (Sent to message) w)) ;;
  external (fun w => (tt, tick w)).

(** [client.chat.completions.create(...).choices[0].message.content] *)
Definition chat_completion {R} (text : string) : M R string :=
  fun w =>
    match external (R := R) (fun w => (tt, record (Asked text) w)) w with
    | (Normal _, w') =>
        match assistant E text with
        | Some reply => (Normal reply, w')
        | None => (Raised ExternalError, w')
        end
    | (Returned r, w') => (Returned r, w')
    | (Raised e, w') => (Raised e, w')
    end.

(** *** [get_department] *)

Definition get_department_body (whatsapp : value) : M value unit :=
  try_except
    (data <- db_get ("students/" ++ fmt whatsapp) ;;
     if truthy data
        && match data with VDict _ => true | _ => false end
        && match data with VDict d => Dict.mem "department" d | _ => false end
     then (dept <- getitem data "department" ;; do_return dept)
     else ret tt)
    (fun _ => ret tt) ;;
  do_return (VStr "SE").

Definition get_department {R} (whatsapp : value) : M R value :=
  call VNull (get_department_body whatsapp).

(** *** [get_next_class] *)

(** One turn of the loop over [classes.items()]; [next_class] is the loop's
    variable of that name. *)
Definition scan_step {R} (code : string) (details : value) (next_class : value)
  : M R value :=
  try_except
    (match details with
     | VDict d =>
         class_date <- strptime E (Dict.get_default "date" (VStr "") d) ;;
         if Date.geb class_date (today E) then
           if negb (truthy next_class) then
             ret (VDict (Dict.set "course_code" (VStr code) d))
           else
             (cur <- getitem next_class "date" ;;
              cur_date <- strptime E cur ;;
              if Date.ltb class_date cur_date
              then ret (VDict (Dict.set "course_code" (VStr code) d))
              else ret next_class)
         else ret next_class
     | _ => ret next_class
     end)
    (fun _ => ret next_class).

Fixpoint scan {R} (items : dict) (next_class : value) : M R value :=
  match items with
  | [] => ret next_class
  | (code, details) :: rest =>
      next_class' <- scan_step code details next_class ;;
      scan rest next_class'
  end.

Definition get_next_class_body (department : string) : M value unit :=
  try_except
    (got <- db_get ("classes/" ++ department) ;;
     let classes := if truthy got then got else VDict [] in
     items <- method_items classes ;;
     next_class <- scan items VNull ;;
     do_return next_class)
    (fun _ => ret tt) ;;
  do_return VNull.

Definition get_next_class {R} (department : string) : M R value :=
  call VNull (get_next_class_body department).

(** *** [whatsapp_webhook] *)

Definition nl : string := String (ascii_of_nat 10) EmptyString.

(** [x in v] for a string [x] *)
Definition contains {R} (v : value) (x : string) : M R bool :=
  match v with
  | VDict d => ret (Dict.mem x d)
  | VList l =>
      ret (existsb (fun e => match e with
                             | VStr s => (s =? x)%string
                             | _ => false
                             end) l)
  | VStr s => ret (Str.contains x s)
  | _ => raise TypeError
  end.

(** [v is True] *)
Definition is_True (v : value) : bool :=
  match v with VBool true => true | _ => false end.

(** [v == 'SE'] *)
Definition is_SE (v : value) : bool :=
  match v with VStr s => (s =? "SE")%string | _ => false end.

(** The branch of the admin command. *)
Definition admin_update (from_number : value) (body : string) : M response unit :=
  try_except
    (match Str.split body with
     | _ :: dept :: code :: date :: time :: lecturer =>
         let lecturer := Str.join " " lecturer in
         db_set ("classes/" ++ dept ++ "/" ++ code)
                (VDict [("date", VStr date); ("time", VStr time);
                        ("lecturer", VStr lecturer)]) ;;
         send_whatsapp_message from_number ("Schedule updated for " ++ code ++ ".")
     | _ => raise ValueError
     end)
    (fun _ => send_whatsapp_message from_number "Error: Invalid adminupdate format.") ;;
  do_return ok200.

(** The branch of the two phrases that ask for the next class. *)
Definition next_class_query (from_number : value) : M response unit :=
  dept <- get_department from_number ;;
  (if is_SE dept
   then db_set ("students/" ++ fmt from_number) (VDict [("department", VStr "SE")])
   else ret tt) ;;
  next_class <- get_next_class "SE" ;;
  (if truthy next_class then
     code <- getitem next_class "course_code" ;;
     date <- getitem next_class "date" ;;
     time <- getitem next_class "time" ;;
     lecturer <- getitem next_class "lecturer" ;;
     send_whatsapp_message from_number
       ("Your next class is " ++ fmt code ++ " on " ++ fmt date ++ " at "
        ++ fmt time ++ " with " ++ fmt lecturer ++ ".")
   else send_whatsapp_message from_number "No upcoming classes found.") ;;
  do_return ok200.

(** The branch of 'my courses'. *)
Definition my_courses (from_number : value) : M response unit :=
  dept <- get_department from_number ;;
  got <- db_get ("classes/" ++ fmt dept) ;;
  let classes := if truthy got then got else VDict [] in
  (if truthy classes then
     course_list <- method_keys classes ;;
     send_whatsapp_message from_number
       ("Your courses: " ++ Str.join ", " course_list ++ nl
        ++ "Reply with a course code to get details.")
   else send_whatsapp_message from_number "No courses found for your department.") ;;
  do_return ok200.

Definition course_reply (body : string) (date time lecturer : value) : string :=
  "Course: " ++ body ++ nl ++ "Date: " ++ fmt date ++ nl
  ++ "Time: " ++ fmt time ++ nl ++ "Lecturer: " ++ fmt lecturer.

(** The last branch: the details of a course, or else the assistant. *)
Definition course_or_assistant (from_number : value) (body : string)
  : M response unit :=
  dept <- get_department from_number ;;
  got <- db_get ("classes/" ++ fmt dept) ;;
  let classes := if truthy got then got else VDict [] in
  known <- contains classes body ;;
  (if known : bool then
     class_details <- getitem classes body ;;
     date <- method_get class_details "date" (VStr "N/A") ;;
     time <- method_get class_details "time" (VStr "N/A") ;;
     lecturer <- method_get class_details "lecturer" (VStr "N/A") ;;
     send_whatsapp_message from_number (course_reply body date time lecturer) ;;
     do_return ok200
   else ret tt) ;;
  try_except
    (content <- chat_completion body ;;
     let answer := Str.strip content in
     send_whatsapp_message from_number answer)
    (fun _ => send_whatsapp_message from_number
                "Sorry, I could not process your request right now.") ;;
  do_return ok200.

(** The chain [if ... elif ... elif ... else]. *)
Definition route (from_number : value) (body : string) (is_admin : bool)
  : M response unit :=
  if Str.startswith "adminupdate" (lower E body) && is_admin then
    admin_update from_number body
  else if Str.mem (lower E body) ["next class"; "when is my next class?"] then
    next_class_query from_number
  else if (lower E body =? "my courses")%string then
    my_courses from_number
  else
    course_or_assistant from_number body.

(** The statements that follow the chain. *)
Definition introduction (from_number : value) : M response unit :=
  let user_ref := "users/" ++ fmt from_number ++ "/introduced" in
  introduced <- db_get user_ref ;;
  if negb (truthy introduced) then
    send_whatsapp_message from_number intro_message ;;
    db_set user_ref (VBool true) ;;
    do_return ok200
  else ret tt.

(** The body of [if messages:], with the statements after the chain as a
    parameter. *)
Definition on_message_then (after : value -> M response unit) (msg : value)
  : M response unit :=
  from_number <- getitem msg "from" ;;
  text <- getitem msg "text" ;;
  raw <- getitem text "body" ;;
  body <- method_strip raw ;;
  admin <- db_get ("admins/" ++ fmt from_number) ;;
  let is_admin := is_True admin in
  route from_number body is_admin ;;
  after from_number.

(** The body of the outer [try]. *)
Definition deliver_then (after : value -> M response unit) (data : value)
  : M response unit :=
  entries <- getitem data "entry" ;;
  entry <- getitem0 entries ;;
  changes_list <- getitem entry "changes" ;;
  changes <- getitem0 changes_list ;;
  value_ <- getitem changes "value" ;;
  messages <- method_get value_ "messages" VNull ;;
  if truthy messages then
    msg <- getitem0 messages ;;
    on_message_then after msg
  else ret tt.

(** [request.get_json()] *)
Definition get_json {R} (req : request) : M R value :=
  if negb (is_json req) then raise (HTTPException 415)
  else match json req with
       | Some data => ret data
       | None => raise (HTTPException 400)
       end.

Definition verification (req : request) : M response unit :=
  let verify_token := "mysecrettoken" in
  let mode := option_map snd (find (fun kv => (fst kv =? "hub.mode")%string) (args req)) in
  let token := option_map snd (find (fun kv => (fst kv =? "hub.verify_token")%string) (args req)) in
  let challenge := option_map snd (find (fun kv => (fst kv =? "hub.challenge")%string) (args req)) in
  if match mode with Some m => (m =? "subscribe")%string | None => false end
     && match token with Some t => (t =? verify_token)%string | None => false end
  then do_return (Response (match challenge with Some c => VStr c | None => VNull end) 200)
  else do_return (Response (VStr "Verification failed") 403).

Definition whatsapp_webhook_then (after : value -> M response unit) (req : request)
  : M response unit :=
  (match method req with GET => verification req | POST => ret tt end) ;;
  (if negb (is_json req)
   then do_return (Response (VDict [("error", VStr "Content-Type must be application/json")]) 415)
   else ret tt) ;;
  data <- get_json req ;;
  try_except (deliver_then after data) (fun _ => ret tt) ;;
  do_return ok200.

Definition whatsapp_webhook : request -> M response unit :=
  whatsapp_webhook_then introduction.

(** *** [register_student] *)

Definition register_student (req : request) : M response unit :=
  data <- get_json req ;;
  whatsapp <- method_get data "whatsapp" VNull ;;
  department <- method_get data "department" VNull ;;
  (if negb (truthy whatsapp) || negb (truthy department)
   then do_return (Response (VDict [("error", VStr "Missing whatsapp or department")]) 400)
   else ret tt) ;;
  db_set ("students/" ++ fmt whatsapp) (VDict [("department", department)]) ;;
  do_return (Response (VDict [("message", VStr "Student registered.")]) 200).

(** *** Flask around a view *)

(** The response of a view: what it returns, when the body is a string or
    the result of [jsonify]; the error page of an [HTTPException]; the page of
    status 500 for another exception, for a view that ends without [return]
    and for a view that returns [None] as the body, which Flask refuses with
    a [TypeError]. *)
Definition serve (view : M response unit) (w : world) : response * world :=
  match view w with
  | (Returned (Response VNull _), w') => (Response VNull 500, w')
  | (Returned r, w') => (r, w')
  | (Raised (HTTPException code), w') => (Response VNull code, w')
  | (Raised _, w') => (Response VNull 500, w')
  | (Normal _, w') => (Response VNull 500, w')
  end.

End Program.

(** ** Notions of the specification *)

Definition post_json (args : list (string * string)) (data : value) : request :=
  Request POST args true (Some data).

(** [data["entry"][0]["changes"][0]["value"]] is [v]. *)
Definition envelope_value (data v : value) : Prop :=
  exists d e entries c changes,
    data = VDict d /\
    Dict.get "entry" d = Some (VList (VDict e :: entries)) /\
    Dict.get "changes" e = Some (VList (VDict c :: changes)) /\
    Dict.get "value" c = Some v.

(** The first message of the envelope [data] is from [from_number] and its
    text body is [raw]. *)
Definition carries (data from_number : value) (raw : string) : Prop :=
  exists v m messages t,
    envelope_value data (VDict v) /\
    Dict.get "messages" v = Some (VList (VDict m :: messages)) /\
    Dict.get "from" m = Some from_number /\
    Dict.get "text" m = Some (VDict t) /\
    Dict.get "body" t = Some (VStr raw).

(** What the webhook does with a message once it is out of the envelope. *)
Definition dispatch (E : env) (from_number : value) (text : string)
  : M response unit :=
  try_except
    (admin <- db_get E ("admins/" ++ fmt E from_number) ;;
     route E from_number text (is_True admin))
    (fun _ => ret tt) ;;
  do_return ok200.

(** The flag of a sender in [admins/]. *)
Definition admin_flag (E : env) (from_number : value) (store : value) : value :=
  Store.lookup (Store.segments ("admins/" ++ fmt E from_number)) store.

(** The department that the record of a sender gives: its field
    [department], and ['SE'] when there is no record, the record is not a
    mapping or it has no such field. *)
Definition resolved_department (E : env) (whatsapp : value) (store : value) : value :=
  match Store.lookup (Store.segments ("students/" ++ fmt E whatsapp)) store with
  | VDict rec => Dict.get_default "department" (VStr "SE") rec
  | _ => VStr "SE"
  end.

(** The class mapping of a department: what the lookup gives, and the empty
    mapping when that is falsy. *)
Definition class_mapping (department : string) (store : value) : value :=
  let got := Store.lookup (Store.segments ("classes/" ++ department)) store in
  if truthy got then got else VDict [].

(** The date of a class record: the record is a mapping and its field [date]
    is a string that [strptime] accepts. *)
Definition class_date (E : env) (details : value) : option Date.date :=
  match details with
  | VDict rec =>
      match Dict.get_default "date" (VStr "") rec with
      | VStr s => Date.strptime (decimal E) s
      | _ => None
      end
  | _ => None
  end.

(** A record whose date [strptime] accepts, as [d], and that is today or
    later. *)
Definition upcoming (E : env) (details : value) (d : Date.date) : Prop :=
  class_date E details = Some d /\ Date.geb d (today E) = true.

(** The record at position [i] has the earliest upcoming date, and it is the
    first of the records that have it. *)
Definition first_earliest (E : env) (items : dict) (i : nat) (code : string)
           (rec : dict) (d : Date.date) : Prop :=
  nth_error items i = Some (code, VDict rec) /\
  upcoming E (VDict rec) d /\
  forall j kv d',
    nth_error items j = Some kv -> upcoming E (snd kv) d' ->
    Date.ltb d' d = false /\ ((j < i)%nat -> Date.ltb d d' = true).

(** What the loop variable holds after the records [seen]. *)
Definition scanned (E : env) (seen : dict) (next_class : value) : Prop :=
  (next_class = VNull /\ forall kv d, In kv seen -> ~ upcoming E (snd kv) d) \/
  (exists i code rec d,
      first_earliest E seen i code rec d /\
      next_class = VDict (Dict.set "course_code" (VStr code) rec)).

(** A block that never reaches its end: it returns or raises. *)
Definition diverts {R A} (m : M R A) : Prop :=
  forall w, match fst (m w) with Normal _ => False | _ => True end.

(** The database after the writes among the effects [new], in their order. *)
Definition replay (new : list effect) (store : value) : value :=
  fold_left (fun s e =>
               match e with
               | Wrote p v => Store.update (Store.segments p) v s
               | _ => s
               end) new store.

(** From [w] to [w']: the log grew by allowed effects only, and the
    database changed by the writes among them and by nothing else. *)
Definition within (allowed : effect -> Prop) (w w' : world) : Prop :=
  exists new,
    log w' = (log w ++ new)%list /\ Forall allowed new /\
    db w' = replay new (db w).

(** Every run of [m] stays [within], and what it returns satisfies [Q]. *)
Definition keeps (allowed : effect -> Prop) {R A} (Q : R -> Prop) (m : M R A)
  : Prop :=
  forall w, within allowed w (snd (m w)) /\ (forall r, fst (m w) = Returned r -> Q r).

(** A path under [users/], where the introduced flags are. *)
Definition under_users (p : string) : bool := Str.startswith "users/" p.

(** An effect on the introduced flag of some user. *)
Definition touches_users (e : effect) : bool :=
  match e with
  | Got p | Wrote p _ => under_users p
  | Sent _ _ | Asked _ => false
  end.

(** An effect that is not a write. *)
Definition reads_only (e : effect) : Prop :=
  match e with Wrote _ _ => False | _ => True end.

(** A lookup of a class mapping other than that of 'SE'. *)
Definition scans_other_department (e : effect) : Prop :=
  match e with
  | Got p => Str.startswith "classes/" p = true /\ p <> "classes/SE"
  | _ => False
  end.

Definition missing_fields : response :=
  Response (VDict [("error", VStr "Missing whatsapp or department")]) 400.

Definition registered : response :=
  Response (VDict [("message", VStr "Student registered.")]) 200.

Definition apology : string := "Sorry, I could not process your request right now.".

(** ** Concrete inputs *)

Module Sample.

(** [str.lower] on the strings of ASCII: the letters A to Z. *)
Definition lower_char (c : ascii) : ascii :=
  let n := nat_of_ascii c in
  if ((65 <=? n) && (n <=? 90))%nat then ascii_of_nat (n + 32) else c.

Fixpoint ascii_lower (s : string) : string :=
  match s with
  | EmptyString => EmptyString
  | String c r => String (lower_char c) (ascii_lower r)
  end.

(** An environment on 2025-01-15 with the tables of ASCII, in which the calls
    fail as [fault] says and the assistant gives [reply]. *)
Definition on_ascii (fault : nat -> bool) (reply : option string) : env :=
  Env (Date.mk 2025 1 15) fault (fun _ => reply) (fun _ => "?")
      ascii_lower Date.ascii_decimal.

(** An environment without failures. *)
Definition calm : env := on_ascii (fun _ => false) (Some " Ask your tutor. ").

(** An environment in which the second external call fails and no other. *)
Definition flaky : env :=
  on_ascii (fun n => (n =? 1)%nat) (Some " Ask your tutor. ").

(** An environment in which every external call fails. *)
Definition stormy : env := on_ascii (fun _ => true) None.

Definition class_record (date time lecturer : string) : value :=
  VDict [("date", VStr date); ("time", VStr time); ("lecturer", VStr lecturer)].

Definition store : value :=
  VDict [
    ("admins", VDict [("27820000001", VBool true); ("27820000003", VNum 1)]);
    ("students", VDict [
       ("27820000002", VDict [("department", VStr "CS")]);
       ("27820000004", VDict [("department", VStr "SE"); ("name", VStr "Ada")]);
       ("27820000005", VDict [("department", VStr "SE")])]);
    ("classes", VDict [
       ("SE", VDict [
          ("SE201", class_record "2025-02-10" "09:00" "Dr Smith");
          ("SE101", class_record "2024-11-05" "08:00" "Dr Jones");
          ("SE301", class_record "2025-01-20" "14:00" "Prof Naidoo");
          ("SE302", class_record "2025-01-20" "16:00" "Prof Dube");
          ("SE999", VStr "cancelled");
          ("SE998", class_record "20 Jan" "10:00" "Dr Who")]);
       ("CS", VDict [
          ("CS101", class_record "2025-01-16" "10:00" "Dr Turing")])])].

Definition start : world := World store [] 0.

(** The envelope of one text message. *)
Definition envelope (from_number raw : string) : value :=
  VDict [("object", VStr "whatsapp_business_account");
         ("entry", VList [VDict [
            ("id", VStr "0");
            ("changes", VList [VDict [
               ("field", VStr "messages");
               ("value", VDict [
                  ("messaging_product", VStr "whatsapp");
                  ("messages", VList [VDict [
                     ("from", VStr from_number);
                     ("type", VStr "text");
                     ("text", VDict [("body", VStr raw)])]])])]])]])].

Definition post (data : value) : request := Request POST [] true (Some data).

(** An admin command whose date and time, and whose two words of the
    lecturer, are separated by a no-break space. *)
Definition update_command : string :=
  "adminupdate SE CS101 2025-03-01" ++ Str.nbsp ++ "10:00 Dr" ++ Str.nbsp ++ "Smith".

(** A phrase with an em space before it and a no-break space after it. *)
Definition padded_phrase : string := Str.emsp ++ "Next class" ++ Str.nbsp.

(** A text with a no-break space after it. *)
Definition padded (text : string) : string := text ++ Str.nbsp.

End Sample.

Definition se_classes : dict :=
  [("SE201", Sample.class_record "2025-02-10" "09:00" "Dr Smith");
   ("SE101", Sample.class_record "2024-11-05" "08:00" "Dr Jones");
   ("SE301", Sample.class_record "2025-01-20" "14:00" "Prof Naidoo");
   ("SE302", Sample.class_record "2025-01-20" "16:00" "Prof Dube");
   ("SE999", VStr "cancelled");
   ("SE998", Sample.class_record "20 Jan" "10:00" "Dr Who")].

(** An envelope that reports the status of a message and carries none. *)
Definition status_envelope : value :=
  VDict [("object", VStr "whatsapp_business_account");
         ("entry", VList [VDict [
            ("changes", VList [VDict [
               ("field", VStr "messages");
               ("value", VDict [
                  ("messaging_product", VStr "whatsapp");
                  ("statuses", VList [VDict [("status", VStr "delivered")]])])]])]])].

(** ** Notions for the other paths of the code *)

(** The value of the first query parameter named [k]: [request.args.get(k)]. *)
Definition query_get (k : string) (query : list (string * string)) : option string :=
  option_map snd (find (fun kv => (fst kv =? k)%string) query).

(** The handshake asks to subscribe and shows the verify token. *)
Definition handshake_ok (query : list (string * string)) : bool :=
  match query_get "hub.mode" query with
  | Some m => (m =? "subscribe")%string
  | None => false
  end
  && match query_get "hub.verify_token" query with
     | Some t => (t =? "mysecrettoken")%string
     | None => false
     end.

(** The first message of the envelope [data] is the mapping [m]. *)
Definition first_message (data : value) (m : dict) : Prop :=
  exists v messages,
    envelope_value data (VDict v) /\
    Dict.get "messages" v = Some (VList (VDict m :: messages)).

(** The statements of the branch of the next class that follow the
    registration: the call of [get_next_class('SE')] and the reply. *)
Definition next_class_reply (E : env) (from_number : value) : M response unit :=
  next_class <- get_next_class E "SE" ;;
  (if truthy next_class then
     code <- getitem next_class "course_code" ;;
     date <- getitem next_class "date" ;;
     time <- getitem next_class "time" ;;
     lecturer <- getitem next_class "lecturer" ;;
     send_whatsapp_message E from_number
       ("Your next class is " ++ fmt E code ++ " on " ++ fmt E date ++ " at "
        ++ fmt E time ++ " with " ++ fmt E lecturer ++ ".")
   else send_whatsapp_message E from_number "No upcoming classes found.") ;;
  do_return ok200.

(** The record that the branch of the next class writes for a sender. *)
Definition default_registration : value := VDict [("department", VStr "SE")].

(** A write that a sender may cause by a message: the default registration
    at the path [students/<sender>], or, with [admin], a write at a path that
    begins with [classes/]. *)
Definition sender_write (E : env) (from_number : value) (admin : bool) (e : effect)
  : Prop :=
  match e with
  | Wrote p v =>
      (p = "students/" ++ fmt E from_number /\ v = default_registration) \/
      (admin = true /\ exists x, p = "classes/" ++ x)
  | _ => True
  end.

(** The paths [p] and [q] part ways: at some depth both have a segment, and
    the two segments differ. *)
Fixpoint apart (p q : list string) : bool :=
  match p, q with
  | a :: p', b :: q' => if (a =? b)%string then apart p' q' else true
  | _, _ => false
  end.

(** A write that leaves the document at the path [q] alone. *)
Definition spares (q : list string) (e : effect) : Prop :=
  match e with
  | Wrote p _ => apart q (Store.segments p) = true
  | _ => True
  end.

(** A string without '/'. *)
Fixpoint no_slash (s : string) : bool :=
  match s with
  | EmptyString => true
  | String c r => negb (nat_of_ascii c =? 47)%nat && no_slash r
  end.

(** A string that is one segment of a path: not empty and without '/'. *)
Definition segment (s : string) : bool :=
  negb (s =? "")%string && no_slash s.

(** The sender and the text of a message, when it has a sender and its field
    [text] is a mapping whose field [body] is a string. *)
Definition text_body (m : dict) : option (value * string) :=
  match Dict.get "from" m, Dict.get "text" m with
  | Some from_number, Some (VDict t) =>
      match Dict.get "body" t with
      | Some (VStr raw) => Some (from_number, raw)
      | _ => None
      end
  | _, _ => None
  end.

(** The world in which the branch of the next class calls [get_next_class],
    when no call has failed: after the admin lookup, the lookup of the student
    record and, for the department 'SE', the write of the default
    registration. *)
Definition after_registration (E : env) (from_number : value) (w : world) : world :=
  let w1 := record (Got ("students/" ++ fmt E from_number))
                   (record (Got ("admins/" ++ fmt E from_number)) w) in
  if is_SE (resolved_department E from_number (db w)) then
    World (Store.update (Store.segments ("students/" ++ fmt E from_number))
                        default_registration (db w))
          (log w1 ++ [Wrote ("students/" ++ fmt E from_number) default_registration])
          (S (clock w1))
  else w1.

(** A world whose classes of 'SE' are one whose date has the form YYYY-MM-DD
    and, after it, one with an earlier date whose month has one digit. *)
Definition unpadded : world :=
  World (VDict [("classes", VDict [("SE", VDict [
           ("SE201", Sample.class_record "2025-02-10" "09:00" "Dr Smith");
           ("SE777", Sample.class_record "2025-1-16" "10:00" "Dr Who")])])])
        [] 0.

(** An environment whose table of digits has the fullwidth digits, and a
    world whose only class of 'SE' has a day written with a fullwidth 0. *)
Definition wide : env :=
  Env (Date.mk 2025 1 15) (fun _ => false) (fun _ => None) (fun _ => "?")
      Sample.ascii_lower Date.wide_decimal.

Definition fullwidth_day : world :=
  World (VDict [("classes", VDict [("SE", VDict [
           ("SE301", Sample.class_record
                       ("2025-01-2" ++ Str.bytes [239; 188; 144]%nat)
                       "14:00" "Prof Naidoo")])])])
        [] 0.

(** A world whose classes of 'SE' are past or have a date that [strptime]
    rejects. *)
Definition past_only : world :=
  World (VDict [("classes", VDict [("SE", VDict [
           ("SE101", Sample.class_record "2024-11-05" "08:00" "Dr Jones");
           ("SE998", Sample.class_record "20 Jan" "10:00" "Dr Who")])])])
        [] 0.

(** A world whose only class of 'SE' has no field [time]. *)
Definition no_time : world :=
  World (VDict [("classes", VDict [("SE", VDict [
           ("SE301", VDict [("date", VStr "2025-01-20");
                            ("lecturer", VStr "Prof Naidoo")])])])])
        [] 0.

(** An environment in which exactly the call number [k] fails (the calls are
    numbered from 0) and the assistant answers. *)
Definition fails_at (k : nat) : env :=
  Sample.on_ascii (fun n => (n =? k)%nat) (Some " Ask your tutor. ").

(** An effect that is not a message to someone other than [from_number]. *)
Definition addressed_to (from_number : value) (e : effect) : Prop :=
  match e with
  | Sent to _ => to = from_number
  | _ => True
  end.

(** * Proofs *)

(** ** The string and date functions on examples *)

Example strip_ex : Str.strip "  Next Class
" = "Next Class".
Proof. reflexivity. Qed.

Example split_ex :
  Str.split "adminupdate SE  CS101 2025-03-01 10:00 Dr Smith" =
  ["adminupdate"; "SE"; "CS101"; "2025-03-01"; "10:00"; "Dr"; "Smith"].
Proof. reflexivity. Qed.

(** White space that is not of ASCII: the no-break space and the em space. *)
Example strip_unicode :
  Str.strip (Str.emsp ++ "next class" ++ Str.nbsp) = "next class".
Proof. reflexivity. Qed.

Example split_unicode :
  Str.split ("adminupdate SE CS101 2025-03-01" ++ Str.nbsp ++ "10:00 Dr"
             ++ Str.nbsp ++ "Smith") =
  ["adminupdate"; "SE"; "CS101"; "2025-03-01"; "10:00"; "Dr"; "Smith"].
Proof. reflexivity. Qed.

(** Bytes of a character that is not white space are kept: U+00E9 is C3 A9
    and U+2030 is E2 80 B0. *)
Example strip_keeps_letters :
  Str.strip (" " ++ Str.bytes [195; 169; 226; 128; 176]%nat ++ " ") =
  Str.bytes [195; 169; 226; 128; 176]%nat.
Proof. reflexivity. Qed.

Example first_char_ex :
  Str.first_char (Str.bytes [195; 169; 65]%nat) = Str.bytes [195; 169]%nat.
Proof. reflexivity. Qed.

Example strptime_ex : Date.strptime Date.ascii_decimal "2025-03-01" = Some (Date.mk 2025 3 1).
Proof. reflexivity. Qed.

Example strptime_feb30 : Date.strptime Date.ascii_decimal "2025-02-30" = None.
Proof. reflexivity. Qed.

Example strptime_trailing : Date.strptime Date.ascii_decimal "2025-03-011" = None.
Proof. reflexivity. Qed.

Example strptime_short_fields : Date.strptime Date.ascii_decimal "2025-3-1" = Some (Date.mk 2025 3 1).
Proof. reflexivity. Qed.

Example strptime_leading_space :
  Date.strptime Date.ascii_decimal "2025-02- 5" = Some (Date.mk 2025 2 5).
Proof. reflexivity. Qed.

(** A digit of another script where the pattern has [\d]: the day is a 2 and
    a fullwidth 0. *)
Example strptime_fullwidth :
  Date.strptime Date.wide_decimal ("2025-01-2" ++ Str.bytes [239; 188; 144]%nat)
  = Some (Date.mk 2025 1 20).
Proof. reflexivity. Qed.

(** The classes of the month take the digits of ASCII only. *)
Example strptime_fullwidth_month :
  Date.strptime Date.wide_decimal ("2025-1" ++ Str.bytes [239; 188; 144]%nat ++ "-20")
  = None.
Proof. reflexivity. Qed.

(** ** Laws of the statements *)

Lemma bind_ret_l {R A B} (a : A) (k : A -> M R B) (w : world) :
  bind (ret a) k w = k a w.
Proof. reflexivity. Qed.

Lemma bind_pointwise {R A B} (m : M R A) (k k' : A -> M R B) (w : world) :
  (forall a w', k a w' = k' a w') -> bind m k w = bind m k' w.
Proof.
  intros Hk. unfold bind. destruct (m w) as [[a | r | e] w']; auto.
Qed.

Lemma try_pointwise {R A} (m m' : M R A) (h : exn -> M R A) (w : world) :
  m w = m' w -> try_except m h w = try_except m' h w.
Proof. intros Hm. unfold try_except. now rewrite Hm. Qed.

Lemma diverts_return {R A} (r : R) : diverts (do_return (A := A) r).
Proof. intros w. exact I. Qed.

Lemma diverts_bind_r {R A B} (m : M R A) (k : A -> M R B) :
  (forall a, diverts (k a)) -> diverts (bind m k).
Proof.
  intros Hk w. unfold bind.
  destruct (m w) as [[a | r | e] w']; simpl; auto. apply Hk.
Qed.

Lemma diverts_dead {R A B} (m : M R A) (k k' : A -> M R B) (w : world) :
  diverts m -> bind m k w = bind m k' w.
Proof.
  intros Hm. specialize (Hm w). unfold bind.
  destruct (m w) as [[a | r | e] w']; simpl in *; tauto.
Qed.

(** ** What a run may do to the world *)

Section Within.
Variable allowed : effect -> Prop.

Lemma within_refl (w : world) : within allowed w w.
Proof.
  exists []. rewrite app_nil_r. repeat split; auto.
Qed.

Lemma replay_app (n1 n2 : list effect) (s : value) :
  replay (n1 ++ n2) s = replay n2 (replay n1 s).
Proof. apply fold_left_app. Qed.

Lemma replay_no_write (new : list effect) (s : value) :
  (forall p v, ~ In (Wrote p v) new) -> replay new s = s.
Proof.
  revert s. induction new as [ | e new IH ]; intros s Hno; [ reflexivity | ].
  cbn [replay fold_left]. destruct e as [ p | p v | to message | text ];
    try (apply IH; intros p' v' Hin; apply (Hno p' v'); now right).
  exfalso. apply (Hno p v). now left.
Qed.

Lemma within_trans (a b c : world) : within allowed a b -> within allowed b c -> within allowed a c.
Proof.
  intros (n1 & L1 & F1 & D1) (n2 & L2 & F2 & D2).
  exists (n1 ++ n2)%list. repeat split.
  - rewrite L2, L1. now rewrite app_assoc.
  - apply Forall_app; auto.
  - now rewrite replay_app, <- D1, <- D2.
Qed.

Lemma keeps_ret {R A} (Q : R -> Prop) (a : A) : keeps allowed Q (ret a).
Proof. intros w. split; [apply within_refl | discriminate]. Qed.

Lemma keeps_raise {R A} (Q : R -> Prop) (e : exn) : keeps allowed Q (raise (A := A) e).
Proof. intros w. split; [apply within_refl | discriminate]. Qed.

Lemma keeps_return {R A} (Q : R -> Prop) (r : R) :
  Q r -> keeps allowed Q (do_return (A := A) r).
Proof.
  intros HQ w. split; [apply within_refl |].
  simpl. intros r' [= <-]. exact HQ.
Qed.

Lemma keeps_bind {R A B} (Q : R -> Prop) (m : M R A) (k : A -> M R B) :
  keeps allowed Q m -> (forall a, keeps allowed Q (k a)) -> keeps allowed Q (bind m k).
Proof.
  intros Hm Hk w. specialize (Hm w). unfold bind.
  destruct (m w) as [[a | r | e] w1]; simpl in *; destruct Hm as [T1 Q1].
  - destruct (Hk a w1) as [T2 Q2]. split; [eapply within_trans; eauto | auto].
  - split; [auto |]. intros r' [= <-]. now apply Q1.
  - split; [auto | discriminate].
Qed.

Lemma keeps_try {R A} (Q : R -> Prop) (m : M R A) (h : exn -> M R A) :
  keeps allowed Q m -> (forall e, keeps allowed Q (h e)) -> keeps allowed Q (try_except m h).
Proof.
  intros Hm Hh w. specialize (Hm w). unfold try_except.
  destruct (m w) as [[a | r | e] w1]; simpl in *; destruct Hm as [T1 Q1].
  - split; [auto | discriminate].
  - split; [auto |]. intros r' [= <-]. now apply Q1.
  - destruct (Hh e w1) as [T2 Q2]. split; [eapply within_trans; eauto | auto].
Qed.

Lemma keeps_call {R R'} (Q : R' -> Prop) (Q' : R -> Prop) (none : R) (m : M R unit) :
  keeps allowed Q' m -> keeps allowed Q (call none m).
Proof.
  intros Hm w. specialize (Hm w). unfold call.
  destruct (m w) as [[a | r | e] w1]; simpl in *; destruct Hm as [T1 _];
    (split; [auto | discriminate]).
Qed.

Variable E : env.

Lemma within_tick (w : world) : within allowed w (tick w).
Proof.
  exists []. simpl. rewrite app_nil_r. repeat split; auto.
Qed.

Lemma within_record (e : effect) (w : world) :
  allowed e -> (forall p v, e <> Wrote p v) -> within allowed w (record e w).
Proof.
  intros He Hne. exists [e]. simpl. repeat split; auto.
  destruct e; try reflexivity. now elim (Hne path v).
Qed.

Lemma keeps_db_get {R} (Q : R -> Prop) (path : string) :
  allowed (Got path) -> keeps allowed Q (db_get E path).
Proof.
  intros Ha w. unfold db_get, external.
  destruct (fault E (clock w)); simpl; (split; [| discriminate]).
  - apply within_tick.
  - apply within_record; [auto | discriminate].
Qed.

Lemma keeps_send {R} (Q : R -> Prop) (to : value) (message : string) :
  allowed (Sent to message) -> keeps allowed Q (send_whatsapp_message E to message).
Proof.
  intros Ha. unfold send_whatsapp_message. apply keeps_bind.
  - intros w. unfold external.
    destruct (fault E (clock w)); simpl; (split; [| discriminate]).
    + apply within_tick.
    + apply within_record; [auto | discriminate].
  - intros _ w. unfold external.
    destruct (fault E (clock w)); simpl; (split; [| discriminate]);
      apply within_tick.
Qed.

Lemma keeps_chat {R} (Q : R -> Prop) (text : string) :
  allowed (Asked text) -> keeps allowed Q (chat_completion E text).
Proof.
  intros Ha w. unfold chat_completion, external.
  destruct (fault E (clock w)); simpl.
  - split; [apply within_tick | discriminate].
  - destruct (assistant E text); simpl;
      (split; [apply within_record; [auto | discriminate] | discriminate]).
Qed.

Lemma keeps_db_set {R} (Q : R -> Prop) (path : string) (v : value) :
  allowed (Wrote path v) -> keeps allowed Q (db_set E path v).
Proof.
  intros Ha w. unfold db_set, external.
  destruct (fault E (clock w)); simpl; (split; [| discriminate]).
  - apply within_tick.
  - exists [Wrote path v]. simpl. repeat split; auto.
Qed.

Lemma keeps_getitem {R} (Q : R -> Prop) (v : value) (k : string) :
  keeps allowed Q (getitem v k).
Proof.
  unfold getitem. destruct v; try apply keeps_raise.
  destruct (Dict.get k kvs); [apply keeps_ret | apply keeps_raise].
Qed.

Lemma keeps_getitem0 {R} (Q : R -> Prop) (v : value) : keeps allowed Q (getitem0 v).
Proof.
  unfold getitem0. destruct v as [ | | | [|] | [|] | ];
    try apply keeps_raise; apply keeps_ret.
Qed.

Lemma keeps_method_get {R} (Q : R -> Prop) (v : value) (k : string) (d : value) :
  keeps allowed Q (method_get v k d).
Proof. unfold method_get. destruct v; try apply keeps_raise. apply keeps_ret. Qed.

Lemma keeps_method_strip {R} (Q : R -> Prop) (v : value) : keeps allowed Q (method_strip v).
Proof. unfold method_strip. destruct v; try apply keeps_raise. apply keeps_ret. Qed.

Lemma keeps_method_items {R} (Q : R -> Prop) (v : value) : keeps allowed Q (method_items v).
Proof. unfold method_items. destruct v; try apply keeps_raise. apply keeps_ret. Qed.

Lemma keeps_method_keys {R} (Q : R -> Prop) (v : value) : keeps allowed Q (method_keys v).
Proof. unfold method_keys. destruct v; try apply keeps_raise. apply keeps_ret. Qed.

Lemma keeps_strptime {R} (Q : R -> Prop) (v : value) : keeps allowed Q (strptime E v).
Proof.
  unfold strptime. destruct v; try apply keeps_raise.
  destruct (Date.strptime (decimal E) s); [apply keeps_ret | apply keeps_raise].
Qed.

Lemma keeps_contains {R} (Q : R -> Prop) (v : value) (x : string) :
  keeps allowed Q (contains v x).
Proof. unfold contains. destruct v; try apply keeps_raise; apply keeps_ret. Qed.

End Within.

Create HintDb keeps.

#[global] Hint Resolve keeps_ret keeps_raise keeps_getitem keeps_getitem0
  keeps_method_get keeps_method_strip keeps_method_items keeps_strptime
  keeps_contains : keeps.

(** One step through the structure of a block. *)
Ltac keeps_step :=
  first
    [ solve [auto with keeps]
    | apply keeps_bind; [ | intros ? ]
    | apply keeps_try; [ | intros ? ]
    | match goal with
      | |- keeps _ _ (if ?b then _ else _) => destruct b
      | |- keeps _ _ (match ?x with _ => _ end) => destruct x
      end ].

Ltac keeps_auto := cbv zeta; repeat keeps_step.

Section ProgramKeeps.
Variable allowed : effect -> Prop.
Variable E : env.

Hypothesis may_get_admin : forall x, allowed (Got ("admins/" ++ x)).
Hypothesis may_get_student : forall x, allowed (Got ("students/" ++ x)).
Hypothesis may_get_classes : forall x, allowed (Got ("classes/" ++ x)).
Hypothesis may_send : forall to message, allowed (Sent to message).
Hypothesis may_ask : forall text, allowed (Asked text).
Hypothesis may_set_student : forall x v, allowed (Wrote ("students/" ++ x) v).
Hypothesis may_set_class : forall x v, allowed (Wrote ("classes/" ++ x) v).

Lemma keeps_get_department {R} (Q : R -> Prop) (whatsapp : value) :
  keeps allowed Q (get_department E whatsapp).
Proof.
  unfold get_department. apply keeps_call with (Q' := fun _ => True).
  unfold get_department_body.
  apply keeps_bind; [ | intros; now apply keeps_return ].
  apply keeps_try; [ | intros; apply keeps_ret ].
  apply keeps_bind; [ apply keeps_db_get, may_get_student | intros data ].
  match goal with |- keeps _ _ (if ?b then _ else _) => destruct b end.
  - apply keeps_bind; [ apply keeps_getitem | intros; now apply keeps_return ].
  - apply keeps_ret.
Qed.

Lemma keeps_scan_step {R} (Q : R -> Prop) (code : string) (details acc : value) :
  keeps allowed Q (scan_step E code details acc).
Proof. unfold scan_step. keeps_auto. Qed.

Lemma keeps_scan {R} (Q : R -> Prop) (items : dict) :
  forall acc, keeps allowed Q (scan E items acc).
Proof.
  induction items as [ | [code details] rest IH ]; intros acc; simpl.
  - apply keeps_ret.
  - apply keeps_bind; [ apply keeps_scan_step | intros; apply IH ].
Qed.

Lemma keeps_get_next_class {R} (Q : R -> Prop) (department : string) :
  allowed (Got ("classes/" ++ department)) ->
  keeps allowed Q (get_next_class E department).
Proof.
  intros Hmay.
  unfold get_next_class. apply keeps_call with (Q' := fun _ => True).
  unfold get_next_class_body.
  apply keeps_bind; [ | intros; now apply keeps_return ].
  apply keeps_try; [ | intros; apply keeps_ret ].
  apply keeps_bind; [ now apply keeps_db_get | intros got ].
  cbv zeta.
  apply keeps_bind; [ apply keeps_method_items | intros items ].
  apply keeps_bind; [ apply keeps_scan | intros; now apply keeps_return ].
Qed.

Variable Q : response -> Prop.
Hypothesis Q_ok : Q ok200.

Lemma keeps_my_courses (from_number : value) :
  keeps allowed Q (my_courses E from_number).
Proof.
  unfold my_courses.
  apply keeps_bind; [ apply keeps_get_department | intros dept ].
  apply keeps_bind; [ apply keeps_db_get, may_get_classes | intros got ].
  cbv zeta.
  apply keeps_bind; [ | intros; now apply keeps_return ].
  match goal with |- keeps _ _ (if ?b then _ else _) => destruct b end.
  - apply keeps_bind; [ apply keeps_method_keys | intros; now apply keeps_send ].
  - now apply keeps_send.
Qed.

Lemma keeps_course_or_assistant (from_number : value) (text : string) :
  keeps allowed Q (course_or_assistant E from_number text).
Proof.
  unfold course_or_assistant.
  apply keeps_bind; [ apply keeps_get_department | intros dept ].
  apply keeps_bind; [ apply keeps_db_get, may_get_classes | intros got ].
  cbv zeta.
  apply keeps_bind; [ apply keeps_contains | intros known ].
  apply keeps_bind; [ | intros _ ].
  - destruct known; [ | apply keeps_ret ].
    apply keeps_bind; [ apply keeps_getitem | intros details ].
    do 3 (apply keeps_bind; [ apply keeps_method_get | intros ? ]).
    apply keeps_bind; [ now apply keeps_send | intros; now apply keeps_return ].
  - apply keeps_bind; [ | intros; now apply keeps_return ].
    apply keeps_try; [ | intros; now apply keeps_send ].
    apply keeps_bind; [ now apply keeps_chat | intros; now apply keeps_send ].
Qed.

Lemma keeps_admin_update (from_number : value) (text : string) :
  keeps allowed Q (admin_update E from_number text).
Proof.
  unfold admin_update.
  apply keeps_bind; [ | intros; now apply keeps_return ].
  apply keeps_try; [ | intros; now apply keeps_send ].
  destruct (Str.split text) as [ | t0 [ | dept [ | code [ | date [ | time lecturer ]]]]];
    try apply keeps_raise.
  cbv zeta.
  apply keeps_bind; [ | intros; now apply keeps_send ].
  apply keeps_db_set.
  change ("classes/" ++ dept ++ "/" ++ code) with ("classes/" ++ (dept ++ "/" ++ code)).
  apply may_set_class.
Qed.

Lemma keeps_next_class_query (from_number : value) :
  allowed (Got "classes/SE") ->
  keeps allowed Q (next_class_query E from_number).
Proof.
  intros Hmay. unfold next_class_query.
  apply keeps_bind; [ apply keeps_get_department | intros dept ].
  apply keeps_bind; [ | intros _ ].
  - destruct (is_SE dept); [ | apply keeps_ret ].
    apply keeps_db_set, may_set_student.
  - apply keeps_bind; [ now apply keeps_get_next_class | intros next_class ].
    apply keeps_bind; [ | intros; now apply keeps_return ].
    destruct (truthy next_class); [ | now apply keeps_send ].
    do 4 (apply keeps_bind; [ apply keeps_getitem | intros ? ]).
    now apply keeps_send.
Qed.

Lemma keeps_route (from_number : value) (text : string) (is_admin : bool) :
  keeps allowed Q (route E from_number text is_admin).
Proof.
  unfold route.
  repeat match goal with |- keeps _ _ (if ?b then _ else _) => destruct b end.
  - apply keeps_admin_update.
  - apply keeps_next_class_query. apply (may_get_classes "SE").
  - apply keeps_my_courses.
  - apply keeps_course_or_assistant.
Qed.

(** The outer [try] of the webhook with its [except], for statements after
    the chain that keep within the allowed effects themselves. *)
Lemma keeps_deliver_then (after : value -> M response unit) (data : value) :
  (forall from_number, keeps allowed Q (after from_number)) ->
  keeps allowed Q (deliver_then E after data).
Proof.
  intros Hafter. unfold deliver_then.
  do 5 (apply keeps_bind; [ auto with keeps | intros ? ]).
  apply keeps_bind; [ auto with keeps | intros messages ].
  destruct (truthy messages); [ | apply keeps_ret ].
  apply keeps_bind; [ auto with keeps | intros msg ].
  unfold on_message_then.
  do 4 (apply keeps_bind; [ auto with keeps | intros ? ]).
  apply keeps_bind; [ apply keeps_db_get, may_get_admin | intros admin ].
  cbv zeta.
  apply keeps_bind; [ apply keeps_route | intros _; apply Hafter ].
Qed.

End ProgramKeeps.

(** ** The statements after the chain are dead *)

Section DeadCode.
Variable E : env.

Ltac to_the_return :=
  repeat (apply diverts_bind_r; intros); apply diverts_return.

Lemma admin_update_diverts (from_number : value) (text : string) :
  diverts (admin_update E from_number text).
Proof. unfold admin_update. to_the_return. Qed.

Lemma next_class_query_diverts (from_number : value) :
  diverts (next_class_query E from_number).
Proof. unfold next_class_query. to_the_return. Qed.

Lemma my_courses_diverts (from_number : value) :
  diverts (my_courses E from_number).
Proof. unfold my_courses. to_the_return. Qed.

Lemma course_or_assistant_diverts (from_number : value) (text : string) :
  diverts (course_or_assistant E from_number text).
Proof. unfold course_or_assistant. to_the_return. Qed.

Lemma route_diverts (from_number : value) (text : string) (is_admin : bool) :
  diverts (route E from_number text is_admin).
Proof.
  unfold route.
  repeat match goal with |- diverts (if ?b then _ else _) => destruct b end.
  - apply admin_update_diverts.
  - apply next_class_query_diverts.
  - apply my_courses_diverts.
  - apply course_or_assistant_diverts.
Qed.

Lemma on_message_then_any (after after' : value -> M response unit)
      (msg : value) (w : world) :
  on_message_then E after msg w = on_message_then E after' msg w.
Proof.
  unfold on_message_then.
  do 5 (apply bind_pointwise; intros).
  apply diverts_dead, route_diverts.
Qed.

Lemma deliver_then_any (after after' : value -> M response unit)
      (data : value) (w : world) :
  deliver_then E after data w = deliver_then E after' data w.
Proof.
  unfold deliver_then.
  do 6 (apply bind_pointwise; intros).
  match goal with |- (if ?b then _ else _) _ = _ => destruct b end; [ | reflexivity ].
  apply bind_pointwise; intros. apply on_message_then_any.
Qed.

Lemma whatsapp_webhook_then_any (after after' : value -> M response unit)
      (req : request) (w : world) :
  whatsapp_webhook_then E after req w = whatsapp_webhook_then E after' req w.
Proof.
  unfold whatsapp_webhook_then.
  do 3 (apply bind_pointwise; intros).
  unfold bind. erewrite try_pointwise; [ reflexivity | apply deliver_then_any ].
Qed.

End DeadCode.

Lemma serve_world (view : M response unit) (w : world) :
  snd (serve view w) = snd (view w).
Proof.
  unfold serve.
  destruct (view w) as [[a | [[ | | | | | ] code] | [ | | | | | | code ]] w'];
    reflexivity.
Qed.

(** A view that returns a body is served as it returns. *)
Lemma serve_returned (view : M response unit) (w w' : world) (r : response) :
  view w = (Returned r, w') -> body r <> VNull -> serve view w = (r, w').
Proof.
  intros H Hbody. unfold serve. rewrite H.
  destruct r as [[ | | | | | ] code]; try reflexivity. now elim Hbody.
Qed.

Lemma serve_ok200 (view : M response unit) (w w' : world) :
  view w = (Returned ok200, w') -> serve view w = (ok200, w').
Proof. intros H. apply (serve_returned _ _ _ _ H). discriminate. Qed.

(** ** Envelopes *)

Lemma bind_cong_l {R A B} (m m' : M R A) (k : A -> M R B) (w : world) :
  m w = m' w -> bind m k w = bind m' k w.
Proof. intros H. unfold bind. now rewrite H. Qed.

Lemma bind_ret_r_unit {R} (m : M R unit) (w : world) :
  bind m (fun _ => ret tt) w = m w.
Proof. unfold bind. destruct (m w) as [[[] | r | e] w']; reflexivity. Qed.

Lemma getitem_dict {R} (d : dict) (k : string) (x : value) :
  Dict.get k d = Some x -> getitem (R := R) (VDict d) k = ret x.
Proof. intros H. unfold getitem. now rewrite H. Qed.

Lemma getitem_missing {R} (d : dict) (k : string) :
  Dict.get k d = None -> getitem (R := R) (VDict d) k = raise KeyError.
Proof. intros H. unfold getitem. now rewrite H. Qed.

Lemma getitem0_cons {R} (x : value) (l : list value) :
  getitem0 (R := R) (VList (x :: l)) = ret x.
Proof. reflexivity. Qed.

Lemma get_default_some (d : dict) (k : string) (default x : value) :
  Dict.get k d = Some x -> Dict.get_default k default d = x.
Proof. intros H. unfold Dict.get_default. now rewrite H. Qed.

Lemma deliver_on_message (E : env) (after : value -> M response unit)
      (data from_number : value) (raw : string) (w : world) :
  carries data from_number raw ->
  deliver_then E after data w =
  (admin <- db_get E ("admins/" ++ fmt E from_number) ;;
   route E from_number (Str.strip raw) (is_True admin) ;;
   after from_number) w.
Proof.
  intros (v & m & messages & t & (d & e & entries & c & changes & -> & He & Hc & Hv)
          & Hm & Hf & Ht & Hb).
  unfold deliver_then.
  rewrite (@getitem_dict _ _ _ _ He), bind_ret_l, getitem0_cons, bind_ret_l.
  rewrite (@getitem_dict _ _ _ _ Hc), bind_ret_l, getitem0_cons, bind_ret_l.
  rewrite (@getitem_dict _ _ _ _ Hv), bind_ret_l.
  unfold method_get. rewrite bind_ret_l, (@get_default_some _ _ VNull _ Hm).
  cbn [truthy]. rewrite getitem0_cons, bind_ret_l.
  unfold on_message_then.
  rewrite (@getitem_dict _ _ _ _ Hf), bind_ret_l.
  rewrite (@getitem_dict _ _ _ _ Ht), bind_ret_l.
  rewrite (@getitem_dict _ _ _ _ Hb), bind_ret_l.
  unfold method_strip. rewrite bind_ret_l. reflexivity.
Qed.

Lemma webhook_on_message (E : env) (args : list (string * string))
      (data from_number : value) (raw : string) (w : world) :
  carries data from_number raw ->
  whatsapp_webhook E (post_json args data) w = dispatch E from_number (Str.strip raw) w.
Proof.
  intros Hc. unfold whatsapp_webhook.
  rewrite (whatsapp_webhook_then_any E (introduction E) (fun _ => ret tt)).
  unfold whatsapp_webhook_then, dispatch, post_json, get_json.
  cbn [method is_json json negb]. rewrite !bind_ret_l.
  apply bind_cong_l. unfold try_except.
  rewrite (@deliver_on_message E (fun _ => ret tt) _ _ _ w Hc).
  replace ((admin <- db_get E ("admins/" ++ fmt E from_number) ;;
            route E from_number (Str.strip raw) (is_True admin) ;; ret tt) w)
    with ((admin <- db_get E ("admins/" ++ fmt E from_number) ;;
           route E from_number (Str.strip raw) (is_True admin)) w);
    [ reflexivity | ].
  apply bind_pointwise. intros admin w'. symmetry. apply bind_ret_r_unit.
Qed.

Lemma keeps_introduction (allowed : effect -> Prop) (E : env)
      (Q : response -> Prop) (from_number : value) :
  (forall e, allowed e) -> Q ok200 -> keeps allowed Q (introduction E from_number).
Proof.
  intros Hall HQ. unfold introduction. cbv zeta.
  apply keeps_bind; [ apply keeps_db_get, Hall | intros introduced ].
  destruct (negb (truthy introduced)); [ | apply keeps_ret ].
  apply keeps_bind; [ apply keeps_send, Hall | intros _ ].
  apply keeps_bind; [ apply keeps_db_set, Hall | intros _ ].
  now apply keeps_return.
Qed.

Lemma webhook_post_json (E : env) (after : value -> M response unit)
      (args : list (string * string)) (data : value) (w : world) :
  whatsapp_webhook_then E after (post_json args data) w =
  (try_except (deliver_then E after data) (fun _ => ret tt) ;; do_return ok200) w.
Proof. reflexivity. Qed.

(** C3, as amended: a POST with a JSON content type and a body that is valid
    JSON is answered with status 200 and body "OK", whatever the envelope holds
    and whichever external calls fail; and when the envelope has no messages
    nothing at all is done. *)
Theorem webhook_json_post_always_ok (E : env) (args : list (string * string))
        (data : value) (w : world) :
  fst (serve (whatsapp_webhook E (post_json args data)) w) = ok200 /\
  (forall v,
      envelope_value data (VDict v) ->
      truthy (Dict.get_default "messages" VNull v) = false ->
      serve (whatsapp_webhook E (post_json args data)) w = (ok200, w)).
Proof.
  split.
  - unfold serve, whatsapp_webhook. rewrite webhook_post_json.
    pose proof (@keeps_deliver_then (fun _ => True) E
                  (fun _ => I) (fun _ => I) (fun _ => I) (fun _ _ => I) (fun _ => I)
                  (fun _ _ => I) (fun _ _ => I)
                  (eq ok200) eq_refl (introduction E) data
                  (fun f => @keeps_introduction _ E _ f (fun _ => I) eq_refl) w)
      as [_ HQ].
    unfold bind, try_except.
    destruct (deliver_then E (introduction E) data w) as [[[] | r | e] w'];
      simpl in *; auto.
    rewrite <- (HQ r eq_refl). reflexivity.
  - intros v (d & e & entries & c & changes & -> & He & Hc & Hv) Hfalse.
    apply serve_ok200.
    unfold whatsapp_webhook. rewrite webhook_post_json.
    unfold bind at 1, try_except, deliver_then.
    rewrite (@getitem_dict _ _ _ _ He), bind_ret_l, getitem0_cons, bind_ret_l.
    rewrite (@getitem_dict _ _ _ _ Hc), bind_ret_l, getitem0_cons, bind_ret_l.
    rewrite (@getitem_dict _ _ _ _ Hv), bind_ret_l.
    unfold method_get. rewrite bind_ret_l, Hfalse. reflexivity.
Qed.

(** C9: the introduction never runs.  The chain of branches never reaches its
    end (each branch returns 200 "OK" or raises), so the webhook behaves the
    same whatever statements follow the chain, and no run of it reads or
    writes a path under users/. *)
Theorem introduction_never_fires (E : env) (req : request) (w : world) :
  (forall from_number text is_admin w0,
      match fst (route E from_number text is_admin w0) with
      | Normal _ => False
      | Returned r => r = ok200
      | Raised _ => True
      end) /\
  (forall after,
      serve (whatsapp_webhook_then E after req) w = serve (whatsapp_webhook E req) w) /\
  (exists new,
      log (snd (serve (whatsapp_webhook E req) w)) = (log w ++ new)%list /\
      Forall (fun e => touches_users e = false) new).
Proof.
  assert (Hroute : forall from_number text is_admin,
             keeps (fun e => touches_users e = false) (eq ok200)
                   (route E from_number text is_admin)).
  { intros. apply keeps_route; intros; reflexivity. }
  split; [ | split ].
  - intros from_number text is_admin w0.
    pose proof (route_diverts E from_number text is_admin w0) as Hd.
    destruct (Hroute from_number text is_admin w0) as [_ HQ].
    destruct (fst (route E from_number text is_admin w0)); auto.
    symmetry. now apply HQ.
  - intros after. unfold serve, whatsapp_webhook.
    now rewrite (whatsapp_webhook_then_any E after (introduction E)).
  - rewrite serve_world. unfold whatsapp_webhook.
    rewrite (whatsapp_webhook_then_any E (introduction E) (fun _ => ret tt)).
    assert (Hk : keeps (fun e => touches_users e = false) (fun _ => True)
                   (whatsapp_webhook_then E (fun _ => ret tt) req)).
    { unfold whatsapp_webhook_then.
      apply keeps_bind; [ | intros _ ].
      { destruct (method req); [ | apply keeps_ret ].
        unfold verification. cbv zeta.
        match goal with |- keeps _ _ (if ?b then _ else _) => destruct b end;
          now apply keeps_return. }
      apply keeps_bind; [ | intros _ ].
      { destruct (negb (is_json req)); [ now apply keeps_return | apply keeps_ret ]. }
      apply keeps_bind; [ | intros data ].
      { unfold get_json. destruct (negb (is_json req)); [ apply keeps_raise | ].
        destruct (json req); [ apply keeps_ret | apply keeps_raise ]. }
      apply keeps_bind; [ | intros; now apply keeps_return ].
      apply keeps_try; [ | intros; apply keeps_ret ].
      apply keeps_deliver_then; try (intros; reflexivity). intros. apply keeps_ret. }
    destruct (Hk w) as [(new & Hlog & Hall & _) _].
    exists new. split; assumption.
Qed.

(** ** Dictionaries, the store and the order of dates *)

Lemma dict_get_set_same (k : string) (v : value) (d : dict) :
  Dict.get k (Dict.set k v d) = Some v.
Proof.
  induction d as [ | [k' v'] d IH ]; simpl.
  - now rewrite String.eqb_refl.
  - destruct (k' =? k)%string eqn:Hk; simpl.
    + now rewrite String.eqb_refl.
    + now rewrite Hk.
Qed.

Lemma dict_get_set_other (k k' : string) (v : value) (d : dict) :
  k <> k' -> Dict.get k (Dict.set k' v d) = Dict.get k d.
Proof.
  intros Hne. induction d as [ | [k0 v0] d IH ]; simpl.
  - destruct (String.eqb_spec k' k); congruence.
  - destruct (String.eqb_spec k0 k'); simpl.
    + subst k0. destruct (String.eqb_spec k' k); congruence.
    + destruct (k0 =? k)%string; auto.
Qed.

Lemma dict_set_truthy (k : string) (v : value) (d : dict) :
  truthy (VDict (Dict.set k v d)) = true.
Proof.
  destruct d as [ | [k' v'] d ]; simpl; auto.
  destruct (k' =? k)%string; reflexivity.
Qed.

Lemma store_lookup_update (p : list string) (v s : value) :
  Store.lookup p (Store.update p v s) = v.
Proof.
  revert s. induction p as [ | k p IH ]; intros s; simpl; auto.
  unfold Dict.get_default. now rewrite dict_get_set_same.
Qed.

Ltac date_order :=
  unfold Date.ltb, Date.geb, Date.compare;
  repeat match goal with
         | d : Date.date |- _ => destruct d
         end;
  simpl;
  repeat match goal with
         | |- context [ (?x ?= ?y)%Z ] => destruct (Z.compare_spec x y)
         end;
  intros; subst; try congruence; try lia.

Lemma date_ltb_irrefl (a : Date.date) : Date.ltb a a = false.
Proof. date_order. Qed.

Lemma date_ltb_le_trans (a b c : Date.date) :
  Date.ltb a b = true -> Date.ltb c b = false -> Date.ltb a c = true.
Proof. date_order. Qed.

Lemma date_ltb_asym (a b : Date.date) :
  Date.ltb a b = true -> Date.ltb b a = false.
Proof. date_order. Qed.

(** ** The department of a sender *)

Lemma get_department_run (E : env) (R : Type) (whatsapp : value) (w : world) :
  get_department (R := R) E whatsapp w =
  if fault E (clock w) then (Normal (VStr "SE"), tick w)
  else (Normal (resolved_department E whatsapp (db w)),
        record (Got ("students/" ++ fmt E whatsapp)) w).
Proof.
  unfold get_department, call, get_department_body, bind, try_except, db_get,
    external, resolved_department.
  destruct (fault E (clock w)); [ reflexivity | ].
  cbv zeta.
  destruct (Store.lookup _ (db w)) as [ | b | n | s | l | kvs ];
    try (match goal with |- context [ truthy ?v ] => destruct (truthy v) end;
         reflexivity).
  destruct kvs as [ | kv kvs ]; [ reflexivity | ].
  cbn [truthy andb]. unfold Dict.mem, getitem, Dict.get_default.
  destruct (Dict.get "department" (kv :: kvs)); reflexivity.
Qed.

(** C8: [get_department] always returns, never raises and leaves the database
    as it is.  It returns the field [department] of the student record when the
    lookup succeeds and the record is a mapping with that field; it returns
    'SE' when the lookup fails, when there is no record or the record is not a
    mapping, and when the record has no such field. *)
Theorem get_department_never_raises (E : env) (R : Type) (whatsapp : value) (w : world) :
  exists dept w',
    get_department (R := R) E whatsapp w = (Normal dept, w') /\
    db w' = db w /\
    (fault E (clock w) = true -> dept = VStr "SE") /\
    (fault E (clock w) = false ->
     let data := Store.lookup (Store.segments ("students/" ++ fmt E whatsapp)) (db w) in
     (forall rec v, data = VDict rec -> Dict.get "department" rec = Some v -> dept = v) /\
     (forall rec, data = VDict rec -> Dict.get "department" rec = None -> dept = VStr "SE") /\
     ((forall rec, data <> VDict rec) -> dept = VStr "SE")).
Proof.
  rewrite get_department_run. unfold resolved_department.
  destruct (fault E (clock w)).
  - exists (VStr "SE"), (tick w). repeat split; auto; discriminate.
  - eexists. eexists. split; [ reflexivity | ].
    split; [ reflexivity | ]. split; [ discriminate | ].
    intros _. cbv zeta.
    destruct (Store.lookup _ (db w)) as [ | b | n | s | l | kvs ];
      (split; [ | split ]); try discriminate; auto.
    + intros rec v [= <-] Hget. unfold Dict.get_default. now rewrite Hget.
    + intros rec [= <-] Hget. unfold Dict.get_default. now rewrite Hget.
    + intros Hno. now destruct (Hno kvs).
Qed.

(** ** The next class *)

Lemma strptime_empty (table : list ascii -> option (Z * list ascii)) :
  Date.strptime table "" = None.
Proof. reflexivity. Qed.

Lemma upcoming_date_field (E : env) (rec : dict) (d : Date.date) :
  upcoming E (VDict rec) d ->
  exists s, Dict.get "date" rec = Some (VStr s) /\ Date.strptime (decimal E) s = Some d.
Proof.
  intros [Hd _]. unfold class_date, Dict.get_default in Hd.
  destruct (Dict.get "date" rec) as [ [ | | | s | | ] | ]; try discriminate.
  now exists s.
Qed.

Lemma nth_error_snoc {A} (l : list A) (x y : A) (j : nat) :
  nth_error (l ++ [x])%list j = Some y ->
  ((j < List.length l)%nat /\ nth_error l j = Some y) \/ (j = List.length l /\ y = x).
Proof.
  intros H. destruct (Nat.lt_ge_cases j (List.length l)) as [Hlt | Hge].
  - left. split; auto. now rewrite nth_error_app1 in H.
  - right. rewrite nth_error_app2 in H by assumption.
    destruct (j - List.length l)%nat as [ | n ] eqn:Hn; simpl in H.
    + split; [ lia | congruence ].
    + destruct n; discriminate.
Qed.

Lemma scanned_skip (E : env) (seen : dict) (acc : value) (code : string)
      (details : value) :
  (forall d, ~ upcoming E details d) ->
  scanned E seen acc -> scanned E (seen ++ [(code, details)])%list acc.
Proof.
  intros Hnot [[-> Hnone] | (i & c & rec & d & (Hi & Hup & Hmin) & ->)].
  - left. split; auto. intros kv d Hin.
    apply in_app_or in Hin.
    destruct Hin as [Hin | [<- | []]]; [ now apply Hnone | apply Hnot ].
  - right. exists i, c, rec, d. split; [ | reflexivity ].
    split; [ | split; [ exact Hup | ] ].
    + rewrite nth_error_app1; auto. apply nth_error_Some. congruence.
    + intros j kv d' Hj Hup'.
      destruct (nth_error_snoc _ _ _ _ Hj) as [[_ Hj'] | [_ ->]].
      * now apply (Hmin j kv d').
      * now destruct (Hnot d').
Qed.

Lemma upcoming_unique (E : env) (details : value) (d d' : Date.date) :
  upcoming E details d -> upcoming E details d' -> d' = d.
Proof. intros [H _] [H' _]. congruence. Qed.

Lemma scanned_first (E : env) (seen : dict) (code : string) (rec : dict)
      (d : Date.date) :
  upcoming E (VDict rec) d ->
  scanned E seen VNull ->
  scanned E (seen ++ [(code, VDict rec)])%list
          (VDict (Dict.set "course_code" (VStr code) rec)).
Proof.
  intros Hup [[_ Hnone] | (i & c & rec' & d' & _ & Habs)]; [ | discriminate ].
  right. exists (List.length seen), code, rec, d. split; [ | reflexivity ].
  split; [ | split; [ exact Hup | ] ].
  - rewrite nth_error_app2, Nat.sub_diag; auto.
  - intros j kv d' Hj Hup'.
    destruct (nth_error_snoc _ _ _ _ Hj) as [[_ Hj'] | [-> ->]].
    + apply nth_error_In in Hj'. now destruct (Hnone kv d').
    + rewrite (upcoming_unique _ _ _ _ Hup Hup'). split; [ apply date_ltb_irrefl | lia ].
Qed.

Lemma scanned_earlier (E : env) (seen : dict) (i : nat) (code0 code : string)
      (rec0 rec : dict) (d0 d : Date.date) :
  first_earliest E seen i code0 rec0 d0 ->
  upcoming E (VDict rec) d ->
  Date.ltb d d0 = true ->
  first_earliest E (seen ++ [(code, VDict rec)])%list (List.length seen) code rec d.
Proof.
  intros (Hi & Hup0 & Hmin) Hup Hlt.
  split; [ | split; [ exact Hup | ] ].
  - rewrite nth_error_app2, Nat.sub_diag; auto.
  - intros j kv d' Hj Hup'.
    destruct (nth_error_snoc _ _ _ _ Hj) as [[_ Hj'] | [-> ->]].
    + destruct (Hmin j kv d' Hj' Hup') as [Hge _].
      pose proof (date_ltb_le_trans _ _ _ Hlt Hge) as Hlt'.
      split; [ now apply date_ltb_asym | auto ].
    + rewrite (upcoming_unique _ _ _ _ Hup Hup'). split; [ apply date_ltb_irrefl | lia ].
Qed.

Lemma scanned_later (E : env) (seen : dict) (i : nat) (code0 code : string)
      (rec0 rec : dict) (d0 d : Date.date) :
  first_earliest E seen i code0 rec0 d0 ->
  upcoming E (VDict rec) d ->
  Date.ltb d d0 = false ->
  first_earliest E (seen ++ [(code, VDict rec)])%list i code0 rec0 d0.
Proof.
  intros (Hi & Hup0 & Hmin) Hup Hge.
  assert (Hlen : (i < List.length seen)%nat) by (apply nth_error_Some; congruence).
  split; [ | split; [ exact Hup0 | ] ].
  - rewrite nth_error_app1; auto.
  - intros j kv d' Hj Hup'.
    destruct (nth_error_snoc _ _ _ _ Hj) as [[_ Hj'] | [-> ->]].
    + now apply (Hmin j kv d').
    + rewrite (upcoming_unique _ _ _ _ Hup Hup'). split; [ assumption | lia ].
Qed.

Lemma scan_step_scanned (E : env) (R : Type) (seen : dict) (acc : value)
      (code : string) (details : value) (w : world) :
  scanned E seen acc ->
  exists acc',
    scan_step (R := R) E code details acc w = (Normal acc', w) /\
    scanned E (seen ++ [(code, details)])%list acc'.
Proof.
  intros Hacc.
  assert (Hskip : (forall d, ~ upcoming E details d) ->
                  scanned E (seen ++ [(code, details)])%list acc)
    by (intros; now apply scanned_skip).
  unfold scan_step, try_except, bind, strptime.
  destruct details as [ | b | n | s | l | rec ];
    try (exists acc; split; [ reflexivity | ];
         apply Hskip; intros d [Hd _]; discriminate).
  destruct (Dict.get_default "date" (VStr "") rec) as [ | b | n | s | l | kvs ] eqn:Hdate;
    try (exists acc; split; [ reflexivity | ];
         apply Hskip; intros d [Hd _]; simpl in Hd; rewrite Hdate in Hd; discriminate).
  destruct (Date.strptime (decimal E) s) as [ cd | ] eqn:Hs;
    [ | exists acc; split; [ reflexivity | ];
        apply Hskip; intros d [Hd _]; simpl in Hd; rewrite Hdate in Hd; congruence ].
  assert (Hcd : class_date E (VDict rec) = Some cd)
    by (simpl; now rewrite Hdate).
  unfold ret at 1. cbv beta iota.
  destruct (Date.geb cd (today E)) eqn:Hge;
    [ | exists acc; split; [ reflexivity | ];
        apply Hskip; intros d [Hd Hg]; congruence ].
  assert (Hup : upcoming E (VDict rec) cd) by (split; assumption).
  destruct Hacc as [[-> Hnone] | (i & c0 & rec0 & d0 & Hfirst & ->)].
  - eexists. split; [ reflexivity | ].
    apply scanned_first with cd; auto. now left.
  - rewrite dict_set_truthy. cbn [negb].
    pose proof Hfirst as (Hi & Hup0 & Hmin).
    destruct (upcoming_date_field _ _ _ Hup0) as (s0 & Hget0 & Hs0).
    unfold getitem. rewrite dict_get_set_other by discriminate.
    rewrite Hget0. unfold ret at 1. cbv beta iota. rewrite Hs0.
    unfold ret at 1. cbv beta iota.
    destruct (Date.ltb cd d0) eqn:Hlt.
    + eexists. split; [ reflexivity | ].
      right. exists (List.length seen), code, rec, cd. split; [ | reflexivity ].
      eapply scanned_earlier; eauto.
    + eexists. split; [ reflexivity | ].
      right. exists i, c0, rec0, d0. split; [ | reflexivity ].
      eapply scanned_later; eauto.
Qed.

Lemma scan_scanned (E : env) (R : Type) (items : dict) (w : world) :
  forall seen acc,
    scanned E seen acc ->
    exists r,
      scan (R := R) E items acc w = (Normal r, w) /\
      scanned E (seen ++ items)%list r.
Proof.
  induction items as [ | [code details] rest IH ]; intros seen acc Hacc.
  - exists acc. rewrite app_nil_r. now split.
  - destruct (@scan_step_scanned E R seen acc code details w Hacc) as (acc' & Hstep & Hacc').
    destruct (IH _ _ Hacc') as (r & Hr & Hscanned).
    exists r. split.
    + cbn [scan]. unfold bind. now rewrite Hstep.
    + now rewrite <- app_assoc in Hscanned.
Qed.

Lemma get_next_class_run (E : env) (R : Type) (department : string)
      (items : dict) (w : world) :
  fault E (clock w) = false ->
  class_mapping department (db w) = VDict items ->
  exists r,
    get_next_class (R := R) E department w =
      (Normal r, record (Got ("classes/" ++ department)) w) /\
    scanned E items r.
Proof.
  intros Hok Hmap.
  destruct (@scan_scanned E value items (record (Got ("classes/" ++ department)) w)
              [] VNull) as (r & Hr & Hscanned).
  { left. split; auto. }
  exists r. split; [ | exact Hscanned ].
  unfold get_next_class, call, get_next_class_body, bind, try_except, db_get, external.
  rewrite Hok. cbv zeta. unfold class_mapping in Hmap. cbv zeta in Hmap.
  rewrite Hmap. cbn [method_items]. unfold ret at 1. cbv beta iota.
  rewrite Hr. reflexivity.
Qed.

(** C1, as amended: the dates that count are those that
    [strptime(_, '%Y-%m-%d')] accepts, which are more than the strings of the
    form YYYY-MM-DD: a month or a day of one digit, a day with a space before
    it, and digits of another script where the pattern has [\d] are accepted
    as well ([class_date] is the date read from a record, with the table
    [decimal] of the environment for [\d]).  When the lookup of the class
    mapping succeeds and gives [items] (or nothing, which counts as the empty
    mapping), [get_next_class] returns.  If some record is a mapping with a
    date that [strptime] accepts and that is today or later, it returns the
    first record that has the earliest such date, with its key added as
    [course_code]; every other record, and so every record that is not a
    mapping or has a date that [strptime] rejects or a past date, has no part
    in the choice.  If there is no such record it returns [None]. *)
Theorem get_next_class_earliest (E : env) (R : Type) (department : string)
        (items : dict) (w : world) :
  fault E (clock w) = false ->
  class_mapping department (db w) = VDict items ->
  exists r w',
    get_next_class (R := R) E department w = (Normal r, w') /\
    db w' = db w /\
    ((forall kv d, In kv items -> ~ upcoming E (snd kv) d) -> r = VNull) /\
    ((exists kv d, In kv items /\ upcoming E (snd kv) d) ->
     exists i code rec d,
       nth_error items i = Some (code, VDict rec) /\
       class_date E (VDict rec) = Some d /\
       Date.geb d (today E) = true /\
       (forall j kv d',
           nth_error items j = Some kv -> upcoming E (snd kv) d' ->
           Date.ltb d' d = false /\ ((j < i)%nat -> Date.ltb d d' = true)) /\
       r = VDict (Dict.set "course_code" (VStr code) rec)).
Proof.
  intros Hok Hmap.
  destruct (@get_next_class_run E R department items w Hok Hmap) as (r & Hrun & Hscanned).
  exists r, (record (Got ("classes/" ++ department)) w).
  split; [ exact Hrun | ]. split; [ reflexivity | ].
  destruct Hscanned as [[-> Hnone] | (i & code & rec & d & (Hi & [Hd Hge] & Hmin) & ->)].
  - split; [ reflexivity | ].
    intros (kv & d & Hin & Hup). now destruct (Hnone kv d).
  - split.
    + intros Hnone. apply nth_error_In in Hi.
      destruct (Hnone (code, VDict rec) d Hi). now split.
    + intros _. exists i, code, rec, d. repeat split; auto; now apply (Hmin j kv d').
Qed.

(** ** External calls that succeed *)

Lemma db_get_run (E : env) (R : Type) (path : string) (w : world) :
  fault E (clock w) = false ->
  db_get (R := R) E path w =
  (Normal (Store.lookup (Store.segments path) (db w)), record (Got path) w).
Proof. intros H. unfold db_get, external. now rewrite H. Qed.

Lemma db_set_run (E : env) (R : Type) (path : string) (v : value) (w : world) :
  fault E (clock w) = false ->
  db_set (R := R) E path v w =
  (Normal tt, World (Store.update (Store.segments path) v (db w))
                    (log w ++ [Wrote path v]) (S (clock w))).
Proof. intros H. unfold db_set, external. now rewrite H. Qed.

(** A message that goes out and whose response decodes. *)
Lemma send_run (E : env) (R : Type) (to : value) (message : string) (w : world) :
  fault E (clock w) = false ->
  fault E (S (clock w)) = false ->
  send_whatsapp_message (R := R) E to message w =
  (Normal tt, tick (record (Sent to message) w)).
Proof.
  intros H H'. unfold send_whatsapp_message, bind, external. rewrite H.
  cbn [record clock tick]. now rewrite H'.
Qed.

(** The POST raises: nothing goes out. *)
Lemma send_fails (E : env) (R : Type) (to : value) (message : string) (w : world) :
  fault E (clock w) = true ->
  send_whatsapp_message (R := R) E to message w = (Raised ExternalError, tick w).
Proof. intros H. unfold send_whatsapp_message, bind, external. now rewrite H. Qed.

(** The message goes out and the decoding of the response raises. *)
Lemma send_posted_then_fails (E : env) (R : Type) (to : value) (message : string)
      (w : world) :
  fault E (clock w) = false ->
  fault E (S (clock w)) = true ->
  send_whatsapp_message (R := R) E to message w =
  (Raised ExternalError, tick (record (Sent to message) w)).
Proof.
  intros H H'. unfold send_whatsapp_message, bind, external. rewrite H.
  cbn [record clock tick]. now rewrite H'.
Qed.

Lemma dispatch_run (E : env) (from_number : value) (text : string) (w : world) :
  fault E (clock w) = false ->
  dispatch E from_number text w =
  (try_except (route E from_number text (is_True (admin_flag E from_number (db w))))
              (fun _ => ret tt) ;;
   do_return ok200) (record (Got ("admins/" ++ fmt E from_number)) w).
Proof.
  intros H. unfold dispatch, bind at 1, try_except at 1, bind at 1.
  rewrite db_get_run by assumption. reflexivity.
Qed.

Lemma dispatch_admin_lookup_fails (E : env) (from_number : value) (text : string)
      (w : world) :
  fault E (clock w) = true ->
  dispatch E from_number text w = (Returned ok200, tick w).
Proof.
  intros H. unfold dispatch, bind, try_except, db_get, external. now rewrite H.
Qed.

Lemma adminupdate_is_no_phrase (s : string) :
  Str.startswith "adminupdate" s = true ->
  Str.mem s ["next class"; "when is my next class?"] = false.
Proof.
  intros H. unfold Str.mem, existsb.
  destruct (String.eqb_spec s "next class") as [-> | _]; [ discriminate | ].
  destruct (String.eqb_spec s "when is my next class?") as [-> | _];
    [ discriminate | reflexivity ].
Qed.

Lemma reads_only_no_write (new : list effect) :
  Forall reads_only new -> forall p v, ~ In (Wrote p v) new.
Proof.
  intros Hall p v Hin. rewrite Forall_forall in Hall. exact (Hall _ Hin).
Qed.

(** A run of the dispatch in which the branch that is taken writes nothing. *)
Lemma dispatch_reads_only (E : env) (from_number : value) (text : string) (w : world) :
  (forall is_admin, is_admin = is_True (admin_flag E from_number (db w)) ->
                    keeps reads_only (eq ok200) (route E from_number text is_admin)) ->
  exists w' new,
    dispatch E from_number text w = (Returned ok200, w') /\
    db w' = db w /\ log w' = (log w ++ new)%list /\ Forall reads_only new.
Proof.
  intros Hroute. destruct (fault E (clock w)) eqn:Hf.
  - rewrite dispatch_admin_lookup_fails by assumption.
    exists (tick w), []. rewrite app_nil_r. repeat split; auto.
  - rewrite dispatch_run by assumption.
    specialize (Hroute _ eq_refl (record (Got ("admins/" ++ fmt E from_number)) w)).
    unfold bind, try_except.
    destruct (route E from_number text _ _) as [[[] | r | e] w'];
      destruct Hroute as [(new & Hlog & Hall & Hdb) HQ]; simpl in *;
      try (rewrite <- (HQ r eq_refl));
      (exists w', (Got ("admins/" ++ fmt E from_number) :: new);
       split; [ reflexivity | ];
       split; [ rewrite Hdb; now apply replay_no_write, reads_only_no_write | ];
       split; [ rewrite Hlog, <- app_assoc; reflexivity | ];
       constructor; [ exact I | assumption ]).
Qed.

Lemma route_not_admin_reads_only (E : env) (from_number : value) (text : string) :
  Str.startswith "adminupdate" (lower E text) = true ->
  keeps reads_only (eq ok200) (route E from_number text false).
Proof.
  intros Hsw. unfold route.
  rewrite Hsw, (adminupdate_is_no_phrase _ Hsw). cbn [andb].
  destruct (lower E text =? "my courses")%string.
  - apply keeps_my_courses; intros; exact I || reflexivity.
  - apply keeps_course_or_assistant; intros; exact I || reflexivity.
Qed.

(** C2: an admin command from a sender whose flag in [admins/] is [True],
    with at least five tokens, replaces the record at
    [classes/<department>/<code>] by exactly the date, the time and the joined
    rest as lecturer, and sends the confirmation that names the code, when
    the external calls succeed: the lookup of the flag, the write, and the
    POST and the decoding of the response of the confirmation.  (A call
    fails, among other causes, when the client library refuses the path, as
    it does for a code with a '.' in it.)  The tokens are those of
    [str.split], at the white space of Unicode.  From a sender whose flag is
    not [True] the same text changes nothing in the database and writes
    nothing, whichever calls fail. *)
Theorem admin_update_replaces_record (E : env) (args : list (string * string))
        (data from_number : value) (raw : string) (w : world) :
  carries data from_number raw ->
  Str.startswith "adminupdate" (lower E (Str.strip raw)) = true ->
  let out := serve (whatsapp_webhook E (post_json args data)) w in
  (forall t0 dept code date time lecturer,
      admin_flag E from_number (db w) = VBool true ->
      Str.split (Str.strip raw) = t0 :: dept :: code :: date :: time :: lecturer ->
      fault E (clock w) = false ->
      fault E (S (clock w)) = false ->
      fault E (S (S (clock w))) = false ->
      fault E (S (S (S (clock w)))) = false ->
      let path := "classes/" ++ dept ++ "/" ++ code in
      let record_ := VDict [("date", VStr date); ("time", VStr time);
                            ("lecturer", VStr (Str.join " " lecturer))] in
      fst out = ok200 /\
      log (snd out) =
        (log w ++ [Got ("admins/" ++ fmt E from_number);
                   Wrote path record_;
                   Sent from_number ("Schedule updated for " ++ code ++ ".")])%list /\
      db (snd out) = Store.update (Store.segments path) record_ (db w) /\
      Store.lookup (Store.segments path) (db (snd out)) = record_) /\
  (admin_flag E from_number (db w) <> VBool true ->
   fst out = ok200 /\
   db (snd out) = db w /\
   exists new,
     log (snd out) = (log w ++ new)%list /\ forall p v, ~ In (Wrote p v) new).
Proof.
  intros Hcarries Hsw out. subst out. split.
  - intros t0 dept code date time lecturer Hadmin Hsplit H0 H1 H2 H3 path record_.
    assert (Hrun : whatsapp_webhook E (post_json args data) w =
                   (Returned ok200,
                    World (Store.update (Store.segments path) record_ (db w))
                          (log w ++ [Got ("admins/" ++ fmt E from_number);
                                     Wrote path record_;
                                     Sent from_number ("Schedule updated for " ++ code ++ ".")])
                          (S (S (S (S (clock w))))))).
    { rewrite (webhook_on_message E args _ _ _ w Hcarries).
      rewrite dispatch_run by assumption.
      rewrite Hadmin. unfold route. rewrite Hsw. cbn [is_True andb].
      unfold admin_update. rewrite Hsplit. cbv zeta.
      unfold bind, try_except.
      rewrite db_set_run by assumption.
      rewrite send_run by assumption.
      unfold do_return, record, tick. cbn [db log clock].
      rewrite <- !app_assoc. reflexivity. }
    rewrite (serve_ok200 _ _ _ Hrun). cbn [fst snd db log].
    repeat split; auto. apply store_lookup_update.
  - intros Hnot.
    destruct (@dispatch_reads_only E from_number (Str.strip raw) w)
      as (w' & new & Hrun & Hdb & Hlog & Hall).
    { intros is_admin ->.
      replace (is_True (admin_flag E from_number (db w))) with false.
      - now apply route_not_admin_reads_only.
      - destruct (admin_flag E from_number (db w)) as [ | [ | ] | | | | ];
          try reflexivity. now destruct Hnot. }
    rewrite <- (webhook_on_message E args _ _ _ w Hcarries) in Hrun.
    rewrite (serve_ok200 _ _ _ Hrun). cbn [fst snd].
    split; [ reflexivity | ]. split; [ assumption | ].
    exists new. split; [ assumption | now apply reads_only_no_write ].
Qed.

(** C7: an admin command from an admin sender with fewer than five tokens
    (those of [str.split], at the white space of Unicode) is answered with
    status 200; nothing is written and the database is as it was; and the
    fixed error message is what goes out to the sender, when its POST does
    not fail. *)
Theorem admin_update_malformed (E : env) (args : list (string * string))
        (data from_number : value) (raw : string) (w : world) :
  carries data from_number raw ->
  Str.startswith "adminupdate" (lower E (Str.strip raw)) = true ->
  (List.length (Str.split (Str.strip raw)) < 5)%nat ->
  fault E (clock w) = false ->
  admin_flag E from_number (db w) = VBool true ->
  let out := serve (whatsapp_webhook E (post_json args data)) w in
  fst out = ok200 /\
  db (snd out) = db w /\
  (exists new,
      log (snd out) = (log w ++ new)%list /\ forall p v, ~ In (Wrote p v) new) /\
  (fault E (S (clock w)) = false ->
   log (snd out) =
     (log w ++ [Got ("admins/" ++ fmt E from_number);
                Sent from_number "Error: Invalid adminupdate format."])%list).
Proof.
  intros Hcarries Hsw Hlen H0 Hadmin out. subst out.
  assert (Hbody : admin_update E from_number (Str.strip raw) =
                  (try_except (raise ValueError)
                     (fun _ => send_whatsapp_message E from_number
                                 "Error: Invalid adminupdate format.") ;;
                   do_return ok200)).
  { unfold admin_update.
    destruct (Str.split (Str.strip raw))
      as [ | t0 [ | dept [ | code [ | date [ | time lecturer ]]]]];
      try reflexivity.
    simpl in Hlen. lia. }
  assert (Hrun : exists w',
             whatsapp_webhook E (post_json args data) w = (Returned ok200, w') /\
             db w' = db w /\
             log w' = (log w ++ Got ("admins/" ++ fmt E from_number) ::
                         if fault E (S (clock w)) then []
                         else [Sent from_number "Error: Invalid adminupdate format."])%list).
  { rewrite (webhook_on_message E args _ _ _ w Hcarries).
    rewrite dispatch_run by assumption.
    rewrite Hadmin. unfold route. rewrite Hsw. cbn [is_True andb].
    rewrite Hbody. unfold bind, try_except, raise.
    destruct (fault E (S (clock w))) eqn:H1.
    - rewrite send_fails by assumption. eexists. split; [ reflexivity | ].
      split; reflexivity.
    - destruct (fault E (S (S (clock w)))) eqn:H2.
      + rewrite send_posted_then_fails by assumption.
        eexists. split; [ reflexivity | ]. split; [ reflexivity | ].
        simpl. now rewrite <- app_assoc.
      + rewrite send_run by assumption.
        eexists. split; [ reflexivity | ]. split; [ reflexivity | ].
        simpl. now rewrite <- app_assoc. }
  destruct Hrun as (w' & Hrun & Hdb & Hlog).
  rewrite (serve_ok200 _ _ _ Hrun); cbn [fst snd].
  split; [ reflexivity | ]. split; [ exact Hdb | ]. split.
  - eexists. split; [ exact Hlog | ].
    destruct (fault E (S (clock w))).
    + intros p v [Habs | []]. discriminate.
    + intros p v [Habs | [Habs | []]]; discriminate.
  - intros H1. rewrite Hlog, H1. reflexivity.
Qed.

(** ** The branch of the next class *)

Lemma get_next_class_world (E : env) (R : Type) (department : string) (w : world) :
  fault E (clock w) = false ->
  exists r,
    get_next_class (R := R) E department w =
    (Normal r, record (Got ("classes/" ++ department)) w).
Proof.
  intros Hok.
  destruct (class_mapping department (db w)) as [ | b | n | s | l | items ] eqn:Hmap;
    try (exists VNull;
         unfold get_next_class, call, get_next_class_body, bind, try_except,
           db_get, external;
         rewrite Hok; cbv zeta; unfold class_mapping in Hmap; cbv zeta in Hmap;
         rewrite Hmap; reflexivity).
  destruct (get_next_class_run E R department items w Hok Hmap) as (r & Hr & _).
  now exists r.
Qed.

Lemma wrapped_world (m : M response unit) (r : response) (w : world) :
  snd ((try_except m (fun _ => ret tt) ;; do_return (A := unit) r) w) = snd (m w).
Proof.
  unfold bind, try_except. destruct (m w) as [[[] | r' | e] w']; reflexivity.
Qed.

Lemma phrase_is_no_adminupdate (s : string) :
  Str.mem s ["next class"; "when is my next class?"] = true ->
  Str.startswith "adminupdate" s = false.
Proof.
  intros H. destruct (Str.startswith "adminupdate" s) eqn:Hsw; [ | reflexivity ].
  rewrite (adminupdate_is_no_phrase s Hsw) in H. discriminate.
Qed.

Lemma next_class_query_scans_SE (E : env) (from_number : value) (w : world) :
  (forall n, fault E n = false) ->
  exists new,
    log (snd (next_class_query E from_number w)) = (log w ++ new)%list /\
    In (Got "classes/SE") new.
Proof.
  intros Hok. unfold next_class_query. unfold bind at 1.
  rewrite get_department_run, Hok.
  set (w1 := record (Got ("students/" ++ fmt E from_number)) w).
  assert (Hafter : forall w2 pre,
             log w2 = (log w ++ pre)%list ->
             exists new,
               log (snd ((next_class <- get_next_class E "SE" ;;
                          (if truthy next_class then
                             code <- getitem next_class "course_code" ;;
                             date <- getitem next_class "date" ;;
                             time <- getitem next_class "time" ;;
                             lecturer <- getitem next_class "lecturer" ;;
                             send_whatsapp_message E from_number
                               ("Your next class is " ++ fmt E code ++ " on "
                                ++ fmt E date ++ " at " ++ fmt E time ++ " with "
                                ++ fmt E lecturer ++ ".")
                           else send_whatsapp_message E from_number
                                  "No upcoming classes found.") ;;
                          do_return (A := unit) ok200) w2)) = (log w ++ new)%list /\
               In (Got "classes/SE") new).
  { intros w2 pre Hpre. unfold bind at 1.
    destruct (get_next_class_world E response "SE" w2 (Hok _)) as (r & ->).
    set (w3 := record (Got ("classes/" ++ "SE")) w2).
    match goal with
    | |- context [ snd (?m w3) ] =>
        assert (K : keeps (fun _ => True) (fun _ : response => True) m)
    end.
    { apply keeps_bind; [ | intros; now apply keeps_return ].
      destruct (truthy r); [ | now apply keeps_send ].
      do 4 (apply keeps_bind; [ apply keeps_getitem | intros ? ]).
      now apply keeps_send. }
    destruct (K w3) as [(new & Hlog & _) _].
    exists (pre ++ Got "classes/SE" :: new)%list. split.
    - rewrite Hlog. subst w3. cbn [log record tick]. rewrite Hpre.
      rewrite <- !app_assoc. reflexivity.
    - apply in_or_app. right. now left. }
  unfold bind at 1.
  destruct (is_SE (resolved_department E from_number (db w))).
  - rewrite db_set_run by apply Hok.
    eapply Hafter. cbn [log]. subst w1. cbn [log record tick].
    rewrite <- app_assoc. reflexivity.
  - unfold ret at 1. eapply Hafter. subst w1. cbn [log record tick]. reflexivity.
Qed.

(** C4: for a message whose text, after [strip] (at the white space of
    Unicode) and [lower], is one of the two phrases, every class
    mapping that the webhook looks up is that of 'SE', whatever the store
    holds for the sender (and so whatever department is resolved), and when
    no external call fails the mapping of 'SE' is looked up. *)
Theorem next_class_scans_default_department (E : env) (args : list (string * string))
        (data from_number : value) (raw : string) (w : world) :
  carries data from_number raw ->
  Str.mem (lower E (Str.strip raw)) ["next class"; "when is my next class?"] = true ->
  exists new,
    log (snd (serve (whatsapp_webhook E (post_json args data)) w)) = (log w ++ new)%list /\
    (forall p, In (Got p) new -> Str.startswith "classes/" p = true -> p = "classes/SE") /\
    ((forall n, fault E n = false) -> In (Got "classes/SE") new).
Proof.
  intros Hcarries Hphrase.
  rewrite serve_world, (webhook_on_message E args _ _ _ w Hcarries).
  destruct (fault E (clock w)) eqn:H0.
  - rewrite dispatch_admin_lookup_fails by assumption.
    exists []. cbn [snd tick log]. rewrite app_nil_r.
    split; [ reflexivity | ]. split; [ intros p [] | ].
    intros Hok. rewrite Hok in H0. discriminate.
  - rewrite dispatch_run by assumption. rewrite wrapped_world.
    unfold route. rewrite (phrase_is_no_adminupdate _ Hphrase), Hphrase. cbn [andb].
    set (w1 := record (Got ("admins/" ++ fmt E from_number)) w).
    assert (K : keeps (fun e => ~ scans_other_department e) (fun _ : response => True)
                      (next_class_query E from_number)).
    { apply keeps_next_class_query; try (intros; intros []; fail);
        try (intros x [Hsw _]; discriminate); auto.
      intros [_ Hne]. now apply Hne. }
    destruct (K w1) as [(new & Hlog & Hall & _) _].
    exists (Got ("admins/" ++ fmt E from_number) :: new). split; [ | split ].
    + rewrite Hlog. subst w1. cbn [log record tick]. now rewrite <- app_assoc.
    + intros p [Hp | Hp] Hsw.
      * injection Hp as <-. discriminate.
      * rewrite Forall_forall in Hall. specialize (Hall _ Hp). cbn in Hall.
        destruct (string_dec p "classes/SE") as [ | Hne ]; [ assumption | ].
        destruct Hall. now split.
    + intros Hok.
      destruct (next_class_query_scans_SE E from_number w1 Hok) as (new' & Hlog' & Hin).
      rewrite Hlog' in Hlog. apply app_inv_head in Hlog. subst new'. now right.
Qed.

(** C5, on the code: the branch of the next class writes the student record
    of a sender who is registered, whenever the department it resolves is 'SE'.
    The record of the registered sender 27820000004 loses its other field; the
    record of the registered sender 27820000005, which holds the department
    only, is written again; and when the lookup of the record of the sender
    27820000002, registered in 'CS', fails, the record is replaced by the
    department 'SE'. *)
Theorem next_class_rewrites_registered_student :
  let ask E who :=
    snd (serve (whatsapp_webhook E (Sample.post (Sample.envelope who "next class")))
               Sample.start) in
  let record_of who w := Store.lookup (Store.segments ("students/" ++ who)) (db w) in
  (record_of "27820000004" Sample.start =
     VDict [("department", VStr "SE"); ("name", VStr "Ada")] /\
   record_of "27820000004" (ask Sample.calm "27820000004") =
     VDict [("department", VStr "SE")]) /\
  (record_of "27820000005" Sample.start = VDict [("department", VStr "SE")] /\
   log (ask Sample.calm "27820000005") =
     [Got "admins/27820000005"; Got "students/27820000005";
      Wrote "students/27820000005" (VDict [("department", VStr "SE")]);
      Got "classes/SE";
      Sent (VStr "27820000005")
           "Your next class is SE301 on 2025-01-20 at 14:00 with Prof Naidoo."]) /\
  (record_of "27820000002" Sample.start = VDict [("department", VStr "CS")] /\
   record_of "27820000002" (ask Sample.flaky "27820000002") =
     VDict [("department", VStr "SE")]).
Proof.
  cbv zeta. repeat split; vm_compute; reflexivity.
Qed.

(** ** Registration *)

Lemma register_student_run (E : env) (args : list (string * string)) (d : dict)
      (w : world) :
  register_student E (post_json args (VDict d)) w =
  let whatsapp := Dict.get_default "whatsapp" VNull d in
  let department := Dict.get_default "department" VNull d in
  if negb (truthy whatsapp) || negb (truthy department)
  then (Returned missing_fields, w)
  else (db_set E ("students/" ++ fmt E whatsapp) (VDict [("department", department)]) ;;
        do_return registered) w.
Proof.
  unfold register_student, get_json, post_json, method_get.
  cbn [is_json json negb]. cbv zeta. unfold bind, ret.
  destruct (negb (truthy (Dict.get_default "whatsapp" VNull d))
            || negb (truthy (Dict.get_default "department" VNull d))); reflexivity.
Qed.

(** C6, as amended: for a POST to the registration endpoint whose JSON body is
    an object, a field [whatsapp] or [department] that is missing or falsy
    (null, false, 0, an empty string, list or object) gives status 400 with
    the structured error and leaves the world as it was; two fields that are
    present and truthy give, when the write succeeds, one write of exactly
    [{department: <value>}] under [students/<whatsapp>] and status 200 with
    the confirmation. *)
Theorem register_student_checks_fields (E : env) (args : list (string * string))
        (d : dict) (w : world) :
  let whatsapp := Dict.get_default "whatsapp" VNull d in
  let department := Dict.get_default "department" VNull d in
  let out := serve (register_student E (post_json args (VDict d))) w in
  (Dict.mem "whatsapp" d = false \/ Dict.mem "department" d = false ->
   out = (missing_fields, w)) /\
  (truthy whatsapp = false \/ truthy department = false ->
   out = (missing_fields, w)) /\
  (truthy whatsapp = true -> truthy department = true ->
   fault E (clock w) = false ->
   let path := "students/" ++ fmt E whatsapp in
   fst out = registered /\
   log (snd out) = (log w ++ [Wrote path (VDict [("department", department)])])%list /\
   Store.lookup (Store.segments path) (db (snd out)) = VDict [("department", department)]).
Proof.
  cbv zeta.
  assert (Hfalsy : truthy (Dict.get_default "whatsapp" VNull d) = false \/
                   truthy (Dict.get_default "department" VNull d) = false ->
                   serve (register_student E (post_json args (VDict d))) w =
                   (missing_fields, w)).
  { intros H. apply serve_returned; [ | discriminate ]. rewrite register_student_run. cbv zeta.
    destruct H as [-> | ->]; cbn [negb orb]; [ reflexivity | ].
    now rewrite orb_true_r. }
  split; [ | split ].
  - intros H. apply Hfalsy. unfold Dict.mem, Dict.get_default in *.
    destruct H as [H | H]; [ left | right ];
      match goal with |- context [ Dict.get ?k d ] => destruct (Dict.get k d) end;
      (discriminate || reflexivity).
  - exact Hfalsy.
  - intros Hw Hd Hok.
    erewrite serve_returned;
      [ | rewrite register_student_run; cbv zeta; rewrite Hw, Hd; cbn [negb orb];
          unfold bind; rewrite db_set_run by assumption; reflexivity
        | discriminate ].
    cbn [fst snd db log]. repeat split. apply store_lookup_update.
Qed.

(** ** Course codes *)

Lemma dict_mem_keys (k : string) (d : dict) :
  Dict.mem k d = true <-> In k (Dict.keys d).
Proof.
  unfold Dict.mem. induction d as [ | [k' v] d IH ]; simpl.
  - split; [ discriminate | tauto ].
  - destruct (String.eqb_spec k' k) as [-> | Hne].
    + split; auto.
    + rewrite IH. split; auto. intros [H | H]; congruence.
Qed.

Lemma course_or_assistant_unknown (E : env) (from_number : value) (text : string)
      (items : dict) (w : world) :
  (forall n, fault E n = false) ->
  class_mapping (fmt E (resolved_department E from_number (db w))) (db w) = VDict items ->
  Dict.mem text items = false ->
  exists w',
    course_or_assistant E from_number text w = (Returned ok200, w') /\
    db w' = db w /\
    log w' =
      (log w ++ [Got ("students/" ++ fmt E from_number);
                 Got ("classes/" ++ fmt E (resolved_department E from_number (db w)));
                 Asked text;
                 Sent from_number
                      (match assistant E text with
                       | Some content => Str.strip content
                       | None => apology
                       end)])%list.
Proof.
  intros Hok Hmap Hmem. unfold course_or_assistant.
  unfold bind at 1. rewrite get_department_run, Hok.
  unfold bind at 1. rewrite db_get_run by apply Hok.
  cbn [db record tick]. cbv zeta.
  change (if truthy (Store.lookup
                       (Store.segments
                          ("classes/" ++ fmt E (resolved_department E from_number (db w))))
                       (db w))
          then Store.lookup
                 (Store.segments
                    ("classes/" ++ fmt E (resolved_department E from_number (db w))))
                 (db w)
          else VDict [])
    with (class_mapping (fmt E (resolved_department E from_number (db w))) (db w)).
  rewrite Hmap. cbn [contains]. rewrite Hmem.
  unfold bind, try_except, ret, chat_completion, external.
  cbn [clock]. rewrite !Hok.
  destruct (assistant E text) as [ content | ];
    rewrite send_run by apply Hok;
    (eexists; split; [ reflexivity | ];
     unfold tick, record; cbn [db log clock]; split; [ reflexivity | ];
     rewrite <- !app_assoc; reflexivity).
Qed.

(** C10, as amended: course codes are looked up as they are written.  A
    message that no keyword branch takes, whose text differs only in the case
    of its letters from a course code of the sender's department and is not a
    course code of that department itself, goes to the assistant: the text is
    asked, and what is sent is the assistant's answer (or the apology), not
    the details of a class.  (No external call fails.) *)
Theorem course_code_lookup_is_case_sensitive (E : env) (args : list (string * string))
        (data from_number : value) (raw : string) (items : dict) (w : world) :
  carries data from_number raw ->
  (forall n, fault E n = false) ->
  let text := Str.strip raw in
  let dept := resolved_department E from_number (db w) in
  Str.startswith "adminupdate" (lower E text)
    && is_True (admin_flag E from_number (db w)) = false ->
  Str.mem (lower E text) ["next class"; "when is my next class?"] = false ->
  (lower E text =? "my courses")%string = false ->
  class_mapping (fmt E dept) (db w) = VDict items ->
  (exists code,
      In code (Dict.keys items) /\ lower E code = lower E text /\ code <> text) ->
  ~ In text (Dict.keys items) ->
  let out := serve (whatsapp_webhook E (post_json args data)) w in
  fst out = ok200 /\
  db (snd out) = db w /\
  log (snd out) =
    (log w ++ [Got ("admins/" ++ fmt E from_number);
               Got ("students/" ++ fmt E from_number);
               Got ("classes/" ++ fmt E dept);
               Asked text;
               Sent from_number
                    (match assistant E text with
                     | Some content => Str.strip content
                     | None => apology
                     end)])%list.
Proof.
  intros Hcarries Hok text dept Hadmin Hphrase Hcourses Hmap _ Hnot out.
  assert (Hmem : Dict.mem text items = false).
  { destruct (Dict.mem text items) eqn:Hm; [ | reflexivity ].
    now apply dict_mem_keys in Hm. }
  assert (Hrun : exists w',
             whatsapp_webhook E (post_json args data) w = (Returned ok200, w') /\
             db w' = db w /\
             log w' =
               (log w ++ [Got ("admins/" ++ fmt E from_number);
                          Got ("students/" ++ fmt E from_number);
                          Got ("classes/" ++ fmt E dept);
                          Asked text;
                          Sent from_number
                               (match assistant E text with
                                | Some content => Str.strip content
                                | None => apology
                                end)])%list).
  { rewrite (webhook_on_message E args _ _ _ w Hcarries).
    rewrite dispatch_run by apply Hok.
    fold text. unfold route. rewrite Hadmin, Hphrase, Hcourses.
    destruct (course_or_assistant_unknown E from_number text items
                (record (Got ("admins/" ++ fmt E from_number)) w) Hok Hmap Hmem)
      as (w' & Hrun & Hdb & Hlog).
    exists w'. unfold bind, try_except. rewrite Hrun.
    split; [ reflexivity | ]. split; [ exact Hdb | ].
    rewrite Hlog. cbn [db log record tick]. rewrite <- !app_assoc. reflexivity. }
  destruct Hrun as (w' & Hrun & Hdb & Hlog).
  subst out. rewrite (serve_ok200 _ _ _ Hrun). cbn [fst snd].
  repeat split; assumption.
Qed.

(** ** The theorems at concrete inputs *)

Lemma envelope_carries (from_number raw : string) :
  carries (Sample.envelope from_number raw) (VStr from_number) raw.
Proof.
  unfold carries, envelope_value, Sample.envelope.
  do 4 eexists. split; [ do 5 eexists; repeat split; reflexivity | ].
  repeat split; reflexivity.
Qed.

Lemma get_next_class_earliest_witness :
  exists r w',
    get_next_class (R := response) Sample.calm "SE" Sample.start = (Normal r, w') /\
    db w' = db Sample.start /\
    r = VDict [("date", VStr "2025-01-20"); ("time", VStr "14:00");
               ("lecturer", VStr "Prof Naidoo"); ("course_code", VStr "SE301")].
Proof.
  destruct (get_next_class_earliest Sample.calm response "SE" se_classes Sample.start
              eq_refl eq_refl) as (r & w' & Hrun & Hdb & _ & Hsome).
  exists r, w'. split; [ exact Hrun | ]. split; [ exact Hdb | ].
  vm_compute in Hrun. injection Hrun as Hr Hw. now rewrite <- Hr.
Defined.

(** C1 as stated fails: the date "2025-1-16" has not the form YYYY-MM-DD, and
    its record is not skipped: it is returned, as the earliest, before the
    record of "2025-02-10". *)
Lemma get_next_class_takes_a_date_of_another_form :
  Date.is_YYYY_MM_DD "2025-02-10" = true /\
  Date.is_YYYY_MM_DD "2025-1-16" = false /\
  class_mapping "SE" (db unpadded) =
    VDict [("SE201", Sample.class_record "2025-02-10" "09:00" "Dr Smith");
           ("SE777", Sample.class_record "2025-1-16" "10:00" "Dr Who")] /\
  fst (get_next_class (R := response) Sample.calm "SE" unpadded) =
    Normal (VDict [("date", VStr "2025-1-16"); ("time", VStr "10:00");
                   ("lecturer", VStr "Dr Who"); ("course_code", VStr "SE777")]).
Proof. repeat split. Qed.

(** The day "2" and a fullwidth "0" is the 20th. *)
Example get_next_class_fullwidth_day :
  fst (get_next_class (R := response) wide "SE" fullwidth_day) =
    Normal (VDict [("date", VStr ("2025-01-2" ++ Str.bytes [239; 188; 144]%nat));
                   ("time", VStr "14:00"); ("lecturer", VStr "Prof Naidoo");
                   ("course_code", VStr "SE301")]).
Proof. reflexivity. Qed.

Lemma admin_update_replaces_record_witness :
  Store.lookup (Store.segments "classes/SE/CS101")
    (db (snd (serve (whatsapp_webhook Sample.calm
                       (post_json [] (Sample.envelope "27820000001"
                                        Sample.update_command)))
                    Sample.start)))
  = Sample.class_record "2025-03-01" "10:00" "Dr Smith" /\
  admin_flag Sample.calm (VStr "27820000003") (db Sample.start) = VNum 1 /\
  db (snd (serve (whatsapp_webhook Sample.calm
                    (post_json [] (Sample.envelope "27820000003"
                                     Sample.update_command)))
                 Sample.start))
  = db Sample.start.
Proof.
  split.
  - exact (proj2 (proj2 (proj2
             (proj1 (admin_update_replaces_record Sample.calm []
                       (Sample.envelope "27820000001" Sample.update_command)
                       (VStr "27820000001") Sample.update_command Sample.start
                       (envelope_carries _ _) eq_refl)
                "adminupdate" "SE" "CS101" "2025-03-01" "10:00" ["Dr"; "Smith"]
                eq_refl eq_refl eq_refl eq_refl eq_refl eq_refl)))).
  - split; [ reflexivity | ].
    refine (proj1 (proj2
             (proj2 (admin_update_replaces_record Sample.calm []
                       (Sample.envelope "27820000003" Sample.update_command)
                       (VStr "27820000003") Sample.update_command Sample.start
                       (envelope_carries _ _) eq_refl) _))).
    vm_compute. discriminate.
Defined.

Lemma webhook_json_post_always_ok_witness :
  serve (whatsapp_webhook Sample.stormy (post_json [] status_envelope)) Sample.start
  = (ok200, Sample.start).
Proof.
  apply (proj2 (webhook_json_post_always_ok Sample.stormy [] status_envelope Sample.start)
           [("messaging_product", VStr "whatsapp");
            ("statuses", VList [VDict [("status", VStr "delivered")]])]).
  - unfold envelope_value, status_envelope. do 5 eexists. repeat split; reflexivity.
  - reflexivity.
Defined.

(** C3 as stated fails: a POST whose body is valid JSON, sent without a JSON
    content type, gets status 415. *)
Lemma webhook_json_body_without_json_content_type :
  let req := Request POST [] false (Some (Sample.envelope "27820000002" "my courses")) in
  fst (serve (whatsapp_webhook Sample.calm req) Sample.start) =
    Response (VDict [("error", VStr "Content-Type must be application/json")]) 415 /\
  fst (serve (whatsapp_webhook Sample.calm req) Sample.start) <> ok200.
Proof. split; [ reflexivity | discriminate ]. Qed.

Lemma next_class_scans_default_department_witness :
  exists new,
    log (snd (serve (whatsapp_webhook Sample.calm
                       (post_json [] (Sample.envelope "27820000002"
                                        Sample.padded_phrase)))
                    Sample.start)) = (log Sample.start ++ new)%list /\
    (forall p, In (Got p) new -> Str.startswith "classes/" p = true -> p = "classes/SE") /\
    ((forall n, fault Sample.calm n = false) -> In (Got "classes/SE") new).
Proof.
  exact (next_class_scans_default_department Sample.calm []
           (Sample.envelope "27820000002" Sample.padded_phrase) (VStr "27820000002")
           Sample.padded_phrase Sample.start (envelope_carries _ _) eq_refl).
Defined.

Lemma register_student_checks_fields_witness :
  fst (serve (register_student Sample.calm
                (post_json [] (VDict [("whatsapp", VStr "27820000009");
                                      ("department", VStr "CS")])))
             Sample.start) = registered /\
  serve (register_student Sample.calm
           (post_json [] (VDict [("whatsapp", VStr "27820000009")])))
        Sample.start = (missing_fields, Sample.start).
Proof.
  split.
  - exact (proj1 (proj2 (proj2 (register_student_checks_fields Sample.calm []
                                  [("whatsapp", VStr "27820000009");
                                   ("department", VStr "CS")] Sample.start))
                   eq_refl eq_refl eq_refl)).
  - exact (proj1 (register_student_checks_fields Sample.calm []
                    [("whatsapp", VStr "27820000009")] Sample.start)
                 (or_intror eq_refl)).
Defined.

(** C6 as stated fails: both fields are present, the department is the empty
    string, and the answer is 400 with nothing written. *)
Lemma register_student_empty_department_rejected :
  let d := [("whatsapp", VStr "27820000009"); ("department", VStr "")] in
  Dict.mem "whatsapp" d = true /\
  Dict.mem "department" d = true /\
  serve (register_student Sample.calm (post_json [] (VDict d))) Sample.start
  = (missing_fields, Sample.start) /\
  status (fst (serve (register_student Sample.calm (post_json [] (VDict d))) Sample.start))
  <> 200.
Proof. repeat split; try reflexivity. discriminate. Qed.

Lemma admin_update_malformed_witness :
  let out := serve (whatsapp_webhook Sample.calm
                      (post_json [] (Sample.envelope "27820000001" "AdminUpdate SE CS101")))
                   Sample.start in
  fst out = ok200 /\
  db (snd out) = db Sample.start /\
  log (snd out) = [Got "admins/27820000001";
                   Sent (VStr "27820000001") "Error: Invalid adminupdate format."].
Proof.
  cbv zeta.
  destruct (admin_update_malformed Sample.calm []
              (Sample.envelope "27820000001" "AdminUpdate SE CS101")
              (VStr "27820000001") "AdminUpdate SE CS101" Sample.start
              (envelope_carries _ _) eq_refl
              (le_S 4 4 (le_n 4)) eq_refl eq_refl)
    as (Hresp & Hdb & _ & Hlog).
  split; [ exact Hresp | ]. split; [ exact Hdb | ]. exact (Hlog eq_refl).
Defined.

Lemma get_department_never_raises_witness :
  exists dept w',
    get_department (R := response) Sample.calm (VStr "27820000002") Sample.start
    = (Normal dept, w') /\
    dept = VStr "CS".
Proof.
  destruct (get_department_never_raises Sample.calm response (VStr "27820000002")
              Sample.start) as (dept & w' & Hrun & _ & _ & Hok).
  exists dept, w'. split; [ exact Hrun | ].
  exact (proj1 (Hok eq_refl) [("department", VStr "CS")] (VStr "CS") eq_refl eq_refl).
Defined.

Lemma course_code_lookup_is_case_sensitive_witness :
  log (snd (serve (whatsapp_webhook Sample.calm
                     (post_json [] (Sample.envelope "27820000002"
                                      (Sample.padded "cs101"))))
                  Sample.start))
  = [Got "admins/27820000002"; Got "students/27820000002"; Got "classes/CS";
     Asked "cs101"; Sent (VStr "27820000002") "Ask your tutor."].
Proof.
  refine (proj2 (proj2
            (course_code_lookup_is_case_sensitive Sample.calm []
               (Sample.envelope "27820000002" (Sample.padded "cs101"))
               (VStr "27820000002") (Sample.padded "cs101")
               [("CS101", Sample.class_record "2025-01-16" "10:00" "Dr Turing")]
               Sample.start (envelope_carries _ _) (fun _ => eq_refl)
               eq_refl eq_refl eq_refl eq_refl _ _))).
  - exists "CS101". split; [ now left | ]. split; [ reflexivity | discriminate ].
  - intros [H | []]. discriminate.
Defined.

(** C10 as stated fails: "cs101" differs only in case from the course code
    "CS101" of the sender's department and matches no keyword, yet it is a
    course code of that department itself; the details of the class "cs101"
    are sent and the assistant is not asked. *)
Lemma case_variant_that_is_a_course_code :
  let store :=
    VDict [("students", VDict [("27820000002", VDict [("department", VStr "CS")])]);
           ("classes", VDict [("CS", VDict [
              ("CS101", Sample.class_record "2025-01-16" "10:00" "Dr Turing");
              ("cs101", Sample.class_record "2025-01-17" "11:00" "Dr Hopper")])])] in
  let out := serve (whatsapp_webhook Sample.calm
                      (post_json [] (Sample.envelope "27820000002" "cs101")))
                   (World store [] 0) in
  lower Sample.calm "CS101" = lower Sample.calm "cs101" /\ "CS101" <> "cs101" /\
  log (snd out) =
    [Got "admins/27820000002"; Got "students/27820000002"; Got "classes/CS";
     Sent (VStr "27820000002")
          (course_reply Sample.calm "cs101" (VStr "2025-01-17") (VStr "11:00")
                        (VStr "Dr Hopper"))] /\
  ~ In (Asked "cs101") (log (snd out)).
Proof.
  cbv zeta. split; [ reflexivity | ]. split; [ discriminate | ].
  split; [ reflexivity | ].
  vm_compute. intros [H | [H | [H | [H | []]]]]; discriminate.
Qed.

(** * More of the code *)

(** ** Requests that never reach the routing *)

(** X1: a request that is stopped before its body is read never touches the
    outside.  A GET, whatever its content type and body, whose first
    [hub.mode] is "subscribe" and whose first [hub.verify_token] is the fixed
    token is answered with the first [hub.challenge] and status 200; when
    there is no [hub.challenge] the view returns [None] as the body, and the
    answer is the page of status 500.  Any other GET is answered with
    "Verification failed" and status 403.  A POST without a JSON content type
    is answered with status 415 and the error body, whatever its body is. *)
Theorem requests_stopped_before_the_body (E : env) (query : list (string * string))
        (content_json : bool) (payload : option value) (w : world) :
  serve (whatsapp_webhook E (Request GET query content_json payload)) w =
    (if handshake_ok query
     then match query_get "hub.challenge" query with
          | Some c => Response (VStr c) 200
          | None => Response VNull 500
          end
     else Response (VStr "Verification failed") 403,
     w) /\
  serve (whatsapp_webhook E (Request POST query false payload)) w =
    (Response (VDict [("error", VStr "Content-Type must be application/json")]) 415, w).
Proof.
  split; [ | reflexivity ].
  unfold serve, whatsapp_webhook, whatsapp_webhook_then. cbn [method].
  unfold bind at 1. unfold verification, handshake_ok, query_get. cbv zeta.
  cbn [args].
  match goal with |- context [ if ?c then do_return _ else _ ] => destruct c end;
    [ | reflexivity ].
  destruct (option_map snd
              (find (fun kv : string * string => (fst kv =? "hub.challenge")%string)
                    query));
    reflexivity.
Qed.

(** X2: a first message without a sender, without a field [text] that is a
    mapping, or whose [body] is not a string (an image, a location) is dropped:
    status 200, and nothing outside is touched, not even the admin lookup. *)
Theorem non_text_message_is_dropped (E : env) (query : list (string * string))
        (data : value) (m : dict) (w : world) :
  first_message data m ->
  text_body m = None ->
  serve (whatsapp_webhook E (post_json query data)) w = (ok200, w).
Proof.
  intros (v & messages & (d & e & entries & c & changes & -> & He & Hc & Hv) & Hm) Hno.
  apply serve_returned; [ | discriminate ]. unfold whatsapp_webhook. rewrite webhook_post_json.
  unfold bind at 1, try_except, deliver_then.
  rewrite (@getitem_dict _ _ _ _ He), bind_ret_l, getitem0_cons, bind_ret_l.
  rewrite (@getitem_dict _ _ _ _ Hc), bind_ret_l, getitem0_cons, bind_ret_l.
  rewrite (@getitem_dict _ _ _ _ Hv), bind_ret_l.
  unfold method_get. rewrite bind_ret_l, (@get_default_some _ _ VNull _ Hm).
  cbn [truthy]. rewrite getitem0_cons, bind_ret_l.
  unfold on_message_then, text_body in *.
  unfold getitem at 1.
  destruct (Dict.get "from" m) as [ from_number | ]; [ | reflexivity ].
  rewrite bind_ret_l. unfold getitem at 1.
  destruct (Dict.get "text" m) as [ [ | b | n | s | l | t ] | ]; try reflexivity.
  rewrite bind_ret_l. unfold getitem at 1.
  destruct (Dict.get "body" t) as [ [ | b | n | s | l | t' ] | ];
    try reflexivity.
  discriminate.
Qed.

Lemma non_text_message_is_dropped_witness :
  serve (whatsapp_webhook Sample.calm
           (post_json []
              (VDict [("entry", VList [VDict [("changes", VList [VDict [("value",
                 VDict [("messages", VList [VDict [
                    ("from", VStr "27820000002"); ("type", VStr "image");
                    ("image", VDict [("id", VStr "1")])]])])]])]])])))
        Sample.start
  = (ok200, Sample.start).
Proof.
  apply (non_text_message_is_dropped Sample.calm [] _
           [("from", VStr "27820000002"); ("type", VStr "image");
            ("image", VDict [("id", VStr "1")])]).
  - do 2 eexists. split; [ do 5 eexists; repeat split; reflexivity | reflexivity ].
  - reflexivity.
Defined.

(** ** [get_next_class] when the lookup gives no mapping *)

(** X3: [get_next_class] never raises and never changes the database.  When
    the lookup fails, and when what it gives is truthy and not a mapping (a
    list, a string, a number), the result is [None]. *)
Theorem get_next_class_absorbs_failures (E : env) (R : Type) (department : string)
        (w : world) :
  exists r w',
    get_next_class (R := R) E department w = (Normal r, w') /\
    db w' = db w /\
    (fault E (clock w) = true -> r = VNull) /\
    (fault E (clock w) = false ->
     (forall items, class_mapping department (db w) <> VDict items) -> r = VNull).
Proof.
  destruct (fault E (clock w)) eqn:Hf.
  - exists VNull, (tick w). split; [ | repeat split; auto; discriminate ].
    unfold get_next_class, call, get_next_class_body, bind, try_except, db_get, external.
    now rewrite Hf.
  - destruct (class_mapping department (db w)) as [ | b | n | s | l | items ] eqn:Hmap;
      try (exists VNull, (record (Got ("classes/" ++ department)) w);
           split; [ | repeat split; auto; discriminate ];
           unfold get_next_class, call, get_next_class_body, bind, try_except,
             db_get, external;
           rewrite Hf; cbv zeta; unfold class_mapping in Hmap; cbv zeta in Hmap;
           rewrite Hmap; reflexivity).
    destruct (get_next_class_run E R department items w Hf Hmap) as (r & Hr & _).
    exists r, (record (Got ("classes/" ++ department)) w).
    split; [ exact Hr | ]. split; [ reflexivity | ]. split; [ discriminate | ].
    intros _ Hno. now destruct (Hno items).
Qed.

Lemma get_next_class_absorbs_failures_witness :
  exists r w',
    get_next_class (R := response) Sample.stormy "SE" Sample.start = (Normal r, w') /\
    r = VNull.
Proof.
  destruct (get_next_class_absorbs_failures Sample.stormy response "SE" Sample.start)
    as (r & w' & Hrun & _ & Hfail & _).
  exists r, w'. split; [ exact Hrun | exact (Hfail eq_refl) ].
Defined.

(** ** The branch of the next class: registration and reply *)

Lemma next_class_query_parts (E : env) (from_number : value) (w : world) :
  next_class_query E from_number w =
  (dept <- get_department E from_number ;;
   (if is_SE dept
    then db_set E ("students/" ++ fmt E from_number) default_registration
    else ret tt) ;;
   next_class_reply E from_number) w.
Proof. reflexivity. Qed.

Lemma wrapped_cong (m m' : M response unit) (r : response) (w w' : world) :
  m w = m' w' ->
  (try_except m (fun _ => ret tt) ;; do_return (A := unit) r) w =
  (try_except m' (fun _ => ret tt) ;; do_return (A := unit) r) w'.
Proof. intros H. unfold bind, try_except. now rewrite H. Qed.

Lemma next_class_webhook_run (E : env) (query : list (string * string))
      (data from_number : value) (raw : string) (w : world) :
  carries data from_number raw ->
  Str.mem (lower E (Str.strip raw)) ["next class"; "when is my next class?"] = true ->
  (forall n, fault E n = false) ->
  whatsapp_webhook E (post_json query data) w =
  (try_except (next_class_reply E from_number) (fun _ => ret tt) ;;
   do_return ok200) (after_registration E from_number w).
Proof.
  intros Hcarries Hphrase Hok.
  rewrite (webhook_on_message E query _ _ _ w Hcarries).
  rewrite dispatch_run by apply Hok.
  unfold route. rewrite (phrase_is_no_adminupdate _ Hphrase), Hphrase. cbn [andb].
  apply wrapped_cong.
  rewrite next_class_query_parts. unfold bind at 1.
  rewrite get_department_run, Hok. unfold bind at 1.
  unfold after_registration. cbv zeta. cbn [db record tick].
  destruct (is_SE (resolved_department E from_number (db w))).
  - rewrite db_set_run by apply Hok. reflexivity.
  - reflexivity.
Qed.

Lemma after_registration_world (E : env) (from_number : value) (w : world) :
  let path := "students/" ++ fmt E from_number in
  log (after_registration E from_number w) =
    (log w ++
     Got ("admins/" ++ fmt E from_number) :: Got path ::
     (if is_SE (resolved_department E from_number (db w))
      then [Wrote path default_registration] else []))%list /\
  db (after_registration E from_number w) =
    (if is_SE (resolved_department E from_number (db w))
     then Store.update (Store.segments path) default_registration (db w)
     else db w).
Proof.
  unfold after_registration. cbv zeta.
  destruct (is_SE (resolved_department E from_number (db w)));
    cbn [db log record tick]; rewrite <- !app_assoc; split; reflexivity.
Qed.

Lemma keeps_next_class_reply (allowed : effect -> Prop) (E : env)
      (Q : response -> Prop) (from_number : value) :
  allowed (Got "classes/SE") ->
  (forall message, allowed (Sent from_number message)) ->
  Q ok200 ->
  keeps allowed Q (next_class_reply E from_number).
Proof.
  intros Hget Hsend HQ. unfold next_class_reply.
  apply keeps_bind; [ | intros next_class ].
  - unfold get_next_class. apply keeps_call with (Q' := fun _ => True).
    unfold get_next_class_body.
    apply keeps_bind; [ | intros; now apply keeps_return ].
    apply keeps_try; [ | intros; apply keeps_ret ].
    apply keeps_bind; [ now apply keeps_db_get | intros got ].
    cbv zeta.
    apply keeps_bind; [ apply keeps_method_items | intros items ].
    apply keeps_bind; [ | intros; now apply keeps_return ].
    revert items. intros items. generalize VNull.
    induction items as [ | [code details] rest IH ]; intros acc; simpl.
    + apply keeps_ret.
    + apply keeps_bind; [ | intros; apply IH ].
      unfold scan_step. keeps_auto.
  - apply keeps_bind; [ | intros; now apply keeps_return ].
    destruct (truthy next_class); [ | now apply keeps_send ].
    do 4 (apply keeps_bind; [ apply keeps_getitem | intros ? ]).
    now apply keeps_send.
Qed.

(** X4: what the branch of the next class does to the student record, when
    no external call fails.  If the department resolved for the sender is 'SE'
    (the sender has no record, or a record without department, or is
    registered in 'SE'), the record is replaced by exactly
    [{department: 'SE'}]; for any other department nothing is written and the
    database is as it was. *)
Theorem next_class_registers_when_SE (E : env) (query : list (string * string))
        (data from_number : value) (raw : string) (w : world) :
  carries data from_number raw ->
  Str.mem (lower E (Str.strip raw)) ["next class"; "when is my next class?"] = true ->
  (forall n, fault E n = false) ->
  let out := snd (serve (whatsapp_webhook E (post_json query data)) w) in
  let path := "students/" ++ fmt E from_number in
  exists new,
    log out = (log w ++ new)%list /\
    (is_SE (resolved_department E from_number (db w)) = true ->
     In (Wrote path default_registration) new /\
     db out = Store.update (Store.segments path) default_registration (db w) /\
     Store.lookup (Store.segments path) (db out) = default_registration) /\
    (is_SE (resolved_department E from_number (db w)) = false ->
     (forall p v, ~ In (Wrote p v) new) /\ db out = db w).
Proof.
  intros Hcarries Hphrase Hok out path. subst out.
  rewrite serve_world, (next_class_webhook_run E query _ _ _ w Hcarries Hphrase Hok).
  rewrite wrapped_world.
  destruct (keeps_next_class_reply reads_only E (fun _ => True) from_number
              I (fun _ => I) I (after_registration E from_number w))
    as [(new & Hlog & Hall & Hdb) _].
  rewrite (replay_no_write new _ (reads_only_no_write new Hall)) in Hdb.
  destruct (after_registration_world E from_number w) as [Hlog2 Hdb2].
  fold path in Hlog2, Hdb2. rewrite Hlog2 in Hlog. rewrite Hdb2 in Hdb.
  destruct (is_SE (resolved_department E from_number (db w))).
  - exists ([Got ("admins/" ++ fmt E from_number); Got path;
             Wrote path default_registration] ++ new)%list.
    split; [ rewrite Hlog, <- !app_assoc; reflexivity | ].
    split; [ | discriminate ]. intros _.
    split; [ apply in_or_app; left; right; right; now left | ].
    split; [ exact Hdb | ]. rewrite Hdb. apply store_lookup_update.
  - exists ([Got ("admins/" ++ fmt E from_number); Got path] ++ new)%list.
    split; [ rewrite Hlog, <- !app_assoc; reflexivity | ].
    split; [ discriminate | ]. intros _. split; [ | exact Hdb ].
    intros p v Hin. apply in_app_or in Hin.
    destruct Hin as [[Habs | [Habs | []]] | Hin]; try discriminate.
    now apply (reads_only_no_write new Hall p v).
Qed.

Lemma next_class_registers_when_SE_witness :
  let out who :=
    snd (serve (whatsapp_webhook Sample.calm
                  (post_json [] (Sample.envelope who "next class"))) Sample.start) in
  Store.lookup (Store.segments "students/27820000009") (db (out "27820000009"))
  = default_registration /\
  db (out "27820000002") = db Sample.start.
Proof.
  cbv zeta. split.
  - destruct (next_class_registers_when_SE Sample.calm []
                (Sample.envelope "27820000009" "next class") (VStr "27820000009")
                "next class" Sample.start (envelope_carries _ _) eq_refl
                (fun _ => eq_refl)) as (new & _ & Hse & _).
    exact (proj2 (proj2 (Hse eq_refl))).
  - destruct (next_class_registers_when_SE Sample.calm []
                (Sample.envelope "27820000002" "next class") (VStr "27820000002")
                "next class" Sample.start (envelope_carries _ _) eq_refl
                (fun _ => eq_refl)) as (new & _ & _ & Hother).
    exact (proj2 (Hother eq_refl)).
Defined.

Lemma segments_students (x : string) :
  Store.segments ("students/" ++ x) = "students" :: Store.segments x.
Proof. reflexivity. Qed.

Lemma segments_classes (x : string) :
  Store.segments ("classes/" ++ x) = "classes" :: Store.segments x.
Proof. reflexivity. Qed.

Lemma class_mapping_after_student_write (department x : string) (v store : value) :
  class_mapping department (Store.update (Store.segments ("students/" ++ x)) v store)
  = class_mapping department store.
Proof.
  unfold class_mapping. rewrite segments_students, segments_classes.
  cbn [Store.update Store.lookup Store.child]. unfold Dict.get_default.
  rewrite dict_get_set_other by discriminate.
  destruct store; reflexivity.
Qed.

Lemma first_earliest_unique (E : env) (items : dict) (i i' : nat)
      (code code' : string) (rec rec' : dict) (d d' : Date.date) :
  first_earliest E items i code rec d ->
  first_earliest E items i' code' rec' d' ->
  code' = code /\ rec' = rec.
Proof.
  intros (Hi & Hup & Hmin) (Hi' & Hup' & Hmin').
  destruct (Hmin i' (code', VDict rec') d' Hi' Hup') as [Hge Hlt].
  destruct (Hmin' i (code, VDict rec) d Hi Hup) as [Hge' Hlt'].
  assert (i' = i) as ->.
  { destruct (Nat.lt_trichotomy i' i) as [H | [H | H]]; auto.
    - rewrite (Hlt H) in Hge'. discriminate.
    - rewrite (Hlt' H) in Hge. discriminate. }
  rewrite Hi in Hi'. injection Hi' as -> ->. now split.
Qed.

Lemma next_class_reply_none (E : env) (from_number : value) (items : dict) (w : world) :
  fault E (clock w) = false ->
  fault E (S (clock w)) = false ->
  fault E (S (S (clock w))) = false ->
  class_mapping "SE" (db w) = VDict items ->
  (forall kv d, In kv items -> ~ upcoming E (snd kv) d) ->
  next_class_reply E from_number w =
  (Returned ok200,
   tick (record (Sent from_number "No upcoming classes found.")
                (record (Got "classes/SE") w))).
Proof.
  intros H0 H1 H2 Hmap Hnone. unfold next_class_reply. unfold bind at 1.
  destruct (get_next_class_run E response "SE" items w H0 Hmap) as (r & -> & Hr).
  destruct Hr as [[-> _] | (i & code & rec & d & (Hi & Hup & _) & _)].
  - cbn [truthy]. unfold bind. rewrite send_run by assumption. reflexivity.
  - apply nth_error_In in Hi. now destruct (Hnone _ d Hi).
Qed.

Lemma next_class_reply_some (E : env) (from_number : value) (items : dict)
      (i : nat) (code s : string) (rec : dict) (d : Date.date) (w : world) :
  fault E (clock w) = false ->
  fault E (S (clock w)) = false ->
  fault E (S (S (clock w))) = false ->
  class_mapping "SE" (db w) = VDict items ->
  first_earliest E items i code rec d ->
  Dict.get "date" rec = Some (VStr s) ->
  next_class_reply E from_number w =
  match Dict.get "time" rec, Dict.get "lecturer" rec with
  | Some time, Some lecturer =>
      (Returned ok200,
       tick (record (Sent from_number
                       ("Your next class is " ++ code ++ " on " ++ s ++ " at "
                        ++ fmt E time ++ " with " ++ fmt E lecturer ++ "."))
                    (record (Got "classes/SE") w)))
  | _, _ => (Raised KeyError, record (Got "classes/SE") w)
  end.
Proof.
  intros H0 H1 H2 Hmap Hfirst Hdate. unfold next_class_reply. unfold bind at 1.
  destruct (get_next_class_run E response "SE" items w H0 Hmap) as (r & -> & Hr).
  destruct Hr as [[_ Hnone] | (i' & code' & rec' & d' & Hfirst' & ->)].
  - destruct Hfirst as (Hi & Hup & _). apply nth_error_In in Hi.
    now destruct (Hnone _ d Hi).
  - destruct (first_earliest_unique E items i i' code code' rec rec' d d' Hfirst Hfirst')
      as [-> ->].
    rewrite dict_set_truthy. unfold bind at 1. unfold bind at 1.
    unfold getitem at 1. rewrite dict_get_set_same. unfold ret at 1. cbv beta iota.
    unfold bind at 1.
    unfold getitem at 1. rewrite dict_get_set_other by discriminate. rewrite Hdate.
    unfold ret at 1. cbv beta iota. unfold bind at 1.
    unfold getitem at 1. rewrite dict_get_set_other by discriminate.
    destruct (Dict.get "time" rec) as [ time | ]; [ | reflexivity ].
    unfold ret at 1. cbv beta iota. unfold bind at 1.
    unfold getitem at 1. rewrite dict_get_set_other by discriminate.
    destruct (Dict.get "lecturer" rec) as [ lecturer | ];
      [ | destruct (Dict.get "time" rec); reflexivity ].
    unfold ret at 1. cbv beta iota.
    rewrite send_run by assumption. reflexivity.
Qed.

Lemma class_mapping_after_registration (E : env) (from_number : value) (w : world) :
  class_mapping "SE" (db (after_registration E from_number w)) = class_mapping "SE" (db w).
Proof.
  destruct (after_registration_world E from_number w) as [_ ->].
  destruct (is_SE (resolved_department E from_number (db w))); [ | reflexivity ].
  apply class_mapping_after_student_write.
Qed.

(** X5: when the class mapping of 'SE' has no record with a date that
    [strptime] accepts and that is today or later (an empty mapping, only
    past dates or dates that [strptime] rejects),
    the sender is told "No upcoming classes found." and the status is 200 (no
    external call failing). *)
Theorem next_class_none_upcoming (E : env) (query : list (string * string))
        (data from_number : value) (raw : string) (items : dict) (w : world) :
  carries data from_number raw ->
  Str.mem (lower E (Str.strip raw)) ["next class"; "when is my next class?"] = true ->
  (forall n, fault E n = false) ->
  class_mapping "SE" (db w) = VDict items ->
  (forall kv d, In kv items -> ~ upcoming E (snd kv) d) ->
  let out := serve (whatsapp_webhook E (post_json query data)) w in
  fst out = ok200 /\
  log (snd out) =
    (log (after_registration E from_number w)
     ++ [Got "classes/SE"; Sent from_number "No upcoming classes found."])%list.
Proof.
  intros Hcarries Hphrase Hok Hmap Hnone out. subst out.
  assert (Hmap' : class_mapping "SE" (db (after_registration E from_number w))
                  = VDict items)
    by (now rewrite class_mapping_after_registration).
  erewrite serve_returned;
    [ | rewrite (next_class_webhook_run E query _ _ _ w Hcarries Hphrase Hok);
        unfold bind, try_except;
        rewrite (next_class_reply_none E from_number items _
                   (Hok _) (Hok _) (Hok _) Hmap' Hnone);
        reflexivity
      | discriminate ].
  cbn [fst snd log record tick]. split; [ reflexivity | ].
  now rewrite <- app_assoc.
Qed.

Lemma next_class_none_upcoming_witness :
  log (snd (serve (whatsapp_webhook Sample.calm
                     (post_json [] (Sample.envelope "27820000002" "Next Class")))
                  past_only))
  = [Got "admins/27820000002"; Got "students/27820000002";
     Wrote "students/27820000002" default_registration;
     Got "classes/SE"; Sent (VStr "27820000002") "No upcoming classes found."].
Proof.
  refine (proj2 (next_class_none_upcoming Sample.calm []
                   (Sample.envelope "27820000002" "Next Class") (VStr "27820000002")
                   "Next Class"
                   [("SE101", Sample.class_record "2024-11-05" "08:00" "Dr Jones");
                    ("SE998", Sample.class_record "20 Jan" "10:00" "Dr Who")]
                   past_only (envelope_carries _ _) eq_refl (fun _ => eq_refl) eq_refl _)).
  intros kv d [<- | [<- | []]] [Hd Hge]; vm_compute in Hd;
    [ injection Hd as <-; discriminate | discriminate ].
Defined.

(** X6: when the class mapping of 'SE' has an upcoming record, the reply names
    the key of the first record with the earliest such date, its date as it is
    stored, and its fields [time] and [lecturer].  When that record has no
    field [time] or no field [lecturer], nothing is sent to the sender; the
    status is 200 all the same.  (No external call fails.) *)
Theorem next_class_reply_fields (E : env) (query : list (string * string))
        (data from_number : value) (raw : string) (items : dict)
        (i : nat) (code s : string) (rec : dict) (d : Date.date) (w : world) :
  carries data from_number raw ->
  Str.mem (lower E (Str.strip raw)) ["next class"; "when is my next class?"] = true ->
  (forall n, fault E n = false) ->
  class_mapping "SE" (db w) = VDict items ->
  first_earliest E items i code rec d ->
  Dict.get "date" rec = Some (VStr s) ->
  let out := serve (whatsapp_webhook E (post_json query data)) w in
  fst out = ok200 /\
  (forall time lecturer,
      Dict.get "time" rec = Some time ->
      Dict.get "lecturer" rec = Some lecturer ->
      log (snd out) =
        (log (after_registration E from_number w)
         ++ [Got "classes/SE";
             Sent from_number
                  ("Your next class is " ++ code ++ " on " ++ s ++ " at "
                   ++ fmt E time ++ " with " ++ fmt E lecturer ++ ".")])%list) /\
  (Dict.get "time" rec = None \/ Dict.get "lecturer" rec = None ->
   log (snd out) = (log (after_registration E from_number w) ++ [Got "classes/SE"])%list).
Proof.
  intros Hcarries Hphrase Hok Hmap Hfirst Hdate out. subst out.
  assert (Hmap' : class_mapping "SE" (db (after_registration E from_number w))
                  = VDict items)
    by (now rewrite class_mapping_after_registration).
  pose proof (next_class_reply_some E from_number items i code s rec d _
                (Hok _) (Hok _) (Hok _) Hmap' Hfirst Hdate) as Hreply.
  pose proof (next_class_webhook_run E query _ _ _ w Hcarries Hphrase Hok) as Hrun.
  unfold bind, try_except in Hrun. rewrite Hreply in Hrun.
  destruct (Dict.get "time" rec) as [ time | ];
    [ destruct (Dict.get "lecturer" rec) as [ lecturer | ] | ];
    rewrite (serve_ok200 _ _ _ Hrun); cbn [fst snd log record tick];
    (split; [ reflexivity | ]); split.
  - intros t l [= <-] [= <-]. now rewrite <- app_assoc.
  - intros [H | H]; discriminate.
  - intros t l _ H. discriminate.
  - intros _. reflexivity.
  - intros t l H. discriminate.
  - intros _. reflexivity.
Qed.

Lemma next_class_reply_fields_witness :
  log (snd (serve (whatsapp_webhook Sample.calm
                     (post_json [] (Sample.envelope "27820000002" "next class")))
                  no_time))
  = [Got "admins/27820000002"; Got "students/27820000002";
     Wrote "students/27820000002" default_registration; Got "classes/SE"].
Proof.
  refine (proj2 (proj2
            (next_class_reply_fields Sample.calm []
               (Sample.envelope "27820000002" "next class") (VStr "27820000002")
               "next class"
               [("SE301", VDict [("date", VStr "2025-01-20");
                                 ("lecturer", VStr "Prof Naidoo")])]
               0 "SE301" "2025-01-20"
               [("date", VStr "2025-01-20"); ("lecturer", VStr "Prof Naidoo")]
               (Date.mk 2025 1 20) no_time (envelope_carries _ _) eq_refl
               (fun _ => eq_refl) eq_refl _ eq_refl)) (or_introl eq_refl)).
  split; [ reflexivity | ]. split; [ split; reflexivity | ].
  intros [ | j ] kv d' Hj [Hd _].
  - injection Hj as <-. vm_compute in Hd. injection Hd as <-.
    split; [ reflexivity | lia ].
  - destruct j; discriminate.
Defined.

(** ** The list of courses and the details of a course *)

Lemma my_courses_run (E : env) (from_number : value) (items : dict) (w : world) :
  (forall n, fault E n = false) ->
  class_mapping (fmt E (resolved_department E from_number (db w))) (db w) = VDict items ->
  my_courses E from_number w =
  (Returned ok200,
   tick (record (Sent from_number
                   (match items with
                    | [] => "No courses found for your department."
                    | _ => "Your courses: " ++ Str.join ", " (Dict.keys items) ++ nl
                           ++ "Reply with a course code to get details."
                    end))
           (record (Got ("classes/" ++ fmt E (resolved_department E from_number (db w))))
              (record (Got ("students/" ++ fmt E from_number)) w)))).
Proof.
  intros Hok Hmap. unfold my_courses.
  unfold bind at 1. rewrite get_department_run, Hok.
  unfold bind at 1. rewrite db_get_run by apply Hok.
  cbn [db record tick]. cbv zeta.
  change (if truthy (Store.lookup
                       (Store.segments
                          ("classes/" ++ fmt E (resolved_department E from_number (db w))))
                       (db w))
          then Store.lookup
                 (Store.segments
                    ("classes/" ++ fmt E (resolved_department E from_number (db w))))
                 (db w)
          else VDict [])
    with (class_mapping (fmt E (resolved_department E from_number (db w))) (db w)).
  rewrite Hmap. destruct items as [ | kv items ]; cbn [truthy method_keys];
    unfold bind, ret; rewrite send_run by apply Hok; reflexivity.
Qed.

(** X7: the text "my courses" (in any case, with white space around) is
    answered with the keys of the class mapping of the sender's resolved
    department, in the order of the mapping and joined by ", ", or with "No
    courses found for your department." when the mapping is empty or absent.
    Nothing is written.  (No external call fails.) *)
Theorem my_courses_lists_the_department (E : env) (query : list (string * string))
        (data from_number : value) (raw : string) (items : dict) (w : world) :
  carries data from_number raw ->
  lower E (Str.strip raw) = "my courses" ->
  (forall n, fault E n = false) ->
  let dept := resolved_department E from_number (db w) in
  class_mapping (fmt E dept) (db w) = VDict items ->
  let out := serve (whatsapp_webhook E (post_json query data)) w in
  fst out = ok200 /\
  db (snd out) = db w /\
  log (snd out) =
    (log w ++ [Got ("admins/" ++ fmt E from_number);
               Got ("students/" ++ fmt E from_number);
               Got ("classes/" ++ fmt E dept);
               Sent from_number
                    (match items with
                     | [] => "No courses found for your department."
                     | _ => "Your courses: " ++ Str.join ", " (Dict.keys items) ++ nl
                            ++ "Reply with a course code to get details."
                     end)])%list.
Proof.
  intros Hcarries Htext Hok dept Hmap out. subst out dept.
  erewrite serve_returned;
    [ | rewrite (webhook_on_message E query _ _ _ w Hcarries);
        rewrite dispatch_run by apply Hok;
        unfold route; rewrite Htext;
        change (Str.startswith "adminupdate" "my courses") with false;
        change (Str.mem "my courses" ["next class"; "when is my next class?"]) with false;
        change ("my courses" =? "my courses")%string with true;
        cbn [andb]; unfold bind, try_except;
        rewrite (my_courses_run E from_number items
                   (record (Got ("admins/" ++ fmt E from_number)) w) Hok Hmap);
        reflexivity
      | discriminate ].
  cbn [fst snd db log record tick]. repeat split. now rewrite <- !app_assoc.
Qed.

Lemma my_courses_lists_the_department_witness :
  log (snd (serve (whatsapp_webhook Sample.calm
                     (post_json [] (Sample.envelope "27820000005"
                                      (Sample.padded " My Courses"))))
                  Sample.start))
  = [Got "admins/27820000005"; Got "students/27820000005"; Got "classes/SE";
     Sent (VStr "27820000005")
          ("Your courses: SE201, SE101, SE301, SE302, SE999, SE998" ++ nl
           ++ "Reply with a course code to get details.")].
Proof.
  exact (proj2 (proj2
           (my_courses_lists_the_department Sample.calm []
              (Sample.envelope "27820000005" (Sample.padded " My Courses"))
              (VStr "27820000005") (Sample.padded " My Courses") se_classes Sample.start (envelope_carries _ _) eq_refl
              (fun _ => eq_refl) eq_refl))).
Defined.

Lemma course_or_assistant_known (E : env) (from_number : value) (text : string)
      (items : dict) (details : value) (w : world) :
  (forall n, fault E n = false) ->
  class_mapping (fmt E (resolved_department E from_number (db w))) (db w) = VDict items ->
  Dict.get text items = Some details ->
  course_or_assistant E from_number text w =
  let w2 := record (Got ("classes/" ++ fmt E (resolved_department E from_number (db w))))
              (record (Got ("students/" ++ fmt E from_number)) w) in
  match details with
  | VDict rec =>
      (Returned ok200,
       tick (record (Sent from_number
                       (course_reply E text
                          (Dict.get_default "date" (VStr "N/A") rec)
                          (Dict.get_default "time" (VStr "N/A") rec)
                          (Dict.get_default "lecturer" (VStr "N/A") rec))) w2))
  | _ => (Raised AttributeError, w2)
  end.
Proof.
  intros Hok Hmap Hget. unfold course_or_assistant.
  unfold bind at 1. rewrite get_department_run, Hok.
  unfold bind at 1. rewrite db_get_run by apply Hok.
  cbn [db record tick]. cbv zeta.
  change (if truthy (Store.lookup
                       (Store.segments
                          ("classes/" ++ fmt E (resolved_department E from_number (db w))))
                       (db w))
          then Store.lookup
                 (Store.segments
                    ("classes/" ++ fmt E (resolved_department E from_number (db w))))
                 (db w)
          else VDict [])
    with (class_mapping (fmt E (resolved_department E from_number (db w))) (db w)).
  rewrite Hmap. cbn [contains]. unfold Dict.mem. rewrite Hget.
  unfold bind at 1. unfold ret at 1. cbv beta iota.
  unfold bind at 1. unfold bind at 1. unfold getitem. rewrite Hget.
  unfold ret at 1. cbv beta iota.
  destruct details as [ | b | n | s | l | rec ]; try reflexivity.
  cbn [method_get]. unfold bind, ret. cbn [clock record tick].
  rewrite send_run by apply Hok. reflexivity.
Qed.

(** X8: a text that no keyword branch takes and that is, as it is written, a
    key of the class mapping of the sender's resolved department is answered
    with the date, the time and the lecturer of that record, "N/A" standing
    for a field the record does not have; the assistant is not asked and
    nothing is written.  When the value under the key is not a mapping,
    nothing is sent.  The status is 200 in both cases.  (No external call
    fails.) *)
Theorem course_details_reply (E : env) (query : list (string * string))
        (data from_number : value) (raw : string) (items : dict) (details : value)
        (w : world) :
  carries data from_number raw ->
  (forall n, fault E n = false) ->
  let text := Str.strip raw in
  let dept := resolved_department E from_number (db w) in
  Str.startswith "adminupdate" (lower E text)
    && is_True (admin_flag E from_number (db w)) = false ->
  Str.mem (lower E text) ["next class"; "when is my next class?"] = false ->
  (lower E text =? "my courses")%string = false ->
  class_mapping (fmt E dept) (db w) = VDict items ->
  Dict.get text items = Some details ->
  let out := serve (whatsapp_webhook E (post_json query data)) w in
  let lookups := [Got ("admins/" ++ fmt E from_number);
                  Got ("students/" ++ fmt E from_number);
                  Got ("classes/" ++ fmt E dept)] in
  fst out = ok200 /\
  db (snd out) = db w /\
  log (snd out) =
    (log w ++ lookups ++
     match details with
     | VDict rec =>
         [Sent from_number
               (course_reply E text
                  (Dict.get_default "date" (VStr "N/A") rec)
                  (Dict.get_default "time" (VStr "N/A") rec)
                  (Dict.get_default "lecturer" (VStr "N/A") rec))]
     | _ => []
     end)%list.
Proof.
  intros Hcarries Hok text dept Hadmin Hphrase Hcourses Hmap Hget out lookups.
  subst out lookups.
  pose proof (course_or_assistant_known E from_number text items details
                (record (Got ("admins/" ++ fmt E from_number)) w) Hok Hmap Hget)
    as Hrun.
  cbv zeta in Hrun. cbn [db record tick] in Hrun. fold dept in Hrun.
  destruct details;
    (erewrite serve_returned;
     [ | rewrite (webhook_on_message E query _ _ _ w Hcarries);
         rewrite dispatch_run by apply Hok;
         fold text; unfold route; rewrite Hadmin, Hphrase, Hcourses;
         unfold bind, try_except; rewrite Hrun; reflexivity
       | discriminate ]);
    cbn [fst snd db log record tick];
    (split; [ reflexivity | ]); (split; [ reflexivity | ]);
    rewrite <- ?app_assoc; reflexivity.
Qed.

Lemma course_details_reply_witness :
  log (snd (serve (whatsapp_webhook Sample.calm
                     (post_json [] (Sample.envelope "27820000002"
                                      (Sample.padded "CS101"))))
                  Sample.start))
  = [Got "admins/27820000002"; Got "students/27820000002"; Got "classes/CS";
     Sent (VStr "27820000002")
          (course_reply Sample.calm "CS101" (VStr "2025-01-16") (VStr "10:00")
                        (VStr "Dr Turing"))] /\
  log (snd (serve (whatsapp_webhook Sample.calm
                     (post_json [] (Sample.envelope "27820000005" "SE999")))
                  Sample.start))
  = [Got "admins/27820000005"; Got "students/27820000005"; Got "classes/SE"].
Proof.
  split.
  - exact (proj2 (proj2
             (course_details_reply Sample.calm []
                (Sample.envelope "27820000002" (Sample.padded "CS101"))
                (VStr "27820000002") (Sample.padded "CS101")
                [("CS101", Sample.class_record "2025-01-16" "10:00" "Dr Turing")]
                (Sample.class_record "2025-01-16" "10:00" "Dr Turing") Sample.start
                (envelope_carries _ _) (fun _ => eq_refl)
                eq_refl eq_refl eq_refl eq_refl eq_refl))).
  - exact (proj2 (proj2
             (course_details_reply Sample.calm []
                (Sample.envelope "27820000005" "SE999") (VStr "27820000005")
                "SE999" se_classes (VStr "cancelled") Sample.start
                (envelope_carries _ _) (fun _ => eq_refl)
                eq_refl eq_refl eq_refl eq_refl eq_refl))).
Defined.

(** ** The assistant when calls fail *)

Lemma course_or_assistant_to_assistant (E : env) (from_number : value) (text : string)
      (items : dict) (w : world) :
  fault E (clock w) = false ->
  fault E (S (clock w)) = false ->
  class_mapping (fmt E (resolved_department E from_number (db w))) (db w) = VDict items ->
  Dict.mem text items = false ->
  course_or_assistant E from_number text w =
  (try_except
     (content <- chat_completion E text ;;
      send_whatsapp_message E from_number (Str.strip content))
     (fun _ => send_whatsapp_message E from_number apology) ;;
   do_return ok200)
    (record (Got ("classes/" ++ fmt E (resolved_department E from_number (db w))))
       (record (Got ("students/" ++ fmt E from_number)) w)).
Proof.
  intros H0 H1 Hmap Hmem. unfold course_or_assistant.
  unfold bind at 1. rewrite get_department_run, H0.
  unfold bind at 1. rewrite db_get_run by assumption.
  cbn [db record tick]. cbv zeta.
  change (if truthy (Store.lookup
                       (Store.segments
                          ("classes/" ++ fmt E (resolved_department E from_number (db w))))
                       (db w))
          then Store.lookup
                 (Store.segments
                    ("classes/" ++ fmt E (resolved_department E from_number (db w))))
                 (db w)
          else VDict [])
    with (class_mapping (fmt E (resolved_department E from_number (db w))) (db w)).
  rewrite Hmap. cbn [contains]. rewrite Hmem. reflexivity.
Qed.

(** X9: what a sender gets when the text goes to the assistant (no keyword
    branch takes it and it is no course code of the department) and calls
    fail, the three lookups succeeding.  When the call of the assistant
    raises, when its reply has no content, and when the POST of the answer
    fails, the apology goes out instead of an answer.  When the answer has
    gone out and the decoding of the response raises, the apology goes out
    after the answer.  The database is never changed and the status is
    200. *)
Theorem assistant_failure_sends_apology (E : env) (query : list (string * string))
        (data from_number : value) (raw : string) (items : dict) (w : world) :
  carries data from_number raw ->
  let text := Str.strip raw in
  let dept := resolved_department E from_number (db w) in
  let c := clock w in
  fault E c = false -> fault E (S c) = false -> fault E (S (S c)) = false ->
  Str.startswith "adminupdate" (lower E text)
    && is_True (admin_flag E from_number (db w)) = false ->
  Str.mem (lower E text) ["next class"; "when is my next class?"] = false ->
  (lower E text =? "my courses")%string = false ->
  class_mapping (fmt E dept) (db w) = VDict items ->
  Dict.mem text items = false ->
  let out := serve (whatsapp_webhook E (post_json query data)) w in
  let lookups := [Got ("admins/" ++ fmt E from_number);
                  Got ("students/" ++ fmt E from_number);
                  Got ("classes/" ++ fmt E dept)] in
  fst out = ok200 /\
  db (snd out) = db w /\
  (fault E (S (S (S c))) = true -> fault E (S (S (S (S c)))) = false ->
   log (snd out) = (log w ++ lookups ++ [Sent from_number apology])%list) /\
  (fault E (S (S (S c))) = false -> assistant E text = None ->
   fault E (S (S (S (S c)))) = false ->
   log (snd out) = (log w ++ lookups ++ [Asked text; Sent from_number apology])%list) /\
  (forall content,
      fault E (S (S (S c))) = false -> assistant E text = Some content ->
      fault E (S (S (S (S c)))) = true -> fault E (S (S (S (S (S c))))) = false ->
      log (snd out) = (log w ++ lookups ++ [Asked text; Sent from_number apology])%list) /\
  (forall content,
      fault E (S (S (S c))) = false -> assistant E text = Some content ->
      fault E (S (S (S (S c)))) = false -> fault E (S (S (S (S (S c))))) = true ->
      fault E (S (S (S (S (S (S c)))))) = false ->
      log (snd out) =
        (log w ++ lookups ++ [Asked text; Sent from_number (Str.strip content);
                              Sent from_number apology])%list).
Proof.
  intros Hcarries text dept c H0 H1 H2 Hadmin Hphrase Hcourses Hmap Hmem out lookups.
  subst out lookups c.
  assert (Hrun : whatsapp_webhook E (post_json query data) w =
                 (try_except
                    (try_except
                       (content <- chat_completion E text ;;
                        send_whatsapp_message E from_number (Str.strip content))
                       (fun _ => send_whatsapp_message E from_number apology) ;;
                     do_return ok200)
                    (fun _ => ret tt) ;;
                  do_return ok200)
                   (record (Got ("classes/" ++ fmt E dept))
                      (record (Got ("students/" ++ fmt E from_number))
                         (record (Got ("admins/" ++ fmt E from_number)) w)))).
  { rewrite (webhook_on_message E query _ _ _ w Hcarries).
    rewrite dispatch_run by assumption.
    fold text. unfold route. rewrite Hadmin, Hphrase, Hcourses.
    apply wrapped_cong.
    now apply (course_or_assistant_to_assistant E from_number text items
                 (record (Got ("admins/" ++ fmt E from_number)) w)). }
  rewrite serve_world. unfold serve. rewrite Hrun. clear Hrun.
  unfold bind, try_except, chat_completion, send_whatsapp_message, bind, external.
  unfold record, tick. cbn [clock db log].
  destruct (fault E (S (S (S (clock w))))) eqn:H3; cbn [clock db log];
    [ | destruct (assistant E text) as [ content | ] eqn:Ha; cbn [clock db log] ];
    (destruct (fault E (S (S (S (S (clock w)))))) eqn:H4; cbn [clock db log]);
    (destruct (fault E (S (S (S (S (S (clock w))))))) eqn:H5; cbn [clock db log]);
    (destruct (fault E (S (S (S (S (S (S (clock w)))))))) eqn:H6; cbn [clock db log]);
    try (destruct (fault E (S (S (S (S (S (S (S (clock w))))))))) eqn:H7;
         cbn [clock db log]);
    cbn [fst snd db log];
    repeat split; intros; try congruence; rewrite <- ?app_assoc;
    try reflexivity;
    match goal with
    | H : Some _ = Some _ |- _ => injection H as <-; reflexivity
    end.
Qed.

Lemma assistant_failure_sends_apology_witness :
  log (snd (serve (whatsapp_webhook (fails_at 5)
                     (post_json [] (Sample.envelope "27820000002" "What is a monad?")))
                  Sample.start))
  = [Got "admins/27820000002"; Got "students/27820000002"; Got "classes/CS";
     Asked "What is a monad?"; Sent (VStr "27820000002") "Ask your tutor.";
     Sent (VStr "27820000002") apology].
Proof.
  exact (proj2 (proj2 (proj2 (proj2 (proj2
           (assistant_failure_sends_apology (fails_at 5) []
              (Sample.envelope "27820000002" "What is a monad?") (VStr "27820000002")
              "What is a monad?"
              [("CS101", Sample.class_record "2025-01-16" "10:00" "Dr Turing")]
              Sample.start (envelope_carries _ _) eq_refl eq_refl eq_refl
              eq_refl eq_refl eq_refl eq_refl eq_refl)))))
           " Ask your tutor. " eq_refl eq_refl eq_refl eq_refl eq_refl).
Defined.

(** ** The admin command when calls fail *)

(** X10: an admin command with five tokens or more, from an admin, when a
    call fails after the admin lookup.  If the write of the class record
    fails, nothing is written and the sender gets "Error: Invalid adminupdate
    format.".  If the write succeeds and the POST of the confirmation fails,
    the record is written all the same and the sender gets that same error
    message.  If the confirmation has gone out and the decoding of the
    response raises, the record is written and the sender gets the
    confirmation and then the error message.  The status is 200 in every
    case. *)
Theorem admin_update_reports_failures_as_format_errors
        (E : env) (query : list (string * string))
        (data from_number : value) (raw : string) (w : world)
        (t0 dept code date time : string) (lecturer : list string) :
  carries data from_number raw ->
  Str.startswith "adminupdate" (lower E (Str.strip raw)) = true ->
  admin_flag E from_number (db w) = VBool true ->
  Str.split (Str.strip raw) = t0 :: dept :: code :: date :: time :: lecturer ->
  fault E (clock w) = false ->
  let out := serve (whatsapp_webhook E (post_json query data)) w in
  let path := "classes/" ++ dept ++ "/" ++ code in
  let record_ := VDict [("date", VStr date); ("time", VStr time);
                        ("lecturer", VStr (Str.join " " lecturer))] in
  let confirmation := Sent from_number ("Schedule updated for " ++ code ++ ".") in
  let error := Sent from_number "Error: Invalid adminupdate format." in
  fst out = ok200 /\
  (fault E (S (clock w)) = true -> fault E (S (S (clock w))) = false ->
   db (snd out) = db w /\
   log (snd out) = (log w ++ [Got ("admins/" ++ fmt E from_number); error])%list) /\
  (fault E (S (clock w)) = false -> fault E (S (S (clock w))) = true ->
   fault E (S (S (S (clock w)))) = false ->
   db (snd out) = Store.update (Store.segments path) record_ (db w) /\
   log (snd out) =
     (log w ++ [Got ("admins/" ++ fmt E from_number); Wrote path record_; error])%list) /\
  (fault E (S (clock w)) = false -> fault E (S (S (clock w))) = false ->
   fault E (S (S (S (clock w)))) = true ->
   fault E (S (S (S (S (clock w))))) = false ->
   db (snd out) = Store.update (Store.segments path) record_ (db w) /\
   log (snd out) =
     (log w ++ [Got ("admins/" ++ fmt E from_number); Wrote path record_;
                confirmation; error])%list).
Proof.
  intros Hcarries Hsw Hadmin Hsplit H0 out path record_ confirmation error.
  subst out confirmation error.
  rewrite serve_world. unfold serve.
  rewrite (webhook_on_message E query _ _ _ w Hcarries).
  rewrite dispatch_run by assumption.
  rewrite Hadmin. unfold route. rewrite Hsw. cbn [is_True andb].
  unfold admin_update. rewrite Hsplit. cbv zeta. fold path record_.
  unfold bind, try_except, db_set, send_whatsapp_message, bind, external.
  unfold record, tick. cbn [clock db log].
  destruct (fault E (S (clock w))) eqn:H1; cbn [clock db log];
    (destruct (fault E (S (S (clock w)))) eqn:H2; cbn [clock db log]);
    (destruct (fault E (S (S (S (clock w))))) eqn:H3; cbn [clock db log]);
    try (destruct (fault E (S (S (S (S (clock w)))))) eqn:H4; cbn [clock db log]);
    try (destruct (fault E (S (S (S (S (S (clock w))))))) eqn:H5; cbn [clock db log]);
    cbn [fst snd db log];
    repeat split; intros; try congruence; rewrite <- ?app_assoc; reflexivity.
Qed.

Lemma admin_update_reports_failures_as_format_errors_witness :
  let out := snd (serve (whatsapp_webhook (fails_at 3)
                           (post_json [] (Sample.envelope "27820000001"
                                            Sample.update_command)))
                        Sample.start) in
  Store.lookup (Store.segments "classes/SE/CS101") (db out)
  = Sample.class_record "2025-03-01" "10:00" "Dr Smith" /\
  log out =
    [Got "admins/27820000001";
     Wrote "classes/SE/CS101" (Sample.class_record "2025-03-01" "10:00" "Dr Smith");
     Sent (VStr "27820000001") "Schedule updated for CS101.";
     Sent (VStr "27820000001") "Error: Invalid adminupdate format."].
Proof.
  cbv zeta.
  destruct (proj2 (proj2 (proj2
              (admin_update_reports_failures_as_format_errors (fails_at 3) []
                 (Sample.envelope "27820000001" Sample.update_command)
                 (VStr "27820000001") Sample.update_command Sample.start
                 "adminupdate" "SE" "CS101" "2025-03-01" "10:00" ["Dr"; "Smith"]
                 (envelope_carries _ _) eq_refl eq_refl eq_refl eq_refl)))
              eq_refl eq_refl eq_refl eq_refl) as [Hdb Hlog].
  split; [ | exact Hlog ].
  rewrite Hdb. apply store_lookup_update.
Defined.

(** ** Registration: all or nothing, and read back *)

(** X12: for every request to the registration endpoint, of any content type
    and body and whether or not the store fails, one of two things holds.
    Either the request has a JSON content type and its body is an object
    whose fields [whatsapp] and [department] are truthy, the answer is 200
    with the confirmation, and exactly one write was made, of
    [{department: <that department>}] at [students/<that whatsapp>].  Or the
    status is not 200, nothing was written, and the outside is as it was. *)
Theorem register_student_all_or_nothing (E : env) (req : request) (w : world) :
  let out := serve (register_student E req) w in
  (exists d,
      is_json req = true /\ json req = Some (VDict d) /\
      let whatsapp := Dict.get_default "whatsapp" VNull d in
      let department := Dict.get_default "department" VNull d in
      let path := "students/" ++ fmt E whatsapp in
      truthy whatsapp = true /\ truthy department = true /\
      fst out = registered /\
      log (snd out) = (log w ++ [Wrote path (VDict [("department", department)])])%list /\
      db (snd out) =
        Store.update (Store.segments path) (VDict [("department", department)]) (db w)) \/
  (status (fst out) <> 200 /\ db (snd out) = db w /\ log (snd out) = log w).
Proof.
  cbv zeta. unfold serve.
  remember (register_student E req w) as run eqn:Hrun.
  unfold register_student, get_json in Hrun.
  destruct (is_json req) eqn:Hct; cbn [negb] in Hrun;
    [ | subst run; right; repeat split; simpl; lia ].
  destruct (json req) as [ data | ] eqn:Hjson;
    [ | subst run; right; repeat split; simpl; lia ].
  rewrite bind_ret_l in Hrun. unfold method_get in Hrun.
  destruct data as [ | b | n | s | l | d ];
    try (subst run; right; repeat split; simpl; lia).
  rewrite !bind_ret_l in Hrun. unfold bind at 1 in Hrun.
  destruct (truthy (Dict.get_default "whatsapp" VNull d)) eqn:Hw; cbn [negb orb] in Hrun;
    [ | subst run; right; repeat split; simpl; lia ].
  destruct (truthy (Dict.get_default "department" VNull d)) eqn:Hd; cbn [negb] in Hrun;
    [ | subst run; right; repeat split; simpl; lia ].
  unfold ret at 1 in Hrun. cbv beta iota in Hrun.
  unfold bind, db_set, external in Hrun.
  destruct (fault E (clock w)); subst run.
  - right. repeat split; simpl; lia.
  - left. exists d. repeat split; assumption || reflexivity.
Qed.

Lemma register_then_get_department_run (E : env) (query : list (string * string))
      (d : dict) (w : world) :
  truthy (Dict.get_default "whatsapp" VNull d) = true ->
  truthy (Dict.get_default "department" VNull d) = true ->
  fault E (clock w) = false ->
  snd (serve (register_student E (post_json query (VDict d))) w) =
  World (Store.update
           (Store.segments ("students/" ++ fmt E (Dict.get_default "whatsapp" VNull d)))
           (VDict [("department", Dict.get_default "department" VNull d)]) (db w))
        (log w ++ [Wrote ("students/" ++ fmt E (Dict.get_default "whatsapp" VNull d))
                         (VDict [("department", Dict.get_default "department" VNull d)])])
        (S (clock w)).
Proof.
  intros Hw Hd Hok. rewrite serve_world, register_student_run. cbv zeta.
  rewrite Hw, Hd. cbn [negb orb]. unfold bind.
  rewrite db_set_run by assumption. reflexivity.
Qed.

(** X13: registration is read back.  After a registration that succeeds, with
    the fields [whatsapp] and [department] of the body, [get_department] for
    that [whatsapp] returns that [department], whatever the student record
    was before (the lookup succeeding). *)
Theorem registered_department_is_resolved (E : env) (R : Type)
        (query : list (string * string)) (d : dict) (w : world) :
  let whatsapp := Dict.get_default "whatsapp" VNull d in
  let department := Dict.get_default "department" VNull d in
  truthy whatsapp = true ->
  truthy department = true ->
  fault E (clock w) = false ->
  fault E (S (clock w)) = false ->
  let w1 := snd (serve (register_student E (post_json query (VDict d))) w) in
  fst (get_department (R := R) E whatsapp w1) = Normal department.
Proof.
  intros whatsapp department Hw Hd H0 H1 w1. subst w1.
  rewrite (register_then_get_department_run E query d w Hw Hd H0).
  rewrite get_department_run. cbn [clock db]. rewrite H1. cbn [fst].
  unfold resolved_department. rewrite store_lookup_update.
  reflexivity.
Qed.

Lemma registered_department_is_resolved_witness :
  fst (get_department (R := response) Sample.calm (VStr "27820000002")
         (snd (serve (register_student Sample.calm
                        (post_json [] (VDict [("whatsapp", VStr "27820000002");
                                              ("department", VStr "EE")])))
                     Sample.start)))
  = Normal (VStr "EE").
Proof.
  exact (registered_department_is_resolved Sample.calm response []
           [("whatsapp", VStr "27820000002"); ("department", VStr "EE")]
           Sample.start eq_refl eq_refl eq_refl eq_refl).
Defined.

(** ** An update by an admin is read back by a student *)

Lemma split_slash_segment (a : string) :
  no_slash a = true ->
  forall cur rest,
    Store.split_slash cur (a ++ String "/" rest) =
    string_of_list_ascii (rev cur ++ list_ascii_of_string a) :: Store.split_slash [] rest.
Proof.
  induction a as [ | c a IH ]; intros Hno cur rest.
  - cbn. now rewrite app_nil_r.
  - cbn in Hno. apply andb_true_iff in Hno. destruct Hno as [Hc Hno].
    cbn [append Store.split_slash]. apply negb_true_iff in Hc. rewrite Hc.
    rewrite (IH Hno). cbn [rev list_ascii_of_string]. now rewrite <- app_assoc.
Qed.

Lemma split_slash_last (a : string) :
  no_slash a = true ->
  forall cur,
    Store.split_slash cur a = [string_of_list_ascii (rev cur ++ list_ascii_of_string a)].
Proof.
  induction a as [ | c a IH ]; intros Hno cur.
  - cbn. now rewrite app_nil_r.
  - cbn in Hno. apply andb_true_iff in Hno. destruct Hno as [Hc Hno].
    cbn [Store.split_slash]. apply negb_true_iff in Hc. rewrite Hc.
    rewrite (IH Hno). cbn [rev list_ascii_of_string]. now rewrite <- app_assoc.
Qed.

Lemma segments_of_segment (a : string) :
  segment a = true -> Store.segments a = [a].
Proof.
  unfold segment. intros H. apply andb_true_iff in H. destruct H as [Hne Hno].
  unfold Store.segments. rewrite (split_slash_last a Hno). cbn [rev app filter].
  rewrite string_of_list_ascii_of_string. now rewrite Hne.
Qed.

Lemma segments_of_class_record (dept code : string) :
  segment dept = true -> segment code = true ->
  Store.segments ("classes/" ++ dept ++ "/" ++ code) = ["classes"; dept; code].
Proof.
  intros Hd Hc. rewrite segments_classes. f_equal.
  pose proof (segments_of_segment code Hc) as Hcode.
  unfold segment in Hd. apply andb_true_iff in Hd. destruct Hd as [Hne Hno].
  unfold Store.segments in *.
  change ("/" ++ code) with (String "/" code).
  rewrite (split_slash_segment dept Hno). cbn [rev app filter].
  rewrite string_of_list_ascii_of_string, Hne. now rewrite Hcode.
Qed.

Lemma lookup_parent_of_update (p : list string) (k : string) (v : value) :
  forall s,
    Store.lookup p (Store.update (p ++ [k]) v s) =
    VDict (Dict.set k v (match Store.lookup p s with VDict kvs => kvs | _ => [] end)).
Proof.
  induction p as [ | a p IH ]; intros s.
  - reflexivity.
  - cbn [app Store.update Store.lookup Store.child]. unfold Dict.get_default at 1.
    rewrite dict_get_set_same. apply IH.
Qed.

Lemma lookup_other_root (a b : string) (p q : list string) (v s : value) :
  a <> b ->
  Store.lookup (a :: p) (Store.update (b :: q) v s) = Store.lookup (a :: p) s.
Proof.
  intros Hne. cbn [Store.update Store.lookup Store.child]. unfold Dict.get_default.
  rewrite dict_get_set_other by assumption.
  destruct s; reflexivity.
Qed.

Lemma admin_update_run (E : env) (query : list (string * string))
      (data from_number : value) (raw : string) (w : world)
      (t0 dept code date time : string) (lecturer : list string) :
  carries data from_number raw ->
  Str.startswith "adminupdate" (lower E (Str.strip raw)) = true ->
  admin_flag E from_number (db w) = VBool true ->
  Str.split (Str.strip raw) = t0 :: dept :: code :: date :: time :: lecturer ->
  (forall n, fault E n = false) ->
  let path := "classes/" ++ dept ++ "/" ++ code in
  let record_ := VDict [("date", VStr date); ("time", VStr time);
                        ("lecturer", VStr (Str.join " " lecturer))] in
  snd (serve (whatsapp_webhook E (post_json query data)) w) =
  World (Store.update (Store.segments path) record_ (db w))
        (log w ++ [Got ("admins/" ++ fmt E from_number); Wrote path record_;
                   Sent from_number ("Schedule updated for " ++ code ++ ".")])
        (S (S (S (S (clock w))))).
Proof.
  intros Hcarries Hsw Hadmin Hsplit Hok path record_.
  rewrite serve_world, (webhook_on_message E query _ _ _ w Hcarries).
  rewrite dispatch_run by apply Hok.
  rewrite Hadmin. unfold route. rewrite Hsw. cbn [is_True andb].
  unfold admin_update. rewrite Hsplit. cbv zeta.
  unfold bind, try_except.
  rewrite db_set_run by apply Hok.
  rewrite send_run by apply Hok.
  unfold do_return, record, tick. cbn [snd db log clock].
  rewrite <- !app_assoc. reflexivity.
Qed.

(** X14: what an admin writes is what a student reads.  After an admin
    command for the department [dept] and the course [code] (neither empty
    nor with a '/'), a student whose resolved department is [dept] and who
    sends [code] as text gets the date, the time and the lecturer of that
    command, whatever the class record held before.  (The student's text is
    taken by no keyword branch; no external call fails, which leaves out a
    department or a code that the client library refuses in a path.) *)
Theorem admin_update_is_read_back (E : env) (query query' : list (string * string))
        (data data' admin student : value) (raw raw' : string) (w : world)
        (t0 dept code date time : string) (lecturer : list string) :
  carries data admin raw ->
  Str.startswith "adminupdate" (lower E (Str.strip raw)) = true ->
  admin_flag E admin (db w) = VBool true ->
  Str.split (Str.strip raw) = t0 :: dept :: code :: date :: time :: lecturer ->
  segment dept = true ->
  segment code = true ->
  (forall n, fault E n = false) ->
  carries data' student raw' ->
  Str.strip raw' = code ->
  resolved_department E student (db w) = VStr dept ->
  Str.startswith "adminupdate" (lower E code)
    && is_True (admin_flag E student (db w)) = false ->
  Str.mem (lower E code) ["next class"; "when is my next class?"] = false ->
  (lower E code =? "my courses")%string = false ->
  let w1 := snd (serve (whatsapp_webhook E (post_json query data)) w) in
  let out := serve (whatsapp_webhook E (post_json query' data')) w1 in
  fst out = ok200 /\
  log (snd out) =
    (log w1 ++ [Got ("admins/" ++ fmt E student);
                Got ("students/" ++ fmt E student);
                Got ("classes/" ++ dept);
                Sent student
                     (course_reply E code (VStr date) (VStr time)
                                   (VStr (Str.join " " lecturer)))])%list.
Proof.
  intros Hcarries Hsw Hadmin Hsplit Hdept Hcode Hok Hcarries' Htext Hresolved
         Hbranch Hphrase Hcourses w1 out.
  subst out w1.
  rewrite (admin_update_run E query data admin raw w t0 dept code date time lecturer
             Hcarries Hsw Hadmin Hsplit Hok).
  rewrite (segments_of_class_record dept code Hdept Hcode).
  set (record_ := VDict [("date", VStr date); ("time", VStr time);
                         ("lecturer", VStr (Str.join " " lecturer))]).
  set (db1 := Store.update ["classes"; dept; code] record_ (db w)).
  set (w1 := World db1 _ _).
  assert (Hflag : admin_flag E student db1 = admin_flag E student (db w)).
  { unfold admin_flag, db1.
    change (Store.segments ("admins/" ++ fmt E student))
      with ("admins" :: Store.segments (fmt E student)).
    now apply lookup_other_root. }
  assert (Hres : resolved_department E student db1 = VStr dept).
  { rewrite <- Hresolved. unfold resolved_department, db1.
    rewrite segments_students. now rewrite lookup_other_root by discriminate. }
  assert (Hmap : exists kvs,
             class_mapping (fmt E (resolved_department E student db1)) db1
             = VDict (Dict.set code record_ kvs)).
  { rewrite Hres. cbn [fmt]. unfold class_mapping, db1.
    rewrite segments_classes, (segments_of_segment dept Hdept). cbv zeta.
    change ["classes"; dept; code] with (["classes"; dept] ++ [code])%list.
    rewrite (lookup_parent_of_update ["classes"; dept] code record_ (db w)).
    rewrite dict_set_truthy. eexists. reflexivity. }
  destruct Hmap as (kvs & Hmap).
  pose proof (course_or_assistant_known E student code (Dict.set code record_ kvs)
                record_ (record (Got ("admins/" ++ fmt E student)) w1) Hok Hmap
                (dict_get_set_same code record_ kvs)) as Hrun.
  cbv zeta in Hrun. cbn [db record w1 tick] in Hrun.
  change (db (record (Got ("admins/" ++ fmt E student)) w1)) with db1 in Hrun.
  rewrite Hres in Hrun. cbn [fmt] in Hrun.
  erewrite serve_returned;
    [ | rewrite (webhook_on_message E query' _ _ _ w1 Hcarries');
        rewrite dispatch_run by apply Hok;
        rewrite Htext; unfold route;
        change (db w1) with db1; rewrite Hflag, Hbranch, Hphrase, Hcourses;
        unfold bind, try_except; rewrite Hrun; reflexivity
      | discriminate ].
  cbn [fst snd log record tick]. split; [ reflexivity | ].
  rewrite <- !app_assoc. reflexivity.
Qed.

Lemma admin_update_is_read_back_witness :
  let w1 := snd (serve (whatsapp_webhook Sample.calm
                          (post_json [] (Sample.envelope "27820000001"
                             "adminupdate CS CS101 2025-03-01 10:00 Dr Smith")))
                       Sample.start) in
  log (snd (serve (whatsapp_webhook Sample.calm
                     (post_json [] (Sample.envelope "27820000002" "CS101"))) w1))
  = (log w1 ++
     [Got "admins/27820000002"; Got "students/27820000002"; Got "classes/CS";
      Sent (VStr "27820000002")
           (course_reply Sample.calm "CS101" (VStr "2025-03-01") (VStr "10:00")
                         (VStr "Dr Smith"))])%list.
Proof.
  exact (proj2
           (admin_update_is_read_back Sample.calm [] []
              (Sample.envelope "27820000001"
                 "adminupdate CS CS101 2025-03-01 10:00 Dr Smith")
              (Sample.envelope "27820000002" "CS101")
              (VStr "27820000001") (VStr "27820000002")
              "adminupdate CS CS101 2025-03-01 10:00 Dr Smith" "CS101" Sample.start
              "adminupdate" "CS" "CS101" "2025-03-01" "10:00" ["Dr"; "Smith"]
              (envelope_carries _ _) eq_refl eq_refl eq_refl eq_refl eq_refl
              (fun _ => eq_refl) (envelope_carries _ _) eq_refl eq_refl
              eq_refl eq_refl eq_refl)).
Defined.

(** ** What a message can write *)

Lemma keeps_next_class_query_own (allowed : effect -> Prop) (E : env)
      (Q : response -> Prop) (from_number : value) :
  (forall p, allowed (Got p)) ->
  (forall to message, allowed (Sent to message)) ->
  allowed (Wrote ("students/" ++ fmt E from_number) default_registration) ->
  Q ok200 ->
  keeps allowed Q (next_class_query E from_number).
Proof.
  intros Hget Hsend Hset HQ.
  intros w. rewrite next_class_query_parts. revert w.
  change (keeps allowed Q
            (dept <- get_department E from_number ;;
             (if is_SE dept
              then db_set E ("students/" ++ fmt E from_number) default_registration
              else ret tt) ;;
             next_class_reply E from_number)).
  apply keeps_bind; [ apply keeps_get_department; intros; apply Hget | intros dept ].
  apply keeps_bind; [ | intros _ ].
  - destruct (is_SE dept); [ now apply keeps_db_set | apply keeps_ret ].
  - apply keeps_next_class_reply; auto.
Qed.

Lemma lookup_update_apart (p : list string) :
  forall q v s, apart p q = true ->
                Store.lookup p (Store.update q v s) = Store.lookup p s.
Proof.
  induction p as [ | a p IH ]; intros [ | b q ] v s Hapart; try discriminate.
  cbn [apart] in Hapart. destruct (String.eqb_spec a b) as [-> | Hne].
  - cbn [Store.update Store.lookup Store.child]. unfold Dict.get_default at 1.
    rewrite dict_get_set_same. now apply IH.
  - now apply lookup_other_root.
Qed.

(** Writes that spare a path leave the document at that path as it was. *)
Lemma replay_spares (q : list string) (new : list effect) :
  forall s, Forall (spares q) new -> Store.lookup q (replay new s) = Store.lookup q s.
Proof.
  induction new as [ | e new IH ]; intros s Hall; [ reflexivity | ].
  inversion Hall as [ | e' new' He Hnew ]; subst.
  cbn [replay fold_left]. fold (replay new).
  destruct e as [ p | p v | to message | text ]; try (now apply IH).
  change (fold_left _ new ?x) with (replay new x).
  rewrite (IH _ Hnew). now apply lookup_update_apart.
Qed.

(** X11: whatever a message says and whichever calls fail, the database
    after its handling is the database before with the writes of the log
    replayed, and the only writes are the default registration
    [{department: 'SE'}] at the path [students/<sender>] and, for a sender
    whose flag in [admins/] is [True], writes at paths that begin with
    [classes/].  So no message changes anything under [admins/]; a sender
    who is not an admin changes nothing under [classes/]; and a sender whose
    id is one segment of a path (not empty, without '/') changes the record of
    no other student.  (For a sender id that is empty or has a '/' in it,
    [students/<sender>] names the node of all students or a place inside
    another record: see [empty_sender_replaces_students].) *)
Theorem message_writes_are_confined (E : env) (query : list (string * string))
        (data from_number : value) (raw : string) (w : world) :
  carries data from_number raw ->
  let out := snd (serve (whatsapp_webhook E (post_json query data)) w) in
  let admin := is_True (admin_flag E from_number (db w)) in
  (exists new,
      log out = (log w ++ new)%list /\
      Forall (sender_write E from_number admin) new /\
      db out = replay new (db w)) /\
  (forall q,
      Store.lookup ("admins" :: q) (db out) = Store.lookup ("admins" :: q) (db w)) /\
  (admin = false ->
   forall q,
     Store.lookup ("classes" :: q) (db out) = Store.lookup ("classes" :: q) (db w)) /\
  (segment (fmt E from_number) = true ->
   forall other q,
     other <> fmt E from_number ->
     Store.lookup ("students" :: other :: q) (db out)
     = Store.lookup ("students" :: other :: q) (db w)).
Proof.
  intros Hcarries out admin.
  assert (Hnew : exists new,
             log out = (log w ++ new)%list /\
             Forall (sender_write E from_number admin) new /\
             db out = replay new (db w)).
  { subst out.
    rewrite serve_world, (webhook_on_message E query _ _ _ w Hcarries).
    destruct (fault E (clock w)) eqn:H0.
    - rewrite dispatch_admin_lookup_fails by assumption.
      exists []. cbn [snd tick log db]. rewrite app_nil_r. repeat split. constructor.
    - rewrite dispatch_run by assumption. rewrite wrapped_world. fold admin.
      assert (K : keeps (sender_write E from_number admin) (fun _ : response => True)
                        (route E from_number (Str.strip raw) admin)).
      { assert (Hrest : keeps (sender_write E from_number admin)
                          (fun _ : response => True)
                          (if Str.mem (lower E (Str.strip raw))
                                      ["next class"; "when is my next class?"]
                           then next_class_query E from_number
                           else if (lower E (Str.strip raw) =? "my courses")%string
                                then my_courses E from_number
                                else course_or_assistant E from_number (Str.strip raw))).
        { destruct (Str.mem (lower E (Str.strip raw))
                            ["next class"; "when is my next class?"]).
          - apply keeps_next_class_query_own; try (intros; exact I). left. now split.
          - destruct (lower E (Str.strip raw) =? "my courses")%string.
            + apply keeps_my_courses; intros; exact I.
            + apply keeps_course_or_assistant; intros; exact I. }
        unfold route.
        destruct (Str.startswith "adminupdate" (lower E (Str.strip raw))); cbn [andb];
          [ | exact Hrest ].
        destruct admin; cbn [andb]; [ | exact Hrest ].
        apply keeps_admin_update; try (intros; exact I).
        intros x v. right. split; [ reflexivity | ]. now exists x. }
      destruct (K (record (Got ("admins/" ++ fmt E from_number)) w))
        as [(new & Hlog & Hall & Hdb) _].
      exists (Got ("admins/" ++ fmt E from_number) :: new). split; [ | split ].
      + rewrite Hlog. cbn [log record tick]. now rewrite <- app_assoc.
      + constructor; [ exact I | assumption ].
      + exact Hdb. }
  split; [ exact Hnew | ].
  destruct Hnew as (new & _ & Hall & ->).
  split; [ | split ].
  - intros q. apply replay_spares.
    apply (Forall_impl _ (P := sender_write E from_number admin)); [ | exact Hall ].
    intros [ p | p v | to message | text ] H; try exact I.
    destruct H as [[-> _] | [_ (x & ->)]]; reflexivity.
  - intros Hadmin q. apply replay_spares.
    apply (Forall_impl _ (P := sender_write E from_number admin)); [ | exact Hall ].
    intros [ p | p v | to message | text ] H; try exact I.
    destruct H as [[-> _] | [Habs _]]; [ reflexivity | congruence ].
  - intros Hseg other q Hne. apply replay_spares.
    apply (Forall_impl _ (P := sender_write E from_number admin)); [ | exact Hall ].
    intros [ p | p v | to message | text ] H; try exact I.
    destruct H as [[-> _] | [_ (x & ->)]]; [ | reflexivity ].
    unfold spares. rewrite segments_students, (segments_of_segment _ Hseg).
    cbn [apart]. change ("students" =? "students")%string with true. cbv iota.
    now destruct (String.eqb_spec other (fmt E from_number)).
Qed.

Lemma message_writes_are_confined_witness :
  let out := snd (serve (whatsapp_webhook Sample.calm
                           (post_json [] (Sample.envelope "27820000009"
                                            Sample.padded_phrase)))
                        Sample.start) in
  Store.lookup ["admins"] (db out) = Store.lookup ["admins"] (db Sample.start) /\
  Store.lookup ["classes"] (db out) = Store.lookup ["classes"] (db Sample.start) /\
  Store.lookup ["students"; "27820000004"] (db out)
  = VDict [("department", VStr "SE"); ("name", VStr "Ada")].
Proof.
  cbv zeta.
  destruct (message_writes_are_confined Sample.calm []
              (Sample.envelope "27820000009" Sample.padded_phrase)
              (VStr "27820000009") Sample.padded_phrase Sample.start
              (envelope_carries _ _)) as (_ & Hadmins & Hclasses & Hstudents).
  split; [ exact (Hadmins []) | ].
  split; [ exact (Hclasses eq_refl []) | ].
  rewrite (Hstudents eq_refl "27820000004" []); [ reflexivity | discriminate ].
Defined.

(** A sender id that is no segment of a path: the message "next class" with
    the empty string as sender replaces the node of all students by the
    default registration. *)
Example empty_sender_replaces_students :
  segment "" = false /\
  Store.lookup ["students"]
    (db (snd (serve (whatsapp_webhook Sample.calm
                       (post_json [] (Sample.envelope "" "next class")))
                    Sample.start)))
  = default_registration.
Proof. split; reflexivity. Qed.

(** ** Who is written to *)

Section Replies.
Variable allowed : effect -> Prop.
Variable E : env.
Variable from_number : value.
Variable Q : response -> Prop.

Hypothesis may_look : forall p, allowed (Got p).
Hypothesis may_reply : forall message, allowed (Sent from_number message).
Hypothesis may_consult : forall text, allowed (Asked text).
Hypothesis may_store : forall p v, allowed (Wrote p v).
Hypothesis Q_ok200 : Q ok200.

Lemma replies_admin_update (text : string) :
  keeps allowed Q (admin_update E from_number text).
Proof.
  unfold admin_update.
  apply keeps_bind; [ | intros; now apply keeps_return ].
  apply keeps_try; [ | intros; apply keeps_send, may_reply ].
  destruct (Str.split text) as [ | t0 [ | dept [ | code [ | date [ | time lecturer ]]]]];
    try apply keeps_raise.
  cbv zeta.
  apply keeps_bind; [ apply keeps_db_set, may_store | intros; apply keeps_send, may_reply ].
Qed.

Lemma replies_next_class_query : keeps allowed Q (next_class_query E from_number).
Proof.
  intros w. rewrite next_class_query_parts. revert w.
  change (keeps allowed Q
            (dept <- get_department E from_number ;;
             (if is_SE dept
              then db_set E ("students/" ++ fmt E from_number) default_registration
              else ret tt) ;;
             next_class_reply E from_number)).
  apply keeps_bind; [ apply keeps_get_department; intros; apply may_look | intros dept ].
  apply keeps_bind; [ | intros _ ].
  - destruct (is_SE dept); [ apply keeps_db_set, may_store | apply keeps_ret ].
  - apply keeps_next_class_reply; auto.
Qed.

Lemma replies_my_courses : keeps allowed Q (my_courses E from_number).
Proof.
  unfold my_courses.
  apply keeps_bind; [ apply keeps_get_department; intros; apply may_look | intros dept ].
  apply keeps_bind; [ apply keeps_db_get, may_look | intros got ].
  cbv zeta.
  apply keeps_bind; [ | intros; now apply keeps_return ].
  match goal with |- keeps _ _ (if ?b then _ else _) => destruct b end.
  - apply keeps_bind; [ apply keeps_method_keys | intros; apply keeps_send, may_reply ].
  - apply keeps_send, may_reply.
Qed.

Lemma replies_course_or_assistant (text : string) :
  keeps allowed Q (course_or_assistant E from_number text).
Proof.
  unfold course_or_assistant.
  apply keeps_bind; [ apply keeps_get_department; intros; apply may_look | intros dept ].
  apply keeps_bind; [ apply keeps_db_get, may_look | intros got ].
  cbv zeta.
  apply keeps_bind; [ apply keeps_contains | intros known ].
  apply keeps_bind; [ | intros _ ].
  - destruct known; [ | apply keeps_ret ].
    apply keeps_bind; [ apply keeps_getitem | intros details ].
    do 3 (apply keeps_bind; [ apply keeps_method_get | intros ? ]).
    apply keeps_bind; [ apply keeps_send, may_reply | intros; now apply keeps_return ].
  - apply keeps_bind; [ | intros; now apply keeps_return ].
    apply keeps_try; [ | intros; apply keeps_send, may_reply ].
    apply keeps_bind; [ apply keeps_chat, may_consult | intros; apply keeps_send, may_reply ].
Qed.

Lemma replies_route (text : string) (is_admin : bool) :
  keeps allowed Q (route E from_number text is_admin).
Proof.
  unfold route.
  repeat match goal with |- keeps _ _ (if ?b then _ else _) => destruct b end.
  - apply replies_admin_update.
  - apply replies_next_class_query.
  - apply replies_my_courses.
  - apply replies_course_or_assistant.
Qed.

End Replies.

(** X15: whatever a message says and whichever calls fail, every message
    that its handling sends goes to the sender of that message. *)
Theorem replies_go_to_the_sender (E : env) (query : list (string * string))
        (data from_number : value) (raw : string) (w : world) :
  carries data from_number raw ->
  exists new,
    log (snd (serve (whatsapp_webhook E (post_json query data)) w)) = (log w ++ new)%list /\
    Forall (addressed_to from_number) new.
Proof.
  intros Hcarries.
  rewrite serve_world, (webhook_on_message E query _ _ _ w Hcarries).
  destruct (fault E (clock w)) eqn:H0.
  - rewrite dispatch_admin_lookup_fails by assumption.
    exists []. cbn [snd tick log]. now rewrite app_nil_r.
  - rewrite dispatch_run by assumption. rewrite wrapped_world.
    destruct (replies_route (addressed_to from_number) E from_number
                (fun _ : response => True)
                (fun _ => I) (fun _ => eq_refl) (fun _ => I) (fun _ _ => I) I
                (Str.strip raw) (is_True (admin_flag E from_number (db w)))
                (record (Got ("admins/" ++ fmt E from_number)) w))
      as [(new & Hlog & Hall & _) _].
    exists (Got ("admins/" ++ fmt E from_number) :: new). split.
    + rewrite Hlog. cbn [log record tick]. now rewrite <- app_assoc.
    + constructor; [ exact I | assumption ].
Qed.

Lemma replies_go_to_the_sender_witness :
  exists new,
    log (snd (serve (whatsapp_webhook Sample.calm
                       (post_json [] (Sample.envelope "27820000002" "my courses")))
                    Sample.start)) = (log Sample.start ++ new)%list /\
    Forall (addressed_to (VStr "27820000002")) new.
Proof.
  exact (replies_go_to_the_sender Sample.calm []
           (Sample.envelope "27820000002" "my courses") (VStr "27820000002")
           "my courses" Sample.start (envelope_carries _ _)).
Defined.
